(** * hub_agent.py: the USB Insight Hub display agent

    A shallow embedding of [src/hub_agent.py] and the properties of its
    topology mapper, bootloader probe, channel scan, display push and
    reconnect logic, and of its registry parser, hub discovery, status
    report, main loop and command line.

    Python values are modelled as follows.
    - [str] is [string]; a character is a code point below 256.
    - [None]-or-string attributes are [option string]; Python's truth test
      [not x] is [negb (truthy x)]: [None] and the empty string are false.
    - a [dict] keyed by strings is a [gmap string _].
    - [bytes] is [list byte].
    - calls to the outside world ([comports()], the serial ports) take their
      answers from explicit arguments, and the calls that matter for the
      properties are recorded in a trace kept in the agent state. *)

From Stdlib Require Import ZArith Ascii String.
From Stdlib.Strings Require Import Byte.
From stdpp Require Import base option list strings gmap fin_maps.

Local Open Scope string_scope.
Local Open Scope Z_scope.

(** ** Python strings *)

Module Py.

(** [not x] for an attribute that is [None] or a [str]. *)
Definition truthy (x : option string) : bool :=
  match x with
  | Some (String _ _) => true
  | _ => false
  end.

(** [s.startswith(p)] *)
Fixpoint startswith (s p : string) {struct p} : bool :=
  match p, s with
  | EmptyString, _ => true
  | String a p', String b s' => if Ascii.eqb a b then startswith s' p' else false
  | String _ _, EmptyString => false
  end.

(** [s[n:]] for [n >= 0] *)
Fixpoint slice_from (n : nat) (s : string) : string :=
  match n, s with
  | O, _ => s
  | S n', String _ s' => slice_from n' s'
  | S _, EmptyString => EmptyString
  end.

(** [s.split(".")[0]]: the text before the first dot, all of [s] if it has
    none. *)
Fixpoint split_dot_head (s : string) : string :=
  match s with
  | EmptyString => EmptyString
  | String c s' => if Ascii.eqb c "." then EmptyString else String c (split_dot_head s')
  end.

(** [s[:n]] *)
Fixpoint slice_to (n : nat) (s : string) : string :=
  match n, s with
  | S n', String c s' => String c (slice_to n' s')
  | _, _ => EmptyString
  end.

(** The characters [int()] skips around a number: tab, line feed, vertical
    tab, form feed, carriage return, space, and the two one-byte code points
    U+0085 and U+00A0. *)
Definition is_space (c : ascii) : bool :=
  let n := N_of_ascii c in
  ((9 <=? n) && (n <=? 13) || (n =? 32) || (n =? 133) || (n =? 160))%N.

Definition digit_value (c : ascii) : option Z :=
  let n := N_of_ascii c in
  if ((48 <=? n) && (n <=? 57))%N then Some (Z.of_N n - 48) else None.

Fixpoint lstrip (s : string) : string :=
  match s with
  | String c s' => if is_space c then lstrip s' else s
  | EmptyString => s
  end.

Fixpoint all_space (s : string) : bool :=
  match s with
  | String c s' => is_space c && all_space s'
  | EmptyString => true
  end.

(** The digits of a decimal literal after its first digit: more digits, each
    optionally preceded by one underscore. Returns the value read and the
    text left over. *)
Fixpoint scan_digits (acc : Z) (s : string) : Z * string :=
  match s with
  | EmptyString => (acc, s)
  | String c s' =>
      match digit_value c with
      | Some d => scan_digits (10 * acc + d) s'
      | None =>
          if Ascii.eqb c "_" then
            match s' with
            | String c' s'' =>
                match digit_value c' with
                | Some d => scan_digits (10 * acc + d) s''
                | None => (acc, s)
                end
            | EmptyString => (acc, s)
            end
          else (acc, s)
      end
  end.

(** [int(s)] in base ten; [None] stands for [ValueError]. The interpreter's
    configurable cap on the number of digits is not modelled. *)
Definition int (s : string) : option Z :=
  let s1 := lstrip s in
  let '(sign, s2) :=
    match s1 with
    | String "+" r => (1, r)
    | String "-" r => (-1, r)
    | _ => (1, s1)
    end in
  match s2 with
  | String c r =>
      match digit_value c with
      | Some d =>
          let '(n, rest) := scan_digits d r in
          if all_space rest then Some (sign * n) else None
      | None => None
      end
  | EmptyString => None
  end.

(** [c.isspace()] for a code point below 256. *)
Definition isspace (c : ascii) : bool :=
  let n := N_of_ascii c in
  ((9 <=? n) && (n <=? 13) || (28 <=? n) && (n <=? 32)
   || (n =? 133) || (n =? 160))%N.

Fixpoint lstrip_ws (s : string) : string :=
  match s with
  | String c s' => if isspace c then lstrip_ws s' else s
  | EmptyString => s
  end.

Fixpoint rstrip_ws (s : string) : string :=
  match s with
  | EmptyString => EmptyString
  | String c s' =>
      match rstrip_ws s' with
      | EmptyString => if isspace c then EmptyString else String c EmptyString
      | r => String c r
      end
  end.

(** [s.strip()] *)
Definition strip (s : string) : string := rstrip_ws (lstrip_ws s).

(** ["." in s] *)
Fixpoint contains_dot (s : string) : bool :=
  match s with
  | EmptyString => false
  | String c s' => Ascii.eqb c "." || contains_dot s'
  end.

(** [s.rsplit(".", 1)[0]]: the text before the last dot, all of [s] if it
    has none. *)
Fixpoint rsplit_dot_head (s : string) : string :=
  match s with
  | EmptyString => EmptyString
  | String c s' =>
      if Ascii.eqb c "." && negb (contains_dot s') then EmptyString
      else String c (rsplit_dot_head s')
  end.

(** The one decimal digit [0 <= n <= 9] as a character. *)
Definition digit_char (n : Z) : ascii := ascii_of_N (Z.to_N (48 + n)).

(** Decimal text of a non-negative number, most significant digit first. *)
Fixpoint str_nat_go (fuel : nat) (n : Z) (acc : string) : string :=
  match fuel with
  | O => acc
  | S fuel' =>
      let acc' := String (digit_char (n mod 10)) acc in
      if n / 10 =? 0 then acc' else str_nat_go fuel' (n / 10) acc'
  end.

(** [str(n)] for an [int]. *)
Definition str (n : Z) : string :=
  if n <? 0 then String "-" (str_nat_go (Z.to_nat (- n)) (- n) EmptyString)
  else str_nat_go (S (Z.to_nat n)) n EmptyString.

(** [x or y] for two values that are [None] or a [str]. *)
Definition or_ (x y : option string) : option string :=
  if truthy x then x else y.

(** [c in s] for a string [c] of one character. *)
Fixpoint contains_char (c : ascii) (s : string) : bool :=
  match s with
  | EmptyString => false
  | String x s' => Ascii.eqb x c || contains_char c s'
  end.

(** [s.split(c, 1)] for a string [c] of one character that occurs in [s]:
    the text before its first occurrence and the text after it. *)
Fixpoint split1 (c : ascii) (s : string) : string * string :=
  match s with
  | EmptyString => (EmptyString, EmptyString)
  | String x s' =>
      if Ascii.eqb x c then (EmptyString, s')
      else let '(a, b) := split1 c s' in (String x a, b)
  end.

(** [s[:-1]] and [s[-1]] of a string that is not empty. *)
Fixpoint unsnoc (s : string) : option (string * ascii) :=
  match s with
  | EmptyString => None
  | String c s' =>
      match unsnoc s' with
      | None => Some (EmptyString, c)
      | Some (init, last) => Some (String c init, last)
      end
  end.

(** The line feed, the one character that [.] does not match in a regular
    expression. *)
Definition LF : ascii := ascii_of_N 10.

End Py.

(** ** Constants *)

Definition INSIGHT_HUB_PRODUCT : string := "InsightHUB Controller".
Definition INSIGHT_HUB_VID : Z := 0x303A.
Definition INSIGHT_HUB_PID : Z := 0x1001.
Definition CHANNELS : list string := ["CH1"; "CH2"; "CH3"].
Definition MAX_NAME_LEN : nat := 14.

(** ** Topology mapper *)

Definition truncate (s : string) : string :=
  if (MAX_NAME_LEN <? String.length s)%nat then Py.slice_to MAX_NAME_LEN s else s.

Definition port_to_channel (device_location hub_location : option string)
  : option string :=
  if negb (Py.truthy device_location) || negb (Py.truthy hub_location) then None
  else
    let d := default "" device_location in
    let h := default "" hub_location in
    if negb (Py.startswith d (h +:+ ".")) then None
    else
      let remainder := Py.slice_from (String.length h + 1) d in
      let port_str := Py.split_dot_head remainder in
      match Py.int port_str with
      | None => None
      | Some port =>
          if (1 <=? port) && (port <=? 3) then Some ("CH" +:+ Py.str port)
          else None
      end.

(** ** Bootloader probe *)

(** The low eight bits of an integer as a byte. *)
Definition byte_of_Z (z : Z) : byte :=
  default x00 (Byte.of_N (Z.to_N (Z.land z 255))).

(** [struct.pack("<BBHI", a, b, h, i)]: little-endian, standard sizes, no
    padding. *)
Definition pack_BBHI (a b h i : Z) : list byte :=
  [byte_of_Z a; byte_of_Z b;
   byte_of_Z h; byte_of_Z (Z.shiftr h 8);
   byte_of_Z i; byte_of_Z (Z.shiftr i 8);
   byte_of_Z (Z.shiftr i 16); byte_of_Z (Z.shiftr i 24)].

Definition ESP_SYNC : Z := 0x08.

Definition sync_data : list byte := ([x07; x07; x12; x20] ++ replicate 32 x55)%list.

Definition sync_pkt : list byte :=
  (pack_BBHI 0x00 ESP_SYNC (Z.of_nat (length sync_data)) 0 ++ sync_data)%list.

(** One turn of the framing loop: what is appended for the byte [b]. *)
Definition slip_escape (b : byte) : list byte :=
  if Byte.eqb b xc0 then [xdb; xdc]
  else if Byte.eqb b xdb then [xdb; xdd]
  else [b].

(** The framing loop of [probe_bootloader], for any packet. *)
Definition slip_frame (pkt : list byte) : list byte :=
  (fold_left (fun frame b => frame ++ slip_escape b) pkt [xc0] ++ [xc0])%list.

Definition sync_frame : list byte := slip_frame sync_pkt.

(** A call on a serial port either returns or raises. *)
Inductive io (A : Type) : Type :=
  | Returns (a : A)
  | Raises.
Arguments Returns {A} a.
Arguments Raises {A}.

Definition io_bind {A B} (m : io A) (k : A -> io B) : io B :=
  match m with
  | Returns a => k a
  | Raises => Raises
  end.

(** What one [serial.Serial] session on a device path does: each call of
    [probe_bootloader] on it returns or raises, and what is read may depend
    on what was written. *)
Record SerialSession := {
  ser_open : io unit;
  ser_reset_input_buffer : io unit;
  ser_write : list byte -> io unit;
  ser_flush : io unit;
  ser_read : list byte -> nat -> io (list byte);
  ser_close : io unit;
}.

(** [b"\xc0" in resp] *)
Definition contains_byte (b : byte) (resp : list byte) : bool :=
  existsb (Byte.eqb b) resp.

(** The body of the [try] block. *)
Definition probe_try (s : SerialSession) : io bool :=
  io_bind (ser_open s) (fun _ =>
  io_bind (ser_reset_input_buffer s) (fun _ =>
  io_bind (ser_write s sync_frame) (fun _ =>
  io_bind (ser_flush s) (fun _ =>
  io_bind (ser_read s sync_frame 100) (fun resp =>
  io_bind (ser_close s) (fun _ =>
  Returns (contains_byte xc0 resp && (4 <? length resp)%nat))))))).

(** [probe_bootloader(port_path)], given the session that opening
    [port_path] starts. *)
Definition probe_bootloader (s : SerialSession) : bool :=
  match probe_try s with
  | Returns b => b
  | Raises => false
  end.

(** ** Data model of the agent *)

(** What [comports()] reports for one attached serial device (a pyserial
    [ListPortInfo]); only the attributes the agent reads. *)
Record ListPortInfo := {
  device : option string;
  serial_number : option string;
  location : option string;
  product : option string;
  vid : option Z;
  pid : option Z;
}.

(** One entry of the registry, as [parse_devices_conf] builds it: a dict
    with exactly the keys name, serial_number, type and hub_name. *)
Record DeviceRecord := {
  dev_name : string;
  dev_serial_number : string;
  dev_type : string;
  dev_hub_name : string;
}.

(** [{"txt": ..., "color": ...}] *)
Record TextLine := { txt : string; color : string }.

(** [{"T1": ..., "T2": ...}], the second key optional. *)
Record Lines := { T1 : TextLine; T2 : option TextLine }.

(** The display dict of a channel. *)
Record Display := { Dev1_name : Lines; numDev : string; usbType : string }.

#[global] Instance TextLine_eq_dec : EqDecision TextLine.
Proof. solve_decision. Defined.
#[global] Instance Lines_eq_dec : EqDecision Lines.
Proof. solve_decision. Defined.
#[global] Instance Display_eq_dec : EqDecision Display.
Proof. solve_decision. Defined.

#[local] Set Warnings "-register-all".

(** A value that [json.loads] can return. A float is kept only up to
    whether it is non-zero, which is all that Python's truth test reads. *)
Inductive pyval : Type :=
  | PNone
  | PBool (b : bool)
  | PInt (z : Z)
  | PFloat (nonzero : bool)
  | PStr (s : string)
  | PList (l : list pyval)
  | PDict (d : list (string * pyval)).

(** Python's truth test. *)
Definition py_truthy (v : pyval) : bool :=
  match v with
  | PNone => false
  | PBool b => b
  | PInt z => negb (z =? 0)
  | PFloat nz => nz
  | PStr s => negb (String.eqb s "")
  | PList l => match l with [] => false | _ => true end
  | PDict d => match d with [] => false | _ => true end
  end.

(** [d.get(key)] on the items of a dict. *)
Fixpoint dict_get (key : string) (d : list (string * pyval)) : option pyval :=
  match d with
  | [] => None
  | (k, v) :: d' => if String.eqb k key then Some v else dict_get key d'
  end.

(** The hub's serial connection object. *)
Record Serial := { is_open : bool }.

(** One line of the agent's log: channel, name, color and outcome of a
    push. *)
Record LogLine := {
  log_channel : string; log_name : string; log_color : string; log_ok : bool;
}.

(** The attributes of a [HubAgent] that the methods below read or write,
    and five ghost attributes recording calls, newest first:
    [probed] the arguments of the calls of [_probe_state],
    [probes] the device paths given to [probe_bootloader],
    [pushed] the channel and display of the calls of [_push_channel],
    [writes] the messages given to [write] on the hub connection,
    [logged] the lines printed by [_push_channel]. *)
Record HubAgent := {
  hub_serial_port : string;
  hub_location : option string;
  devices : gmap string DeviceRecord;
  _ser : option Serial;
  _channel_display : gmap string Display;
  _channel_serials : gmap string string;
  _channel_states : gmap string string;
  _hub_lost : bool;
  running : bool;
  probed : list (ListPortInfo * string);
  probes : list string;
  pushed : list (string * Display);
  writes : list (string * Display);
  logged : list LogLine;
}.

Definition set_hub (port : string) (loc : option string) (a : HubAgent) :=
  {| hub_serial_port := port; hub_location := loc; devices := devices a;
     _ser := _ser a; _channel_display := _channel_display a;
     _channel_serials := _channel_serials a;
     _channel_states := _channel_states a; _hub_lost := _hub_lost a;
     running := running a; probed := probed a; probes := probes a;
     pushed := pushed a; writes := writes a; logged := logged a |}.

Definition set_ser (s : option Serial) (a : HubAgent) :=
  {| hub_serial_port := hub_serial_port a; hub_location := hub_location a;
     devices := devices a;
     _ser := s; _channel_display := _channel_display a;
     _channel_serials := _channel_serials a;
     _channel_states := _channel_states a; _hub_lost := _hub_lost a;
     running := running a; probed := probed a; probes := probes a;
     pushed := pushed a; writes := writes a; logged := logged a |}.

Definition set_channel_display (m : gmap string Display) (a : HubAgent) :=
  {| hub_serial_port := hub_serial_port a; hub_location := hub_location a;
     devices := devices a;
     _ser := _ser a; _channel_display := m;
     _channel_serials := _channel_serials a;
     _channel_states := _channel_states a; _hub_lost := _hub_lost a;
     running := running a; probed := probed a; probes := probes a;
     pushed := pushed a; writes := writes a; logged := logged a |}.

Definition set_channel_serials (m : gmap string string) (a : HubAgent) :=
  {| hub_serial_port := hub_serial_port a; hub_location := hub_location a;
     devices := devices a;
     _ser := _ser a; _channel_display := _channel_display a;
     _channel_serials := m;
     _channel_states := _channel_states a; _hub_lost := _hub_lost a;
     running := running a; probed := probed a; probes := probes a;
     pushed := pushed a; writes := writes a; logged := logged a |}.

Definition set_channel_states (m : gmap string string) (a : HubAgent) :=
  {| hub_serial_port := hub_serial_port a; hub_location := hub_location a;
     devices := devices a;
     _ser := _ser a; _channel_display := _channel_display a;
     _channel_serials := _channel_serials a;
     _channel_states := m; _hub_lost := _hub_lost a;
     running := running a; probed := probed a; probes := probes a;
     pushed := pushed a; writes := writes a; logged := logged a |}.

Definition set_hub_lost (b : bool) (a : HubAgent) :=
  {| hub_serial_port := hub_serial_port a; hub_location := hub_location a;
     devices := devices a;
     _ser := _ser a; _channel_display := _channel_display a;
     _channel_serials := _channel_serials a;
     _channel_states := _channel_states a; _hub_lost := b;
     running := running a; probed := probed a; probes := probes a;
     pushed := pushed a; writes := writes a; logged := logged a |}.

Definition set_running (b : bool) (a : HubAgent) :=
  {| hub_serial_port := hub_serial_port a; hub_location := hub_location a;
     devices := devices a;
     _ser := _ser a; _channel_display := _channel_display a;
     _channel_serials := _channel_serials a;
     _channel_states := _channel_states a; _hub_lost := _hub_lost a;
     running := b; probed := probed a; probes := probes a;
     pushed := pushed a; writes := writes a; logged := logged a |}.

Definition add_probe (path : string) (a : HubAgent) :=
  {| hub_serial_port := hub_serial_port a; hub_location := hub_location a;
     devices := devices a;
     _ser := _ser a; _channel_display := _channel_display a;
     _channel_serials := _channel_serials a;
     _channel_states := _channel_states a; _hub_lost := _hub_lost a;
     running := running a; probed := probed a; probes := path :: probes a;
     pushed := pushed a; writes := writes a; logged := logged a |}.

Definition add_probed (c : ListPortInfo * string) (a : HubAgent) :=
  {| hub_serial_port := hub_serial_port a; hub_location := hub_location a;
     devices := devices a;
     _ser := _ser a; _channel_display := _channel_display a;
     _channel_serials := _channel_serials a;
     _channel_states := _channel_states a; _hub_lost := _hub_lost a;
     running := running a; probed := c :: probed a; probes := probes a;
     pushed := pushed a; writes := writes a; logged := logged a |}.

Definition add_pushed (c : string * Display) (a : HubAgent) :=
  {| hub_serial_port := hub_serial_port a; hub_location := hub_location a;
     devices := devices a;
     _ser := _ser a; _channel_display := _channel_display a;
     _channel_serials := _channel_serials a;
     _channel_states := _channel_states a; _hub_lost := _hub_lost a;
     running := running a; probed := probed a; probes := probes a;
     pushed := c :: pushed a; writes := writes a; logged := logged a |}.

Definition add_write (msg : string * Display) (a : HubAgent) :=
  {| hub_serial_port := hub_serial_port a; hub_location := hub_location a;
     devices := devices a;
     _ser := _ser a; _channel_display := _channel_display a;
     _channel_serials := _channel_serials a;
     _channel_states := _channel_states a; _hub_lost := _hub_lost a;
     running := running a; probed := probed a; probes := probes a;
     pushed := pushed a; writes := msg :: writes a; logged := logged a |}.

Definition add_logged (l : LogLine) (a : HubAgent) :=
  {| hub_serial_port := hub_serial_port a; hub_location := hub_location a;
     devices := devices a;
     _ser := _ser a; _channel_display := _channel_display a;
     _channel_serials := _channel_serials a;
     _channel_states := _channel_states a; _hub_lost := _hub_lost a;
     running := running a; probed := probed a; probes := probes a;
     pushed := pushed a; writes := writes a; logged := l :: logged a |}.

(** [{d["serial_number"]: d for d in devices}]: a later entry replaces an
    earlier one with the same serial number. *)
Definition devices_by_serial (l : list DeviceRecord) : gmap string DeviceRecord :=
  fold_left (fun m d => <[dev_serial_number d := d]> m) l ∅.

(** [HubAgent.__init__] *)
Definition HubAgent_init (port : string) (loc : option string)
    (devs : list DeviceRecord) : HubAgent :=
  {| hub_serial_port := port; hub_location := loc;
     devices := devices_by_serial devs;
     _ser := None; _channel_display := ∅; _channel_serials := ∅;
     _channel_states := ∅; _hub_lost := false; running := false;
     probed := []; probes := []; pushed := []; writes := [];
     logged := [] |}.

(** ** The outside world *)

(** What happens to one message sent to the hub: the write, the flush or
    the read raises [OSError], or [readline()] returns a line (empty on a
    timeout), given here already decoded. *)
Inductive HubReply :=
  | HubOSError
  | HubLine (line : string).

(** The world the agent talks to.
    - [open_session n path]: the session that the [n]-th call of
      [probe_bootloader] (counting from 0) gets on [path];
    - [hub_transact n msg]: what the hub does with the [n]-th message
      written to it;
    - [json_loads]: the JSON decoder, [None] for [JSONDecodeError]. *)
Record World := {
  open_session : nat -> string -> SerialSession;
  hub_transact : nat -> string * Display -> HubReply;
  json_loads : string -> option pyval;
}.

(** ** Methods as state transformers that may raise *)

Inductive exn := KeyError | AttributeError.

Inductive outcome (A : Type) : Type :=
  | Ret (a : A)
  | Raise (e : exn).
Arguments Ret {A} a.
Arguments Raise {A} e.

Definition M (A : Type) : Type := HubAgent -> outcome A * HubAgent.

Definition ret {A} (x : A) : M A := fun a => (Ret x, a).
Definition raise {A} (e : exn) : M A := fun a => (Raise e, a).
Definition bind {A B} (m : M A) (k : A -> M B) : M B :=
  fun a => match m a with
           | (Ret x, a') => k x a'
           | (Raise e, a') => (Raise e, a')
           end.
Definition gets {A} (f : HubAgent -> A) : M A := fun a => (Ret (f a), a).
Definition modify (f : HubAgent -> HubAgent) : M unit := fun a => (Ret tt, f a).

Notation "'let*' x ':=' m 'in' k" := (bind m (fun x => k))
  (at level 10, x name, m at level 100, k at level 200).

(** [for x in l: acc = body(acc, x)] *)
Fixpoint for_fold {A B} (body : B -> A -> M B) (l : list A) (acc : B) : M B :=
  match l with
  | [] => ret acc
  | x :: l' => let* acc' := body acc x in for_fold body l' acc'
  end.

(** ** Hub discovery *)

(** [find_insight_hub()], given what [comports()] returns. *)
Fixpoint find_insight_hub (ports : list ListPortInfo)
  : option string * option string :=
  match ports with
  | [] => (None, None)
  | p :: ports' =>
      if bool_decide (product p = Some INSIGHT_HUB_PRODUCT)
         || bool_decide (vid p = Some INSIGHT_HUB_VID)
            && bool_decide (pid p = Some INSIGHT_HUB_PID)
      then
        let hub_location :=
          if Py.truthy (location p) then
            let l := default "" (location p) in
            if Py.contains_dot l then Some (Py.rsplit_dot_head l) else None
          else None in
        (device p, hub_location)
      else find_insight_hub ports'
  end.

(** ** Displays *)

Definition color_map : gmap string string :=
  <["disconnected" := "RED"]>
  (<["off" := "RED"]>
  (<["sleeping" := "CYAN"]>
  (<["bootloader" := "ORANGE"]>
  (<["running" := "GREEN"]> ∅)))).

Definition _build_display (hub_name state : string) : Display :=
  let name_color := default "GREEN" (color_map !! state) in
  let t1 := {| txt := truncate hub_name; color := name_color |} in
  let t2 :=
    if negb (String.eqb state "running")
    then Some {| txt := state; color := default "DARKGREY" (color_map !! state) |}
    else None in
  {| Dev1_name := {| T1 := t1; T2 := t2 |}; numDev := "10"; usbType := "2" |}.

Definition _empty_display : Display :=
  {| Dev1_name := {| T1 := {| txt := "---"; color := "DARKGREY" |}; T2 := None |};
     numDev := "10"; usbType := "2" |}.

(** ** Channel scan *)

Section Agent.
Context (w : World).

(** The call [probe_bootloader(path)] made by the agent: the session is the
    one the world opens for this call, and the call is recorded. *)
Definition call_probe_bootloader (path : string) : M bool :=
  fun a =>
    (Ret (probe_bootloader (open_session w (length (probes a)) path)),
     add_probe path a).

(** [_probe_state(port_info, device_type)]. A [ListPortInfo] object is
    always true, so only its device path is tested. *)
Definition _probe_state (port_info : ListPortInfo) (device_type : string)
  : M string :=
  let* _ := modify (add_probed (port_info, device_type)) in
  if negb (Py.truthy (device port_info)) then ret "sleeping"
  else if String.eqb device_type "esp32" then
    let* b := call_probe_bootloader (default "" (device port_info)) in
    if b then ret "bootloader" else ret "running"
  else ret "running".

(** The first loop of [_scan_channels]: which registered device sits on
    which channel; a later port replaces an earlier one on the same
    channel. *)
Definition channel_devices_of (devs : gmap string DeviceRecord)
    (hub_loc : option string) (ports : list ListPortInfo)
  : gmap string (string * ListPortInfo) :=
  fold_left
    (fun cd p =>
       if negb (Py.truthy (serial_number p))
          || negb (bool_decide (is_Some (devs !! default "" (serial_number p))))
       then cd
       else
         let channel := port_to_channel (location p) hub_loc in
         if Py.truthy channel
         then <[default "" channel := (default "" (serial_number p), p)]> cd
         else cd)
    ports ∅.

(** [self.devices[sn]] *)
Definition devices_getitem (sn : string) : M DeviceRecord :=
  fun a => match devices a !! sn with
           | Some dev => (Ret dev, a)
           | None => (Raise KeyError, a)
           end.

(** One turn of the second loop of [_scan_channels]. *)
Definition scan_channel (channel_devices : gmap string (string * ListPortInfo))
    (displays : gmap string Display) (ch : string) : M (gmap string Display) :=
  match channel_devices !! ch with
  | Some (sn, p) =>
      let* dev := devices_getitem sn in
      let* prev_sn := gets (fun a => _channel_serials a !! ch) in
      let* state :=
        (if negb (bool_decide (Some sn = prev_sn)) then
           let* state := _probe_state p (dev_type dev) in
           let* _ := modify (fun a => set_channel_states (<[ch := state]> (_channel_states a)) a) in
           ret state
         else
           gets (fun a => default "running" (_channel_states a !! ch))) in
      let* _ := modify (fun a => set_channel_serials (<[ch := sn]> (_channel_serials a)) a) in
      ret (<[ch := _build_display (dev_hub_name dev) state]> displays)
  | None =>
      let* _ := modify (fun a => set_channel_serials (delete ch (_channel_serials a)) a) in
      let* _ := modify (fun a => set_channel_states (delete ch (_channel_states a)) a) in
      ret (<[ch := _empty_display]> displays)
  end.

(** [_scan_channels()], given what [comports()] returns. *)
Definition _scan_channels (ports : list ListPortInfo) : M (gmap string Display) :=
  let* hub_loc := gets hub_location in
  let* devs := gets devices in
  let channel_devices := channel_devices_of devs hub_loc ports in
  for_fold (scan_channel channel_devices) CHANNELS ∅.

(** ** Display protocol client *)

(** [_open_hub()]; [opens] tells whether [serial.Serial(...)] succeeds
    rather than raising [SerialException]. *)
Definition _open_hub (opens : bool) : M bool :=
  if opens then
    let* _ := modify (set_ser (Some {| is_open := true |})) in
    ret true
  else ret false.

(** [_close_hub()]; an error of [close()] is swallowed. *)
Definition _close_hub : M unit :=
  let* ser := gets _ser in
  match ser with
  | Some _ => modify (set_ser None)
  | None => ret tt
  end.

(** [_send(msg)], where [msg] is [{"action": "set", "params": {channel:
    display}}], kept as the pair of its channel and display. *)
Definition _send (msg : string * Display) : M pyval :=
  let* ser := gets _ser in
  match ser with
  | None => ret PNone
  | Some s =>
      if negb (is_open s) then ret PNone
      else
        let* n := gets (fun a => length (writes a)) in
        let* _ := modify (add_write msg) in
        match hub_transact w n msg with
        | HubOSError =>
            let* _ := modify (set_hub_lost true) in
            ret PNone
        | HubLine line =>
            let response_line := Py.strip line in
            if negb (String.eqb response_line "") then
              match json_loads w response_line with
              | Some v => ret v
              | None => ret PNone
              end
            else ret PNone
        end
  end.

(** [v == "ok"] *)
Definition eq_ok (v : option pyval) : bool :=
  match v with
  | Some (PStr s) => String.eqb s "ok"
  | _ => false
  end.

(** [result.get("status")]: only a dict has the method. *)
Definition get_status (result : pyval) : M (option pyval) :=
  match result with
  | PDict d => ret (dict_get "status" d)
  | _ => raise AttributeError
  end.

(** [_push_channel(channel, display, log)]. The value returned is that of
    [result and result.get("status") == "ok"]: [result] itself when it is
    false, else the comparison. *)
Definition _push_channel (channel : string) (display : Display) (log : bool)
  : M pyval :=
  let* _ := modify (add_pushed (channel, display)) in
  let* result := _send (channel, display) in
  let* ok :=
    (if py_truthy result then
       let* status := get_status result in
       ret (PBool (eq_ok status))
     else ret result) in
  let* _ :=
    (if log then
       modify (add_logged {| log_channel := channel;
                             log_name := txt (T1 (Dev1_name display));
                             log_color := color (T1 (Dev1_name display));
                             log_ok := py_truthy ok |})
     else ret tt) in
  ret ok.

(** ** Reconciliation loop *)

(** [desired[ch]] *)
Definition displays_getitem (desired : gmap string Display) (ch : string)
  : M Display :=
  match desired !! ch with
  | Some d => ret d
  | None => raise KeyError
  end.

(** One turn of the loop of [refresh]. *)
Definition refresh_channel (desired : gmap string Display)
    (log_changes_only : bool) (_ : unit) (ch : string) : M unit :=
  let* display := displays_getitem desired ch in
  let* prev := gets (fun a => _channel_display a !! ch) in
  let changed := negb (bool_decide (Some display = prev)) in
  let* _ := _push_channel ch display (changed || negb log_changes_only) in
  modify (fun a => set_channel_display (<[ch := display]> (_channel_display a)) a).

(** [refresh(log_changes_only)], given what [comports()] returns. *)
Definition refresh (ports : list ListPortInfo) (log_changes_only : bool) : M unit :=
  let* desired := _scan_channels ports in
  for_fold (refresh_channel desired log_changes_only) CHANNELS tt.

(** [_reconnect()], given what [comports()] returns to [find_insight_hub]
    and whether the serial port then opens. *)
Definition _reconnect (ports : list ListPortInfo) (opens : bool) : M bool :=
  let* _ := _close_hub in
  let* _ := modify (set_hub_lost false) in
  let* _ := modify (set_channel_display ∅) in
  let* _ := modify (set_channel_serials ∅) in
  let* _ := modify (set_channel_states ∅) in
  let '(port, location) := find_insight_hub ports in
  if negb (Py.truthy port) || negb (Py.truthy location) then ret false
  else
    let* _ := modify (set_hub (default "" port) location) in
    _open_hub opens.

(** What the outside world does around one turn of the loop of [run]. *)
Record Tick := {
  tick_stop : bool;                    (* a stop signal arrived in the wait *)
  tick_triggered : bool;               (* the wait ended on a USB event *)
  tick_find_ports : list ListPortInfo; (* [comports()] for [find_insight_hub] *)
  tick_opens : bool;                   (* the hub's serial port opens *)
  tick_ports : list ListPortInfo;      (* [comports()] for the scan *)
}.

(** One turn of [while self.running]; the result tells whether the loop
    goes on. *)
Definition run_turn (t : Tick) : M bool :=
  let* r := gets running in
  if negb r then ret false
  else
    let* _ := (if tick_stop t then modify (set_running false) else ret tt) in
    let* r := gets running in
    if negb r then ret false
    else
      let* lost := gets _hub_lost in
      if lost then
        let* ok := _reconnect (tick_find_ports t) (tick_opens t) in
        let* _ := (if ok then refresh (tick_ports t) false else ret tt) in
        ret true
      else
        let* _ := refresh (tick_ports t) (negb (tick_triggered t)) in
        ret true.

(** The loop of [run] over the turns the world allows. *)
Fixpoint run_loop (ts : list Tick) : M unit :=
  match ts with
  | [] => ret tt
  | t :: ts' =>
      let* go := run_turn t in
      if go then run_loop ts' else ret tt
  end.

End Agent.

(** ** The registry file *)

(** [re.match(r"^\[(.+)\]$", line)]: [group(1)] of the match, [None] if
    there is none. The line matches when it is an opening bracket, one or
    more characters none of which is a line feed, and a closing bracket,
    up to one line feed at its very end, which [$] lets pass. *)
Definition section_header (line : string) : option string :=
  let body :=
    match Py.unsnoc line with
    | Some (init, last) => if Ascii.eqb last Py.LF then init else line
    | None => line
    end in
  match body with
  | String "[" rest =>
      match Py.unsnoc rest with
      | Some (name, "]"%char) =>
          if negb (String.eqb name "") && negb (Py.contains_char Py.LF name)
          then Some name else None
      | _ => None
      end
  | _ => None
  end.

(** What [parse_devices_conf] finds at its path: nothing that is a file, a
    file that cannot be opened or read as text (an error of [open] or of
    the iteration), or a file with its lines as the iteration yields
    them. *)
Inductive ConfFile :=
  | NoFile
  | Unreadable
  | ConfLines (lines : list string).

(** The variables [devices], [section] and [sec] of
    [parse_devices_conf]. *)
Record ConfState := {
  conf_devices : list DeviceRecord;
  conf_section : option string;
  conf_sec : gmap string string;
}.

(** The inner function [flush()]: the list [devices] after the call. *)
Definition flush (st : ConfState) : list DeviceRecord :=
  if negb (Py.truthy (conf_section st)) then conf_devices st
  else
    let section := default "" (conf_section st) in
    if Py.startswith section "hub:" then conf_devices st
    else
      let sec := conf_sec st in
      let serial_number :=
        Py.or_ (Py.or_ (sec !! "mac") (sec !! "serial")) (Some "") in
      if negb (Py.truthy serial_number) then conf_devices st
      else
        let hub_name := Py.or_ (sec !! "hub_name") (Some (truncate section)) in
        (conf_devices st ++
         [{| dev_name := section;
             dev_serial_number := default "" serial_number;
             dev_type := default "generic" (sec !! "type");
             dev_hub_name := truncate (default "" hub_name) |}])%list.

(** One turn of the loop over the lines of the file. *)
Definition conf_line (st : ConfState) (raw : string) : ConfState :=
  let line := Py.strip raw in
  if String.eqb line "" || Py.startswith line "#" then st
  else
    match section_header line with
    | Some name =>
        {| conf_devices := flush st; conf_section := Some name; conf_sec := ∅ |}
    | None =>
        if Py.contains_char "=" line then
          if Py.truthy (conf_section st) then
            let '(key, val) := Py.split1 "=" line in
            {| conf_devices := conf_devices st;
               conf_section := conf_section st;
               conf_sec := <[Py.strip key := Py.strip val]> (conf_sec st) |}
          else
            let '(name, mac) := Py.split1 "=" line in
            {| conf_devices :=
                 (conf_devices st ++
                  [{| dev_name := Py.strip name;
                      dev_serial_number := Py.strip mac;
                      dev_type := "generic";
                      dev_hub_name := truncate (Py.strip name) |}])%list;
               conf_section := conf_section st;
               conf_sec := conf_sec st |}
        else st
    end.

Definition conf_start : ConfState :=
  {| conf_devices := []; conf_section := None; conf_sec := ∅ |}.

(** The loop over the lines and the last [flush()]. *)
Definition parse_lines (lines : list string) : list DeviceRecord :=
  flush (fold_left conf_line lines conf_start).

(** [parse_devices_conf(conf_path)], given what is at [conf_path]. *)
Definition parse_devices_conf (f : ConfFile) : io (list DeviceRecord) :=
  match f with
  | NoFile => Returns []
  | Unreadable => Raises
  | ConfLines lines => Returns (parse_lines lines)
  end.

(** ** The message on the wire *)

(** One lower-case hexadecimal digit. *)
Definition hex_digit (n : N) : ascii :=
  if (n <? 10)%N then ascii_of_N (48 + n) else ascii_of_N (87 + n).

(** What [json.dumps] writes for one character of a string: the
    characters from the space to the tilde stand for themselves, except the
    backslash and the double quote, which get a backslash before them;
    backspace, form feed, line feed, carriage return and tab have their
    two-character escapes; every other character is written as a backslash,
    the letter u and four hexadecimal digits. *)
Definition json_escape_char (c : ascii) : string :=
  let n := N_of_ascii c in
  if (n =? 92)%N then "\\"
  else if (n =? 34)%N then String "\" (String c "")
  else if (n =? 8)%N then "\b"
  else if (n =? 12)%N then "\f"
  else if (n =? 10)%N then "\n"
  else if (n =? 13)%N then "\r"
  else if (n =? 9)%N then "\t"
  else if ((32 <=? n) && (n <=? 126))%N then String c ""
  else
    String "\" (String "u" (String "0" (String "0"
      (String (hex_digit (n / 16)) (String (hex_digit (n mod 16)) ""))))).

(** [json.dumps(s)] for a string: the escaped characters between double
    quotes. *)
Fixpoint json_escape (s : string) : string :=
  match s with
  | EmptyString => EmptyString
  | String c s' => json_escape_char c +:+ json_escape s'
  end.

Definition json_str (s : string) : string :=
  String (ascii_of_N 34) (json_escape s +:+ String (ascii_of_N 34) "").

(** [json.dumps] of a [{"txt": ..., "color": ...}] with the compact
    separators. *)
Definition json_text_line (t : TextLine) : string :=
  "{" +:+ json_str "txt" +:+ ":" +:+ json_str (txt t) +:+ ","
  +:+ json_str "color" +:+ ":" +:+ json_str (color t) +:+ "}".

Definition json_lines (l : Lines) : string :=
  "{" +:+ json_str "T1" +:+ ":" +:+ json_text_line (T1 l)
  +:+ match T2 l with
      | Some t2 => "," +:+ json_str "T2" +:+ ":" +:+ json_text_line t2
      | None => ""
      end
  +:+ "}".

Definition json_display (d : Display) : string :=
  "{" +:+ json_str "Dev1_name" +:+ ":" +:+ json_lines (Dev1_name d) +:+ ","
  +:+ json_str "numDev" +:+ ":" +:+ json_str (numDev d) +:+ ","
  +:+ json_str "usbType" +:+ ":" +:+ json_str (usbType d) +:+ "}".

(** The text that [_send] writes for the message
    [{"action": "set", "params": {channel: display}}]:
    [json.dumps(msg, separators=(",", ":")) + "\n"]. Its keys come in the
    order in which [_push_channel], [_build_display] and [_empty_display]
    insert them. *)
Definition payload (msg : string * Display) : string :=
  "{" +:+ json_str "action" +:+ ":" +:+ json_str "set" +:+ ","
  +:+ json_str "params" +:+ ":" +:+ "{" +:+ json_str msg.1 +:+ ":"
  +:+ json_display msg.2 +:+ "}" +:+ "}" +:+ String Py.LF "".

(** ** Status report *)

(** One value of the dict [channel_devices] of [status]. *)
Record StatusEntry := {
  st_serial_number : string;
  st_device : option string;
  st_name : option string;
  st_hub_name : string;
  st_registered : bool;
}.

(** The first loop of [status()]: the ports come with their [description]
    attribute. A later port replaces an earlier one on the same channel. *)
Definition status_channel_devices (devs : gmap string DeviceRecord)
    (hub_loc : option string) (ports : list (ListPortInfo * option string))
  : gmap string StatusEntry :=
  fold_left
    (fun cd pd =>
       let '(p, description) := pd in
       if negb (Py.truthy (serial_number p)) then cd
       else
         let channel := port_to_channel (location p) hub_loc in
         if Py.truthy channel then
           let dev := devs !! default "" (serial_number p) in
           <[default "" channel :=
               {| st_serial_number := default "" (serial_number p);
                  st_device := device p;
                  st_name :=
                    match dev with
                    | Some d => Some (dev_name d)
                    | None => description
                    end;
                  st_hub_name :=
                    match dev with
                    | Some d => dev_hub_name d
                    | None =>
                        truncate (default "" (Py.or_ description (Some "?")))
                    end;
                  st_registered := bool_decide (is_Some dev) |}]> cd
         else cd)
    ports ∅.

(** How an f-string shows a value that is [None] or a [str]. *)
Definition fmt (x : option string) : string := default "None" x.

(** [status()]: the lines it prints. *)
Definition status (ports : list (ListPortInfo * option string)) (a : HubAgent)
  : list string :=
  let channel_devices :=
    status_channel_devices (devices a) (hub_location a) ports in
  (["Insight Hub: " +:+ hub_serial_port a;
    "Hub location: " +:+ fmt (hub_location a);
    "Registered devices: " +:+ Py.str (Z.of_nat (size (devices a)));
    ""]
   ++ concat
        (map (fun ch =>
                match channel_devices !! ch with
                | Some d =>
                    let reg :=
                      if st_registered d then "" else " (unregistered)" in
                    ["  " +:+ ch +:+ ": " +:+ fmt (st_name d) +:+ reg;
                     "       dev=" +:+ fmt (st_device d) +:+ "  hub_name="
                     +:+ st_hub_name d]
                | None => ["  " +:+ ch +:+ ": (empty)"]
                end)
           CHANNELS))%list.

(** ** The main loop as a whole *)

(** How a call of [run] stands when the turns the world gave are used up. *)
Inductive RunEnd :=
  | RunExit (code : Z)  (* it ended the process with [sys.exit(code)] *)
  | RunReturn           (* it returned *)
  | RunGoesOn.          (* its loop is waiting for the next turn *)

(** The [try] block of [run(once)], given what [comports()] returns to the
    first refresh and the turns of the loop. The USB watcher lies outside
    the agent state; starting it is taken to return. *)
Definition run_body (w : World) (once : bool)
    (first_ports : list ListPortInfo) (ts : list Tick) : M RunEnd :=
  if once then
    let* _ := refresh w first_ports false in
    ret RunReturn
  else
    let* _ := modify (set_running true) in
    let* lost := gets _hub_lost in
    let* _ := (if negb lost then refresh w first_ports false else ret tt) in
    let* _ := run_loop w ts in
    let* r := gets running in
    ret (if r then RunGoesOn else RunReturn).

(** [run(once)], given also whether the hub's port opens. The [finally]
    clause runs when the [try] block returns or raises; stopping the USB
    watcher is taken to return, and [_close_hub] swallows its errors. *)
Definition run (w : World) (once opens : bool)
    (first_ports : list ListPortInfo) (ts : list Tick) : M RunEnd :=
  let* ok := _open_hub opens in
  if negb ok && once then ret (RunExit 1)
  else
    let* _ := (if negb ok then modify (set_hub_lost true) else ret tt) in
    fun a =>
      match run_body w once first_ports ts a with
      | (Ret RunGoesOn, a') => (Ret RunGoesOn, a')
      | (r, a') => (r, (_close_hub a').2)
      end.

(** ** Command line *)

(** The parsed arguments that [main] reads; [--config] is given as what
    lies at its path, and [--interval] plays no part here. *)
Record Args := {
  arg_hub_port : option string;
  arg_hub_location : option string;
  arg_once : bool;
  arg_status : bool;
  arg_install : bool;
  arg_uninstall : bool;
}.

(** What [main] goes on to do. *)
Inductive Started :=
  | MainInstall                             (* [install_launchd()] *)
  | MainUninstall                           (* [uninstall_launchd()] *)
  | MainExit (code : Z)                     (* [sys.exit(code)] *)
  | MainStatus (a : HubAgent)               (* [agent.status()] *)
  | MainRun (once : bool) (a : HubAgent).   (* [agent.run(once)] *)

(** [main()], given the parsed arguments, the registry file, and what
    [comports()] returns if [find_insight_hub] is called. *)
Definition main (args : Args) (conf : ConfFile) (ports : list ListPortInfo)
  : io Started :=
  if arg_install args then Returns MainInstall
  else if arg_uninstall args then Returns MainUninstall
  else
    io_bind (parse_devices_conf conf) (fun devs =>
    match devs with
    | [] => Returns (MainExit 1)
    | _ :: _ =>
        let hub_port := arg_hub_port args in
        let hub_location := arg_hub_location args in
        let '(hub_port, hub_location) :=
          if negb (Py.truthy hub_port) || negb (Py.truthy hub_location) then
            let '(auto_port, auto_location) := find_insight_hub ports in
            (if negb (Py.truthy hub_port) then auto_port else hub_port,
             if negb (Py.truthy hub_location) then auto_location
             else hub_location)
          else (hub_port, hub_location) in
        let daemon_mode := negb (arg_once args) && negb (arg_status args) in
        let go (hub_port hub_location : option string) :=
          let agent :=
            HubAgent_init (default "" hub_port) hub_location devs in
          let agent :=
            if String.eqb (default "" hub_port) "pending"
            then set_hub_lost true agent else agent in
          if arg_status args then Returns (MainStatus agent)
          else if arg_once args then Returns (MainRun true agent)
          else Returns (MainRun false agent) in
        if negb (Py.truthy hub_port) then
          if daemon_mode then go (Some "pending") (Some "pending")
          else Returns (MainExit 1)
        else if negb (Py.truthy hub_location) then
          if negb daemon_mode then Returns (MainExit 1)
          else go hub_port hub_location
        else go hub_port hub_location
    end).

(** * Notions used to state the properties *)

(** The channel assignment of a scan of [ports] by the agent [a]. *)
Definition occupants (a : HubAgent) (ports : list ListPortInfo)
  : gmap string (string * ListPortInfo) :=
  channel_devices_of (devices a) (hub_location a) ports.

(** Every device of the assignment [cd] is in the registry. *)
Definition registered (cd : gmap string (string * ListPortInfo))
    (devs : gmap string DeviceRecord) : Prop :=
  forall ch sn p, cd !! ch = Some (sn, p) -> is_Some (devs !! sn).

(** The caches of [a] for channel [ch] agree with the assignment [cd]: the
    occupant is recorded, or nothing is recorded for an empty channel. *)
Definition settled_at (cd : gmap string (string * ListPortInfo))
    (ch : string) (a : HubAgent) : Prop :=
  match cd !! ch with
  | Some (sn, _) => _channel_serials a !! ch = Some sn
  | None => _channel_serials a !! ch = None /\ _channel_states a !! ch = None
  end.

(** The frame of channel [ch] under the assignment [cd] when the mode is
    read from the cache of [a]. *)
Definition frame_of (cd : gmap string (string * ListPortInfo))
    (a : HubAgent) (ch : string) : Display :=
  match cd !! ch with
  | Some (sn, _) =>
      match devices a !! sn with
      | Some dev =>
          _build_display (dev_hub_name dev)
            (default "running" (_channel_states a !! ch))
      | None => _empty_display
      end
  | None => _empty_display
  end.

(** [a'] differs from [a] at most in the cache entries of channel [ch] and
    in the record of probes. *)
Definition same_but_channel (ch : string) (a a' : HubAgent) : Prop :=
  hub_serial_port a' = hub_serial_port a
  /\ hub_location a' = hub_location a
  /\ devices a' = devices a
  /\ _ser a' = _ser a
  /\ _channel_display a' = _channel_display a
  /\ _hub_lost a' = _hub_lost a
  /\ running a' = running a
  /\ pushed a' = pushed a
  /\ writes a' = writes a
  /\ logged a' = logged a
  /\ (forall ch', ch' <> ch ->
        _channel_serials a' !! ch' = _channel_serials a !! ch'
        /\ _channel_states a' !! ch' = _channel_states a !! ch').

(** The mode that [_probe_state] finds for the port [p] of a device of type
    [ty] when [n] bootloader probes were made before. *)
Definition probed_mode (w : World) (n : nat) (p : ListPortInfo) (ty : string)
  : string :=
  if negb (Py.truthy (device p)) then "sleeping"
  else if String.eqb ty "esp32" then
    if probe_bootloader (open_session w n (default "" (device p)))
    then "bootloader" else "running"
  else "running".

(** The device paths that [_probe_state] gives to [probe_bootloader]: the
    path of [p] if it has one and the type is esp32. *)
Definition probe_paths (p : ListPortInfo) (ty : string) : list string :=
  if Py.truthy (device p) && String.eqb ty "esp32"
  then [default "" (device p)] else [].

(** [a'] differs from [a] at most in the cache entries of the channels
    [chs] and in the record of probes. *)
Definition same_but_channels (chs : list string) (a a' : HubAgent) : Prop :=
  hub_serial_port a' = hub_serial_port a
  /\ hub_location a' = hub_location a
  /\ devices a' = devices a
  /\ _ser a' = _ser a
  /\ _channel_display a' = _channel_display a
  /\ _hub_lost a' = _hub_lost a
  /\ running a' = running a
  /\ pushed a' = pushed a
  /\ writes a' = writes a
  /\ logged a' = logged a
  /\ (forall ch, ch ∉ chs ->
        _channel_serials a' !! ch = _channel_serials a !! ch
        /\ _channel_states a' !! ch = _channel_states a !! ch).

(** The displays that a scan of settled channels returns. *)
Definition frames_of (cd : gmap string (string * ListPortInfo))
    (a : HubAgent) (chs : list string) (ds : gmap string Display)
  : gmap string Display :=
  fold_left (fun ds ch => <[ch := frame_of cd a ch]> ds) chs ds.

(** The keys of both caches are channels. *)
Definition cache_keys_ok (a : HubAgent) : Prop :=
  (forall ch, is_Some (_channel_serials a !! ch) -> ch ∈ CHANNELS)
  /\ (forall ch, is_Some (_channel_states a !! ch) -> ch ∈ CHANNELS).

(** The display that a scan returned for channel [ch], if it returned. *)
Definition returned_display (r : outcome (gmap string Display) * HubAgent)
    (ch : string) : option Display :=
  match r.1 with
  | Ret ds => ds !! ch
  | Raise _ => None
  end.

(** The hub connection exists and is open. *)
Definition is_connected (a : HubAgent) : bool :=
  match _ser a with
  | Some s => is_open s
  | None => false
  end.

(** The value [_send] returns for what the hub did with a message. *)
Definition reply_value (w : World) (r : HubReply) : pyval :=
  match r with
  | HubOSError => PNone
  | HubLine line =>
      if String.eqb (Py.strip line) "" then PNone
      else default PNone (json_loads w (Py.strip line))
  end.

(** The state [_send] leaves: on an open connection the message is
    written, and an [OSError] marks the connection lost. *)
Definition after_send (w : World) (msg : string * Display) (a : HubAgent)
  : HubAgent :=
  if is_connected a then
    match hub_transact w (length (writes a)) msg with
    | HubOSError => set_hub_lost true (add_write msg a)
    | HubLine _ => add_write msg a
    end
  else a.

(** The value [_send] returns to [_push_channel] in state [a]. *)
Definition sent_value (w : World) (msg : string * Display) (a : HubAgent)
  : pyval :=
  if is_connected a
  then reply_value w (hub_transact w (length (writes a)) msg)
  else PNone.

(** The value of [result and result.get("status") == "ok"]. *)
Definition push_value (result : pyval) : outcome pyval :=
  if py_truthy result then
    match result with
    | PDict d => Ret (PBool (eq_ok (dict_get "status" d)))
    | _ => Raise AttributeError
    end
  else Ret result.

(** The hub never answers with a line that decodes to a true value other
    than a dict. *)
Definition polite (w : World) : Prop :=
  forall n msg line v,
    hub_transact w n msg = HubLine line ->
    json_loads w (Py.strip line) = Some v ->
    py_truthy v = true ->
    exists d, v = PDict d.

(** The line that [_push_channel] logs. *)
Definition log_line (channel : string) (display : Display) (ok : pyval)
  : LogLine :=
  {| log_channel := channel;
     log_name := txt (T1 (Dev1_name display));
     log_color := color (T1 (Dev1_name display));
     log_ok := py_truthy ok |}.

(** The pushes a refresh makes for the channels [chs] with the displays
    [ds], in the order made. *)
Definition pushes_of (ds : gmap string Display) (chs : list string)
  : list (string * Display) :=
  map (fun ch => (ch, default _empty_display (ds !! ch))) chs.

(** Whether [refresh] logs the push of channel [ch]: its display is not the
    cached one, or all pushes are to be logged. *)
Definition push_is_logged (ds : gmap string Display) (log_changes_only : bool)
    (cache : gmap string Display) (ch : string) : bool :=
  negb (bool_decide (ds !! ch = cache !! ch)) || negb log_changes_only.

(** The push cache after a refresh of the channels [chs]. *)
Definition pushed_cache (ds : gmap string Display) (chs : list string)
    (cache : gmap string Display) : gmap string Display :=
  fold_left (fun m ch => <[ch := default _empty_display (ds !! ch)]> m) chs cache.

(** [a'] differs from [a] at most in the push cache, the lost flag and the
    records of pushes, writes and log lines. *)
Definition same_but_push (a a' : HubAgent) : Prop :=
  hub_serial_port a' = hub_serial_port a
  /\ hub_location a' = hub_location a
  /\ devices a' = devices a
  /\ _ser a' = _ser a
  /\ _channel_serials a' = _channel_serials a
  /\ _channel_states a' = _channel_states a
  /\ running a' = running a
  /\ probed a' = probed a
  /\ probes a' = probes a.

(** The state a successful [_reconnect] leaves: the old connection
    closed, the lost flag reset, the three caches empty, the hub's new port
    and location stored, and the new connection open. *)
Definition reconnected (port loc : string) (a : HubAgent) : HubAgent :=
  set_ser (Some {| is_open := true |})
    (set_hub port (Some loc)
       (set_channel_states ∅
          (set_channel_serials ∅
             (set_channel_display ∅
                (set_hub_lost false (set_ser None a)))))).

(** ** Notions for the rest of the agent *)

(** The test by which [find_insight_hub] knows the hub's controller. *)
Definition is_insight_hub (p : ListPortInfo) : bool :=
  bool_decide (product p = Some INSIGHT_HUB_PRODUCT)
  || bool_decide (vid p = Some INSIGHT_HUB_VID)
     && bool_decide (pid p = Some INSIGHT_HUB_PID).

(** The hub location that [find_insight_hub] derives from the location of
    the controller's port. *)
Definition parent_location (l : option string) : option string :=
  if Py.truthy l then
    if Py.contains_dot (default "" l) then Some (Py.rsplit_dot_head (default "" l))
    else None
  else None.

(** A line that [parse_devices_conf] passes over: blank, a comment, or
    neither a section header nor a line with an equals sign. *)
Definition ignored (raw : string) : bool :=
  let line := Py.strip raw in
  String.eqb line "" || Py.startswith line "#"
  || match section_header line with
     | Some _ => false
     | None => negb (Py.contains_char "=" line)
     end.

(** The parser state with the devices [ds] put before its own. *)
Definition with_earlier (ds : list DeviceRecord) (st : ConfState) : ConfState :=
  {| conf_devices := (ds ++ conf_devices st)%list;
     conf_section := conf_section st;
     conf_sec := conf_sec st |}.

(** What holds of a record that [parse_devices_conf] makes from a section
    headed by one of [lines]. *)
Definition section_record (lines : list string) (d : DeviceRecord) : Prop :=
  dev_serial_number d <> ""
  /\ dev_name d <> ""
  /\ Py.startswith (dev_name d) "hub:" = false
  /\ dev_hub_name d <> ""
  /\ exists line, line ∈ lines /\ section_header (Py.strip line) = Some (dev_name d).

(** The display name of a record fits the display. *)
Definition hub_name_fits (d : DeviceRecord) : Prop :=
  (String.length (dev_hub_name d) <= MAX_NAME_LEN)%nat.

(** The parser is inside a section headed by a line of [all], and every
    record made so far comes from such a section. *)
Definition in_section (all : list string) (st : ConfState) : Prop :=
  (exists s line, conf_section st = Some s /\ line ∈ all
                  /\ section_header (Py.strip line) = Some s)
  /\ Forall (section_record all) (conf_devices st).

(** The channel that the first loop of [_scan_channels] gives to the port
    [p]: its serial number is not empty and is registered, and its location
    maps to a channel. *)
Definition claimed_channel (devs : gmap string DeviceRecord)
    (hub_loc : option string) (p : ListPortInfo) : option string :=
  if Py.truthy (serial_number p)
     && bool_decide (is_Some (devs !! default "" (serial_number p)))
  then port_to_channel (location p) hub_loc
  else None.

(** The three modes that [_probe_state] can return. *)
Definition MODES : list string := ["sleeping"; "bootloader"; "running"].

(** The two scan caches go together: a channel has a cached mode exactly
    when it has a recorded occupant, and every cached mode is one of the
    three that [_probe_state] returns. *)
Definition caches_agree (a : HubAgent) : Prop :=
  (forall ch, is_Some (_channel_states a !! ch)
              <-> is_Some (_channel_serials a !! ch))
  /\ (forall ch m, _channel_states a !! ch = Some m -> m ∈ MODES).

(** A display that the agent builds for an empty channel, or for a device
    in one of the three modes. *)
Definition known_display (d : Display) : Prop :=
  d = _empty_display
  \/ exists name mode, mode ∈ MODES /\ d = _build_display name mode.

(** The connection is closed and not marked lost. *)
Definition offline (a : HubAgent) : Prop :=
  _ser a = None /\ _hub_lost a = false.

(** What holds of the agent's caches and of what it wrote to the hub at
    every point of its life. *)
Definition sound (a : HubAgent) : Prop :=
  caches_agree a /\ cache_keys_ok a
  /\ Forall (fun msg => known_display msg.2) (writes a).

(** A character from the space to the tilde. *)
Definition printable (c : ascii) : bool :=
  let n := N_of_ascii c in ((32 <=? n) && (n <=? 126))%N.

Fixpoint all_printable (s : string) : bool :=
  match s with
  | EmptyString => true
  | String c s' => printable c && all_printable s'
  end.

(** The daemon mode of [main]. *)
Definition daemon_mode (args : Args) : bool :=
  negb (arg_once args) && negb (arg_status args).

(** * Sample data for the examples *)

(** A serial port that cannot be opened. *)
Definition dead_session : SerialSession :=
  {| ser_open := Raises; ser_reset_input_buffer := Raises;
     ser_write := fun _ => Raises; ser_flush := Raises;
     ser_read := fun _ _ => Raises; ser_close := Raises |}.

(** A device in its boot ROM: it answers the sync frame with a framed
    reply. *)
Definition boot_session : SerialSession :=
  {| ser_open := Returns tt; ser_reset_input_buffer := Returns tt;
     ser_write := fun _ => Returns tt; ser_flush := Returns tt;
     ser_read := fun _ _ =>
       Returns [xc0; x01; x08; x04; x00; x07; x07; x12; x20; x00; x00; xc0];
     ser_close := Returns tt |}.

(** The double quote character. *)
Definition dq : string := String (ascii_of_N 34) "".

(** The reply lines [{"status":"ok"}] and [{"status":"error"}]. *)
Definition ok_line : string :=
  "{" +:+ dq +:+ "status" +:+ dq +:+ ":" +:+ dq +:+ "ok" +:+ dq +:+ "}".
Definition error_line : string :=
  "{" +:+ dq +:+ "status" +:+ dq +:+ ":" +:+ dq +:+ "error" +:+ dq +:+ "}".

(** A decoder that knows four lines: the two above, the array [[1]] and the
    number [0]; it rejects every other line. *)
Definition sample_json_loads (line : string) : option pyval :=
  if String.eqb line ok_line then Some (PDict [("status", PStr "ok")])
  else if String.eqb line error_line then Some (PDict [("status", PStr "error")])
  else if String.eqb line "[1]" then Some (PList [PInt 1])
  else if String.eqb line "0" then Some (PInt 0)
  else None.

(** A world where no device port can be opened and the hub answers every
    message with a status ok. *)
Definition dead_world : World :=
  {| open_session := fun _ _ => dead_session;
     hub_transact := fun _ _ => HubLine ok_line;
     json_loads := sample_json_loads |}.

(** A world where every probed device is in its boot ROM and the hub
    answers every message with [reply]. *)
Definition sample_world (reply : HubReply) : World :=
  {| open_session := fun _ _ => boot_session;
     hub_transact := fun _ _ => reply;
     json_loads := sample_json_loads |}.

Definition sensor_a : DeviceRecord :=
  {| dev_name := "sensor-a"; dev_serial_number := "abc123";
     dev_type := "generic"; dev_hub_name := "sensor-a" |}.

Definition board_b : DeviceRecord :=
  {| dev_name := "board-b"; dev_serial_number := "b0a4d1";
     dev_type := "esp32"; dev_hub_name := "board-b" |}.

(** A port as [comports()] reports it. *)
Definition sample_port (dev : option string) (sn loc : string) : ListPortInfo :=
  {| device := dev; serial_number := Some sn; location := Some loc;
     product := None; vid := None; pid := None |}.

(** The hub controller itself, on port 4 of its own hub. *)
Definition hub_port : ListPortInfo :=
  {| device := Some "/dev/cu.usbmodem1"; serial_number := None;
     location := Some "20-3.3.4"; product := Some INSIGHT_HUB_PRODUCT;
     vid := Some INSIGHT_HUB_VID; pid := Some INSIGHT_HUB_PID |}.

(** An agent just created, with both sample devices registered. *)
Definition sample_agent : HubAgent :=
  HubAgent_init "/dev/cu.usbmodem1" (Some "20-3.3") [sensor_a; board_b].

(** The sample agent with the hub connection open. *)
Definition connected_agent : HubAgent :=
  set_ser (Some {| is_open := true |}) sample_agent.

(** The connected sample agent, running, after a transport error marked
    its connection lost. *)
Definition lost_agent : HubAgent :=
  set_running true (set_hub_lost true connected_agent).

(** The esp32 board on port 1 of the hub. *)
Definition board_port : ListPortInfo :=
  sample_port (Some "/dev/cu.usbserial-7") "b0a4d1" "20-3.3.1".

(** A turn of the loop on a keepalive timeout in which the hub is found and
    its port opens, with the board on port 1. *)
Definition found_tick : Tick :=
  {| tick_stop := false; tick_triggered := false;
     tick_find_ports := [hub_port; board_port]; tick_opens := true;
     tick_ports := [hub_port; board_port] |}.

(** A turn of the loop on a keepalive timeout in which no hub is found. *)
Definition missing_tick : Tick :=
  {| tick_stop := false; tick_triggered := false;
     tick_find_ports := [board_port]; tick_opens := true;
     tick_ports := [board_port] |}.

(** A string between double quotes. *)
Definition quoted (s : string) : string := dq +:+ s +:+ dq.

(** A registry file with a comment, a legacy line, two device sections, a
    hub section and a section without serial number. *)
Definition sample_conf : list string :=
  ["# devices"; "old-sensor = 00:11"; "";
   " [board one] "; "mac = AA:BB "; "type=esp32";
   "[hub:bench]"; "mac=1";
   "[nomac]"; "x=y";
   "[d2]"; "serial=s2"; "hub_name=a-very-long-name-for-display"].

(** * Properties *)

(** ** Topology mapper *)

Lemma append_nil (b : string) : "" +:+ b = b.
Proof. reflexivity. Qed.

Lemma append_cons (c : ascii) (a b : string) :
  String c a +:+ b = String c (a +:+ b).
Proof. reflexivity. Qed.

Lemma startswith_app (p r : string) : Py.startswith (p +:+ r) p = true.
Proof.
  induction p as [|c p IH]; [done|].
  rewrite append_cons. simpl. by rewrite Ascii.eqb_refl.
Qed.

Lemma startswith_inv (s p : string) :
  Py.startswith s p = true -> exists r, s = p +:+ r.
Proof.
  revert s. induction p as [|c p IH]; intros s H; simpl in *.
  - by exists s.
  - destruct s as [|b s]; [done|].
    destruct (Ascii.eqb c b) eqn:E; [|done].
    apply Ascii.eqb_eq in E as ->.
    destruct (IH _ H) as [r ->]. exists r. by rewrite append_cons.
Qed.

Lemma slice_from_app (p r : string) :
  Py.slice_from (String.length p) (p +:+ r) = r.
Proof.
  induction p as [|c p IH]; [done|]. rewrite append_cons. simpl. done.
Qed.

Lemma append_assoc (a b c : string) : (a +:+ b) +:+ c = a +:+ (b +:+ c).
Proof.
  induction a as [|x a IH]; [done|]. rewrite !append_cons. by rewrite IH.
Qed.

Lemma append_length (a b : string) :
  String.length (a +:+ b) = (String.length a + String.length b)%nat.
Proof.
  induction a as [|x a IH]; [done|]. rewrite append_cons. simpl. by rewrite IH.
Qed.

(** What [port_to_channel] does once both locations are non-empty and the
    device location is the hub location, a dot, and a rest [r]. *)
Lemma port_to_channel_extension (h r : string) :
  h <> "" ->
  port_to_channel (Some (h +:+ "." +:+ r)) (Some h) =
    match Py.int (Py.split_dot_head r) with
    | Some port =>
        if (1 <=? port) && (port <=? 3) then Some ("CH" +:+ Py.str port)
        else None
    | None => None
    end.
Proof.
  intros Hh. destruct h as [|c h]; [done|].
  rewrite <- append_assoc. unfold port_to_channel.
  assert (Py.truthy (Some ((String c h +:+ ".") +:+ r)) = true) as ->
    by (by rewrite !append_cons).
  cbn [Py.truthy negb orb from_option]. unfold id.
  rewrite startswith_app. cbn [negb].
  replace (String.length (String c h) + 1)%nat
    with (String.length (String c h +:+ "."))
    by (rewrite append_length; done).
  by rewrite slice_from_app.
Qed.

(** Every channel that [port_to_channel] returns is one of [CHANNELS]. *)
Lemma port_to_channel_in_CHANNELS (d h : option string) (ch : string) :
  port_to_channel d h = Some ch -> ch ∈ CHANNELS.
Proof.
  unfold port_to_channel.
  destruct (negb (Py.truthy d) || negb (Py.truthy h)); [done|].
  destruct (negb _); [done|].
  destruct (Py.int _) as [port|]; [|done].
  destruct (1 <=? port) eqn:E1; [|done].
  destruct (port <=? 3) eqn:E3; [|done]. cbn [andb].
  assert (port = 1 \/ port = 2 \/ port = 3) as [->|[->| ->]] by lia;
    intros [= <-]; vm_compute; set_solver.
Qed.

(** C2 (as amended). [port_to_channel] returns [None] if either location is
    absent or is the empty string; [None] if the device location is not the
    hub location followed by a dot and more text; and, when it is such an
    extension of a non-empty hub location, [None] if [int()] rejects the
    first segment after the dot, CH1, CH2, CH3 if that segment reads as 1, 2,
    3, and [None] for every other number. With hub location 20-3.3:
    20-3.3.1 gives CH1, 20-3.3.4 and 20-3.4.1 give [None], and so does an
    absent location. *)
Theorem port_to_channel_spec :
  (forall h, port_to_channel None h = None)
  /\ (forall d, port_to_channel d None = None)
  /\ (forall h, port_to_channel (Some "") h = None)
  /\ (forall d, port_to_channel d (Some "") = None)
  /\ (forall d h, ~ (exists r, d = h +:+ "." +:+ r) ->
        port_to_channel (Some d) (Some h) = None)
  /\ (forall h r, Py.int (Py.split_dot_head r) = None ->
        port_to_channel (Some (h +:+ "." +:+ r)) (Some h) = None)
  /\ (forall h r port, h <> "" ->
        Py.int (Py.split_dot_head r) = Some port ->
        port_to_channel (Some (h +:+ "." +:+ r)) (Some h) =
          if port =? 1 then Some "CH1"
          else if port =? 2 then Some "CH2"
          else if port =? 3 then Some "CH3"
          else None)
  /\ port_to_channel (Some "20-3.3.1") (Some "20-3.3") = Some "CH1"
  /\ port_to_channel (Some "20-3.3.4") (Some "20-3.3") = None
  /\ port_to_channel (Some "20-3.4.1") (Some "20-3.3") = None
  /\ port_to_channel None (Some "20-3.3") = None.
Proof.
  repeat split; try done.
  - intros d. unfold port_to_channel. by destruct (Py.truthy d).
  - intros d. unfold port_to_channel. by destruct (Py.truthy d).
  - intros d h Hno. unfold port_to_channel.
    destruct (negb (Py.truthy (Some d)) || negb (Py.truthy (Some h))); [done|].
    cbn [from_option]. unfold id.
    destruct (Py.startswith d (h +:+ ".")) eqn:E; [|done].
    exfalso. apply Hno. apply startswith_inv in E as [r ->].
    exists r. apply append_assoc.
  - intros h r Hint. destruct h as [|c h]; [done|].
    rewrite port_to_channel_extension by done. by rewrite Hint.
  - intros h r port Hh Hint.
    rewrite port_to_channel_extension by done. rewrite Hint.
    destruct (port =? 1) eqn:E1; [apply Z.eqb_eq in E1 as ->; done|].
    destruct (port =? 2) eqn:E2; [apply Z.eqb_eq in E2 as ->; done|].
    destruct (port =? 3) eqn:E3; [apply Z.eqb_eq in E3 as ->; done|].
    destruct (1 <=? port) eqn:L1; [|done].
    destruct (port <=? 3) eqn:L3; [|done]. lia.
Qed.

(** C2, witness: the hub location 20-3.3 and the rest 2.1 of a device
    location. *)
Lemma port_to_channel_spec_witness :
  "20-3.3" <> "" /\ Py.int (Py.split_dot_head "2.1") = Some 2
  /\ port_to_channel (Some "20-3.3.2.1") (Some "20-3.3") = Some "CH2".
Proof.
  split; [done|]. split; [reflexivity|].
  exact (proj1 (proj2 (proj2 (proj2 (proj2 (proj2 (proj2 port_to_channel_spec))))))
           "20-3.3" "2.1" 2 ltac:(done) eq_refl).
Defined.

(** C2, counterexample: the empty string is a hub location that is present,
    .1 extends it by a dot and the segment 1, which reads as port 1; the
    result is [None] and not CH1. So the rule for ports 1 to 3 does not hold
    for every hub location that is present. *)
Lemma port_to_channel_empty_hub :
  ".1" = "" +:+ "." +:+ "1"
  /\ Py.int (Py.split_dot_head "1") = Some 1
  /\ port_to_channel (Some ".1") (Some "") = None
  /\ ~ (forall h r, Py.int (Py.split_dot_head r) = Some 1 ->
          port_to_channel (Some (h +:+ "." +:+ r)) (Some h) = Some "CH1").
Proof.
  repeat split.
  intros H. specialize (H "" "1" eq_refl). discriminate H.
Qed.

(** ** Bootloader probe *)

(** The framing loop appends the escape of each byte in turn. *)
Lemma slip_frame_unfold (pkt : list byte) :
  slip_frame pkt = (xc0 :: concat (map slip_escape pkt) ++ [xc0])%list.
Proof.
  unfold slip_frame.
  assert (forall acc, fold_left (fun frame b => (frame ++ slip_escape b)%list) pkt acc
                      = (acc ++ concat (map slip_escape pkt))%list) as H.
  { induction pkt as [|b pkt IH]; intros acc; simpl.
    - by rewrite app_nil_r.
    - by rewrite IH, <- app_assoc. }
  by rewrite H.
Qed.

(** No escaped byte sequence holds the framing byte. *)
Lemma slip_escape_no_c0 (b : byte) : xc0 ∉ slip_escape b.
Proof.
  rewrite list_elem_of_In.
  destruct b; vm_compute; intuition discriminate.
Qed.

Lemma slip_body_no_c0 (pkt : list byte) : xc0 ∉ concat (map slip_escape pkt).
Proof.
  induction pkt as [|b pkt IH]; simpl; [set_solver|].
  rewrite elem_of_app. intros [H|H]; [by apply (slip_escape_no_c0 b)|done].
Qed.

(** C9. The packet is the eight bytes 00 08 24 00 00 00 00 00 (direction,
    command, payload length 36 as a little-endian 16-bit number, a zero
    32-bit checksum) followed by the 36 bytes of payload (07 07 12 20 and
    32 times 55). The frame of any packet is C0, then for each byte of the
    packet DB DC if it is C0, DB DD if it is DB and the byte itself
    otherwise, then C0; so C0 stands in the frame at its first and last
    position and nowhere else. *)
Theorem sync_frame_layout :
  pack_BBHI 0x00 ESP_SYNC 36 0 = [x00; x08; x24; x00; x00; x00; x00; x00]
  /\ sync_data = ([x07; x07; x12; x20] ++ replicate 32 x55)%list
  /\ length sync_data = 36%nat
  /\ sync_pkt = ([x00; x08; x24; x00; x00; x00; x00; x00] ++ sync_data)%list
  /\ slip_escape xc0 = [xdb; xdc]
  /\ slip_escape xdb = [xdb; xdd]
  /\ (forall b, b <> xc0 -> b <> xdb -> slip_escape b = [b])
  /\ (forall pkt,
        slip_frame pkt = ([xc0] ++ concat (map slip_escape pkt) ++ [xc0])%list)
  /\ (forall pkt i,
        slip_frame pkt !! i = Some xc0 <->
        i = 0%nat \/ i = (length (slip_frame pkt) - 1)%nat)
  /\ sync_frame = ([xc0] ++ sync_pkt ++ [xc0])%list.
Proof.
  repeat split; try reflexivity.
  - intros b H0 H1. unfold slip_escape.
    destruct (Byte.eqb b xc0) eqn:E0; [by apply Byte.byte_dec_bl in E0|].
    destruct (Byte.eqb b xdb) eqn:E1; [by apply Byte.byte_dec_bl in E1|done].
  - intros pkt. apply slip_frame_unfold.
  - rewrite slip_frame_unfold. simpl length. rewrite length_app. simpl length.
    pose proof (slip_body_no_c0 pkt) as Hno.
    set (body := concat (map slip_escape pkt)) in *.
    destruct i as [|j]; [by left|]. simpl. intros Hj. right.
    destruct (decide (j < length body)%nat) as [Hlt|Hge].
    + rewrite lookup_app_l in Hj by done.
      destruct Hno. by eapply list_elem_of_lookup_2.
    + apply lookup_lt_Some in Hj. rewrite length_app in Hj. simpl in Hj. lia.
  - rewrite slip_frame_unfold. simpl length. rewrite length_app. simpl length.
    set (body := concat (map slip_escape pkt)).
    intros [->| ->]; [done|].
    replace (S (length body + 1) - 1)%nat with (S (length body)) by lia.
    simpl. rewrite lookup_app_r by lia. by rewrite Nat.sub_diag.
Qed.

(** C5. [probe_bootloader] always returns a boolean, and it returns [True]
    exactly when every serial call returns and the response read after the
    sync frame was written is longer than 4 bytes and holds the byte C0. If
    opening, resetting, writing, flushing, reading or closing raises, the
    result is [False]. *)
Theorem probe_bootloader_true_iff (s : SerialSession) :
  (probe_bootloader s = true <->
   exists resp,
     ser_open s = Returns tt
     /\ ser_reset_input_buffer s = Returns tt
     /\ ser_write s sync_frame = Returns tt
     /\ ser_flush s = Returns tt
     /\ ser_read s sync_frame 100 = Returns resp
     /\ ser_close s = Returns tt
     /\ (4 < length resp)%nat
     /\ xc0 ∈ resp)
  /\ (ser_open s = Raises
      \/ ser_reset_input_buffer s = Raises
      \/ ser_write s sync_frame = Raises
      \/ ser_flush s = Raises
      \/ ser_read s sync_frame 100 = Raises
      \/ ser_close s = Raises ->
      probe_bootloader s = false).
Proof.
  unfold probe_bootloader, probe_try, io_bind. split; [split|].
  - destruct (ser_open s) as [[]|]; [|done].
    destruct (ser_reset_input_buffer s) as [[]|]; [|done].
    destruct (ser_write s sync_frame) as [[]|]; [|done].
    destruct (ser_flush s) as [[]|]; [|done].
    destruct (ser_read s sync_frame 100) as [resp|]; [|done].
    destruct (ser_close s) as [[]|]; [|done].
    intros [Hin Hlen]%andb_prop. exists resp. repeat split.
    + by apply Nat.ltb_lt.
    + unfold contains_byte in Hin. apply existsb_exists in Hin as (b & Hb & E).
      apply Byte.byte_dec_bl in E as <-. by apply list_elem_of_In.
  - intros (resp & -> & -> & -> & -> & -> & -> & Hlen & Hin).
    apply andb_true_intro. split.
    + unfold contains_byte. apply existsb_exists. exists xc0.
      split; [by apply list_elem_of_In|done].
    + by apply Nat.ltb_lt.
  - intros H.
    destruct (ser_open s) as [[]|]; [|done].
    destruct (ser_reset_input_buffer s) as [[]|]; [|done].
    destruct (ser_write s sync_frame) as [[]|]; [|done].
    destruct (ser_flush s) as [[]|]; [|done].
    destruct (ser_read s sync_frame 100) as [resp|]; [|done].
    destruct (ser_close s) as [[]|]; [|done].
    destruct H as [H|[H|[H|[H|[H|H]]]]]; discriminate H.
Qed.

(** ** Channel scan *)

Lemma CHANNELS_NoDup : NoDup CHANNELS.
Proof. apply (bool_decide_unpack _). by vm_compute. Qed.

(** Every entry of the channel assignment is a registered device with a
    non-empty serial number, on a channel of [CHANNELS]. *)
Lemma channel_devices_of_Some devs hub ports ch sn p :
  channel_devices_of devs hub ports !! ch = Some (sn, p) ->
  is_Some (devs !! sn) /\ serial_number p = Some sn /\ sn <> ""
  /\ port_to_channel (location p) hub = Some ch /\ p ∈ ports.
Proof.
  unfold channel_devices_of.
  assert (forall acc : gmap string (string * ListPortInfo),
    (forall ch sn p, acc !! ch = Some (sn, p) ->
       is_Some (devs !! sn) /\ serial_number p = Some sn /\ sn <> ""
       /\ port_to_channel (location p) hub = Some ch) ->
    fold_left
      (fun cd p =>
         if negb (Py.truthy (serial_number p))
            || negb (bool_decide (is_Some (devs !! default "" (serial_number p))))
         then cd
         else
           let channel := port_to_channel (location p) hub in
           if Py.truthy channel
           then <[default "" channel := (default "" (serial_number p), p)]> cd
           else cd) ports acc !! ch = Some (sn, p) ->
    (is_Some (devs !! sn) /\ serial_number p = Some sn /\ sn <> ""
     /\ port_to_channel (location p) hub = Some ch)
    /\ (p ∈ ports \/ acc !! ch = Some (sn, p))) as H.
  { induction ports as [|q ports IH]; intros acc Hacc; simpl.
    - intros E. split; [by eapply Hacc|by right].
    - intros E. apply IH in E.
      + destruct E as [E1 [E2|E2]]; (split; [done|]).
        * left. by right.
        * destruct (negb (Py.truthy (serial_number q)) || _); [by right|].
          destruct (Py.truthy (port_to_channel (location q) hub)); [|by right].
          destruct (decide (default "" (port_to_channel (location q) hub) = ch))
            as [<-|Hne].
          -- rewrite lookup_insert_eq in E2. injection E2 as _ <-. left. by left.
          -- rewrite lookup_insert_ne in E2 by done. by right.
      + clear E. intros ch' sn' p'.
        destruct (Py.truthy (serial_number q)) eqn:Esn; [|by apply Hacc].
        cbn [negb orb].
        destruct (bool_decide _) eqn:Ereg; [|by apply Hacc]. cbn [negb].
        destruct (port_to_channel (location q) hub) as [c|] eqn:Eptc;
          [|by apply Hacc].
        destruct (Py.truthy (Some c)) eqn:Ec; [|by apply Hacc].
        cbn [from_option]. unfold id.
        destruct (decide (c = ch')) as [<-|Hne].
        * rewrite lookup_insert_eq. intros [= <- <-].
          apply bool_decide_eq_true in Ereg.
          destruct (serial_number q) as [[|x y]|]; try done.
        * rewrite lookup_insert_ne by done. apply Hacc. }
  intros E. apply H in E; [|by intros ???; rewrite lookup_empty].
  destruct E as [(?&?&?&?) [?|E]]; [done|by rewrite lookup_empty in E].
Qed.

(** [_probe_state] always returns; it records its call, probes the
    bootloader at most once, and changes nothing else. *)
Lemma _probe_state_eq w p ty a :
  _probe_state w p ty a =
    (Ret (probed_mode w (length (probes a)) p ty),
     fold_right add_probe (add_probed (p, ty) a) (probe_paths p ty)).
Proof.
  unfold _probe_state, probed_mode, probe_paths, bind, modify, ret,
    call_probe_bootloader.
  destruct (Py.truthy (device p)); cbn [negb andb]; [|done].
  destruct (String.eqb ty "esp32"); [|done]. simpl.
  by destruct (probe_bootloader _).
Qed.

Lemma set_channel_serials_id a :
  set_channel_serials (_channel_serials a) a = a.
Proof. by destruct a. Qed.

Lemma set_channel_states_id a :
  set_channel_states (_channel_states a) a = a.
Proof. by destruct a. Qed.

(** The turn of the loop for an empty channel. *)
Lemma scan_channel_empty w cd ds ch a :
  cd !! ch = None ->
  scan_channel w cd ds ch a =
    (Ret (<[ch := _empty_display]> ds),
     set_channel_states (delete ch (_channel_states a))
       (set_channel_serials (delete ch (_channel_serials a)) a)).
Proof. intros E. unfold scan_channel. by rewrite E. Qed.

(** The turn of the loop for a channel whose occupant is the one recorded:
    the cached mode is used and nothing is probed. *)
Lemma scan_channel_cached w cd ds ch a sn p dev :
  cd !! ch = Some (sn, p) ->
  devices a !! sn = Some dev ->
  _channel_serials a !! ch = Some sn ->
  scan_channel w cd ds ch a =
    (Ret (<[ch := _build_display (dev_hub_name dev)
                    (default "running" (_channel_states a !! ch))]> ds), a).
Proof.
  intros E Hdev Hsn. unfold scan_channel. rewrite E.
  unfold bind, devices_getitem, gets, modify, ret. rewrite Hdev, Hsn.
  rewrite bool_decide_eq_true_2 by done. cbn [negb].
  rewrite (insert_id _ _ _ Hsn). by rewrite set_channel_serials_id.
Qed.

(** The turn of the loop for a channel whose occupant is not the one
    recorded: the mode is the one [_probe_state] finds, and it is cached. *)
Lemma scan_channel_new w cd ds ch a sn p dev :
  cd !! ch = Some (sn, p) ->
  devices a !! sn = Some dev ->
  _channel_serials a !! ch <> Some sn ->
  let state := probed_mode w (length (probes a)) p (dev_type dev) in
  let a1 := fold_right add_probe (add_probed (p, dev_type dev) a)
              (probe_paths p (dev_type dev)) in
  scan_channel w cd ds ch a =
    (Ret (<[ch := _build_display (dev_hub_name dev) state]> ds),
     set_channel_serials (<[ch := sn]> (_channel_serials a1))
       (set_channel_states (<[ch := state]> (_channel_states a1)) a1)).
Proof.
  intros E Hdev Hsn. unfold scan_channel. rewrite E.
  unfold bind at 1. unfold devices_getitem. rewrite Hdev.
  unfold bind at 1. unfold gets at 1.
  rewrite bool_decide_eq_false_2 by (intros H; by rewrite <- H in Hsn).
  cbn [negb]. unfold bind. rewrite _probe_state_eq. reflexivity.
Qed.

Lemma same_but_channel_probes ch a paths c :
  same_but_channel ch a (fold_right add_probe (add_probed c a) paths).
Proof.
  unfold same_but_channel.
  induction paths as [|x paths IH]; [repeat split; done|].
  destruct IH as (?&?&?&?&?&?&?&?&?&?&Hother).
  repeat split; try done; by apply Hother.
Qed.

(** One turn of the loop always returns: it yields the frame that the
    assignment and the cache it leaves give to the channel, touches no cache
    entry of another channel, and leaves the channel settled. *)
Lemma scan_channel_post w cd ds ch a :
  registered cd (devices a) ->
  exists a',
    scan_channel w cd ds ch a = (Ret (<[ch := frame_of cd a' ch]> ds), a')
    /\ same_but_channel ch a a'
    /\ settled_at cd ch a'.
Proof.
  intros Hreg. unfold settled_at, frame_of.
  destruct (cd !! ch) as [[sn p]|] eqn:E.
  - destruct (Hreg _ _ _ E) as [dev Hdev].
    destruct (decide (_channel_serials a !! ch = Some sn)) as [Hsn|Hsn].
    + exists a. rewrite (scan_channel_cached _ _ _ _ _ _ _ _ E Hdev Hsn).
      rewrite Hdev. by repeat split.
    + pose proof (scan_channel_new w cd ds ch a sn p dev E Hdev Hsn) as Heq.
      cbn zeta in Heq.
      pose proof (same_but_channel_probes ch a
                    (probe_paths p (dev_type dev)) (p, dev_type dev))
        as (?&?&Hd&?&?&?&?&?&?&?&Hother).
      set (a1 := fold_right add_probe (add_probed (p, dev_type dev) a)
                   (probe_paths p (dev_type dev))) in *.
      set (st := probed_mode w (length (probes a)) p (dev_type dev)) in *.
      exists (set_channel_serials (<[ch := sn]> (_channel_serials a1))
                (set_channel_states (<[ch := st]> (_channel_states a1)) a1)).
      rewrite Heq. split; [|split].
      * cbn [devices _channel_states set_channel_serials set_channel_states].
        by rewrite Hd, Hdev, lookup_insert_eq.
      * repeat split; try done; cbn;
          rewrite lookup_insert_ne by done; by apply Hother.
      * cbn. by rewrite lookup_insert_eq.
  - exists (set_channel_states (delete ch (_channel_states a))
              (set_channel_serials (delete ch (_channel_serials a)) a)).
    rewrite (scan_channel_empty _ _ _ _ _ E).
    split; [done|]. split.
    + repeat split; try done; cbn; by rewrite lookup_delete_ne.
    + cbn. by rewrite !lookup_delete_eq.
Qed.

(** On a settled channel the turn changes nothing and probes nothing. *)
Lemma scan_channel_settled w cd ds ch a :
  registered cd (devices a) ->
  settled_at cd ch a ->
  scan_channel w cd ds ch a = (Ret (<[ch := frame_of cd a ch]> ds), a).
Proof.
  intros Hreg. unfold settled_at, frame_of.
  destruct (cd !! ch) as [[sn p]|] eqn:E.
  - intros Hsn. destruct (Hreg _ _ _ E) as [dev Hdev].
    rewrite (scan_channel_cached _ _ _ _ _ _ _ _ E Hdev Hsn). by rewrite Hdev.
  - intros [Hsn Hst]. rewrite (scan_channel_empty _ _ _ _ _ E).
    rewrite (delete_id _ _ Hsn), (delete_id _ _ Hst).
    by rewrite set_channel_serials_id, set_channel_states_id.
Qed.

Lemma settled_at_ext cd ch a a' :
  _channel_serials a' !! ch = _channel_serials a !! ch ->
  _channel_states a' !! ch = _channel_states a !! ch ->
  settled_at cd ch a -> settled_at cd ch a'.
Proof.
  unfold settled_at. intros -> ->. done.
Qed.

Lemma frame_of_ext cd ch a a' :
  devices a' = devices a ->
  _channel_states a' !! ch = _channel_states a !! ch ->
  frame_of cd a' ch = frame_of cd a ch.
Proof. unfold frame_of. intros -> ->. done. Qed.

Lemma for_fold_app {A B} (f : B -> A -> M B) (l1 l2 : list A) (acc : B) a :
  for_fold f (l1 ++ l2)%list acc a =
    match for_fold f l1 acc a with
    | (Ret acc', a') => for_fold f l2 acc' a'
    | (Raise e, a') => (Raise e, a')
    end.
Proof.
  revert acc a. induction l1 as [|x l1 IH]; intros acc a; [done|].
  simpl. unfold bind. destruct (f acc x a) as [[acc'|e] a']; [apply IH|done].
Qed.

(** The loop over channels that are pairwise different always returns; each
    of them ends settled, with the frame that the cache it leaves gives it,
    and the other channels keep their cache entries. *)
Lemma scan_fold_post w cd chs :
  NoDup chs ->
  forall ds a,
    registered cd (devices a) ->
    exists ds' a',
      for_fold (scan_channel w cd) chs ds a = (Ret ds', a')
      /\ same_but_channels chs a a'
      /\ (forall ch, ch ∈ chs ->
            settled_at cd ch a' /\ ds' !! ch = Some (frame_of cd a' ch))
      /\ (forall ch, ch ∉ chs -> ds' !! ch = ds !! ch).
Proof.
  induction 1 as [|ch chs Hnotin Hnd IH]; intros ds a Hreg.
  - exists ds, a. split; [done|]. split; [by repeat split|].
    split; [by intros ch ?%elem_of_nil|done].
  - destruct (scan_channel_post w cd ds ch a Hreg) as (a1 & E1 & S1 & Hset).
    destruct S1 as (H1&H2&H3&H4&H5&H6&H7&H8&H9&H10&Hother1).
    destruct (IH (<[ch := frame_of cd a1 ch]> ds) a1) as
      (ds' & a' & E2 & S2 & Hin & Hout); [by rewrite H3|].
    destruct S2 as (G1&G2&G3&G4&G5&G6&G7&G8&G9&G10&Hother2).
    exists ds', a'. split; [|split; [|split]].
    + simpl. unfold bind. by rewrite E1.
    + repeat split; try congruence.
      * apply not_elem_of_cons in H as [Hne Hni].
        destruct (Hother2 _ Hni) as [-> _]. by apply Hother1.
      * apply not_elem_of_cons in H as [Hne Hni].
        destruct (Hother2 _ Hni) as [_ ->]. by apply Hother1.
    + intros c [->|Hc]%elem_of_cons; [|by apply Hin].
      destruct (Hother2 _ Hnotin) as [Es Et]. split.
      * by apply (settled_at_ext cd ch a1).
      * rewrite (Hout _ Hnotin), lookup_insert_eq.
        by rewrite (frame_of_ext cd ch a1 a').
    + intros c [Hne Hni]%not_elem_of_cons.
      by rewrite (Hout _ Hni), lookup_insert_ne.
Qed.

(** The loop over settled channels changes nothing and probes nothing. *)
Lemma scan_fold_settled w cd chs :
  forall ds a,
    registered cd (devices a) ->
    (forall ch, ch ∈ chs -> settled_at cd ch a) ->
    for_fold (scan_channel w cd) chs ds a = (Ret (frames_of cd a chs ds), a).
Proof.
  induction chs as [|ch chs IH]; intros ds a Hreg Hset; [done|].
  simpl. unfold bind.
  rewrite scan_channel_settled by (done || apply Hset; by left).
  apply IH; [done|]. intros c Hc. apply Hset. by right.
Qed.

Lemma frames_of_lookup cd a chs ds ch :
  frames_of cd a chs ds !! ch =
    if decide (ch ∈ chs) then Some (frame_of cd a ch) else ds !! ch.
Proof.
  unfold frames_of. revert ds.
  induction chs as [|c chs IH]; intros ds; simpl.
  - destruct (decide (ch ∈ [])) as [H|]; [by apply elem_of_nil in H|done].
  - rewrite IH. destruct (decide (ch ∈ chs)) as [Hin|Hni].
    + rewrite decide_True by (by right). done.
    + destruct (decide (ch = c)) as [->|Hne].
      * rewrite decide_True by (by left). by rewrite lookup_insert_eq.
      * rewrite decide_False by (by intros [?|?]%elem_of_cons).
        by rewrite lookup_insert_ne.
Qed.

Lemma occupants_registered a ports : registered (occupants a ports) (devices a).
Proof.
  intros ch sn p E. by apply channel_devices_of_Some in E as (?&_).
Qed.

Lemma occupants_in_CHANNELS a ports ch :
  is_Some (occupants a ports !! ch) -> ch ∈ CHANNELS.
Proof.
  intros [[sn p] E]. apply channel_devices_of_Some in E as (_&_&_&E&_).
  by eapply port_to_channel_in_CHANNELS.
Qed.

Lemma _scan_channels_unfold w ports a :
  _scan_channels w ports a =
    for_fold (scan_channel w (occupants a ports)) CHANNELS ∅ a.
Proof. reflexivity. Qed.

(** Two scans in a row whose answers of [comports()] give the same
    channel assignment (the same answer, or one that differs in the order
    or in devices that are not registered or not on the hub): the second
    returns the displays of the first and changes nothing. *)
Lemma scan_channels_twice (w1 w2 : World) (ports1 ports2 : list ListPortInfo)
    (a : HubAgent) :
  occupants a ports2 = occupants a ports1 ->
  exists displays a1,
    _scan_channels w1 ports1 a = (Ret displays, a1)
    /\ _scan_channels w2 ports2 a1 = (Ret displays, a1)
    /\ (forall ch, ch ∈ CHANNELS -> is_Some (displays !! ch)).
Proof.
  intros Hocc. rewrite _scan_channels_unfold.
  destruct (scan_fold_post w1 (occupants a ports1) CHANNELS CHANNELS_NoDup ∅ a
              (occupants_registered a ports1))
    as (ds & a1 & E1 & S & Hin & Hout).
  destruct S as (_&Hloc&Hdev&_).
  exists ds, a1. split; [done|]. split.
  - rewrite _scan_channels_unfold.
    assert (occupants a1 ports2 = occupants a ports1) as ->
      by (rewrite <- Hocc; unfold occupants; by rewrite Hloc, Hdev).
    rewrite scan_fold_settled.
    + f_equal. f_equal. apply map_eq. intros ch.
      rewrite frames_of_lookup. destruct (decide (ch ∈ CHANNELS)) as [Hc|Hc].
      * by destruct (Hin _ Hc) as [_ ->].
      * by rewrite (Hout _ Hc).
    + rewrite Hdev. apply occupants_registered.
    + intros ch Hc. by apply Hin.
  - intros ch Hc. destruct (Hin _ Hc) as [_ ->]. done.
Qed.

(** C1. Two calls of [_scan_channels] in a row on the same answer of
    [comports()], with the registry and the hub location as they are: the
    second call returns the same display for every channel as the first,
    and it leaves the agent as the first call left it, so that it makes no
    call of [_probe_state] and no bootloader probe; this holds whatever the
    devices would answer to a probe at the time of the second call. *)
Theorem scan_channels_idempotent (w1 w2 : World) (ports : list ListPortInfo)
    (a : HubAgent) :
  exists displays a1,
    _scan_channels w1 ports a = (Ret displays, a1)
    /\ _scan_channels w2 ports a1 = (Ret displays, a1)
    /\ probes (_scan_channels w2 ports a1).2 = probes a1
    /\ probed (_scan_channels w2 ports a1).2 = probed a1
    /\ (forall ch, ch ∈ CHANNELS -> is_Some (displays !! ch)).
Proof.
  destruct (scan_channels_twice w1 w2 ports ports a eq_refl)
    as (ds & a1 & E1 & E2 & Hds).
  exists ds, a1. rewrite E2. done.
Qed.

(** The board on channel 1 is probed by the first scan and not by the
    second. *)
Example scan_twice_probes_once :
  let w := sample_world HubOSError in
  let r1 := _scan_channels w [board_port] sample_agent in
  let r2 := _scan_channels w [board_port] r1.2 in
  probes r1.2 = ["/dev/cu.usbserial-7"]
  /\ probes r2.2 = ["/dev/cu.usbserial-7"]
  /\ returned_display r1 "CH1" = Some (_build_display "board-b" "bootloader")
  /\ returned_display r2 "CH1" = Some (_build_display "board-b" "bootloader").
Proof. cbv zeta. repeat split; vm_compute; reflexivity. Qed.

(** The scan split at the turn of one channel: the turns before it leave
    its cache entries as they were at the start; its own turn is followed
    by turns that leave them, and its display, as that turn made them. *)
Lemma scan_channels_turn w ports a pre ch post :
  CHANNELS = (pre ++ ch :: post)%list ->
  exists ds1 a1 ds2 a2 ds3 a3,
    for_fold (scan_channel w (occupants a ports)) pre ∅ a = (Ret ds1, a1)
    /\ scan_channel w (occupants a ports) ds1 ch a1 = (Ret ds2, a2)
    /\ for_fold (scan_channel w (occupants a ports)) post ds2 a2 = (Ret ds3, a3)
    /\ _scan_channels w ports a = (Ret ds3, a3)
    /\ devices a1 = devices a
    /\ _channel_serials a1 !! ch = _channel_serials a !! ch
    /\ _channel_states a1 !! ch = _channel_states a !! ch
    /\ _channel_serials a3 !! ch = _channel_serials a2 !! ch
    /\ _channel_states a3 !! ch = _channel_states a2 !! ch
    /\ ds3 !! ch = ds2 !! ch.
Proof.
  intros Hsplit. pose proof CHANNELS_NoDup as Hnd. rewrite Hsplit in Hnd.
  apply NoDup_app in Hnd as (Hpre & Hdisj & Hnd).
  apply NoDup_cons in Hnd as [Hpost Hnd].
  assert (ch ∉ pre) as Hch by (intros Hin; apply (Hdisj _ Hin); by left).
  set (cd := occupants a ports).
  destruct (scan_fold_post w cd pre Hpre ∅ a (occupants_registered a ports))
    as (ds1 & a1 & E1 & S1 & _ & _).
  destruct S1 as (_&_&Hdev1&_&_&_&_&_&_&_&Hother1).
  assert (registered cd (devices a1)) as Hreg1
    by (rewrite Hdev1; apply occupants_registered).
  destruct (scan_channel_post w cd ds1 ch a1 Hreg1) as (a2 & E2 & S2 & _).
  destruct S2 as (_&_&Hdev2&_).
  assert (registered cd (devices a2)) as Hreg2 by (by rewrite Hdev2).
  destruct (scan_fold_post w cd post Hnd (<[ch := frame_of cd a2 ch]> ds1) a2 Hreg2)
    as (ds3 & a3 & E3 & S3 & _ & Hout3).
  destruct S3 as (_&_&_&_&_&_&_&_&_&_&Hother3).
  exists ds1, a1, (<[ch := frame_of cd a2 ch]> ds1), a2, ds3, a3.
  repeat split; try done.
  - rewrite _scan_channels_unfold, Hsplit, for_fold_app. fold cd. rewrite E1.
    simpl. unfold bind. by rewrite E2.
  - by apply Hother1.
  - by apply Hother1.
  - by apply Hother3.
  - by apply Hother3.
  - by apply Hout3.
Qed.

Lemma fold_add_probe_fields a0 paths :
  probes (fold_right add_probe a0 paths) = (paths ++ probes a0)%list
  /\ probed (fold_right add_probe a0 paths) = probed a0
  /\ _channel_serials (fold_right add_probe a0 paths) = _channel_serials a0
  /\ _channel_states (fold_right add_probe a0 paths) = _channel_states a0.
Proof.
  induction paths as [|x paths (IH1&IH2&IH3&IH4)]; [done|].
  simpl. by rewrite IH1.
Qed.

(** What the turn for a channel with a new occupant records and caches. *)
Lemma scan_channel_new_facts w cd ds ch a sn p dev ds2 a2 :
  cd !! ch = Some (sn, p) ->
  devices a !! sn = Some dev ->
  _channel_serials a !! ch <> Some sn ->
  scan_channel w cd ds ch a = (Ret ds2, a2) ->
  probed a2 = (p, dev_type dev) :: probed a
  /\ probes a2 = (probe_paths p (dev_type dev) ++ probes a)%list
  /\ _channel_serials a2 !! ch = Some sn
  /\ _channel_states a2 !! ch
     = Some (probed_mode w (length (probes a)) p (dev_type dev))
  /\ ds2 !! ch
     = Some (_build_display (dev_hub_name dev)
               (probed_mode w (length (probes a)) p (dev_type dev))).
Proof.
  intros E Hdev Hsn.
  rewrite (scan_channel_new w cd ds ch a sn p dev E Hdev Hsn). cbn zeta.
  intros [= <- <-].
  destruct (fold_add_probe_fields (add_probed (p, dev_type dev) a)
              (probe_paths p (dev_type dev))) as (F1&F2&F3&F4).
  cbn [probed probes _channel_serials _channel_states
       set_channel_serials set_channel_states].
  rewrite F1, F2, !lookup_insert_eq. done.
Qed.

(** What the turn for a channel with its recorded occupant does. *)
Lemma scan_channel_cached_facts w cd ds ch a sn p dev ds2 a2 :
  cd !! ch = Some (sn, p) ->
  devices a !! sn = Some dev ->
  _channel_serials a !! ch = Some sn ->
  scan_channel w cd ds ch a = (Ret ds2, a2) ->
  a2 = a
  /\ ds2 !! ch
     = Some (_build_display (dev_hub_name dev)
               (default "running" (_channel_states a !! ch))).
Proof.
  intros E Hdev Hsn.
  rewrite (scan_channel_cached w cd ds ch a sn p dev E Hdev Hsn).
  intros [= <- <-]. by rewrite lookup_insert_eq.
Qed.

(** C6 (as amended). When the occupant of a channel in a scan is not the one
    recorded for the channel (another one or none was), [_probe_state] is
    called once for it in the turn of that channel, and the mode it finds is
    cached for the channel and shown in its frame, whatever mode was cached
    before. If the device has a path and its type is esp32, exactly one
    bootloader probe is made in that turn, on that path, and the mode is
    bootloader or running as the probe says. If it has a path and another
    type, no probe is made and the mode is running. If it has no path, no
    probe is made and the mode is sleeping. *)
Theorem new_occupant_probed_once (w : World) (ports : list ListPortInfo)
    (a : HubAgent) (ch sn : string) (p : ListPortInfo) (dev : DeviceRecord) :
  occupants a ports !! ch = Some (sn, p) ->
  devices a !! sn = Some dev ->
  _channel_serials a !! ch <> Some sn ->
  exists pre post ds1 a1 ds2 a2 ds3 a3 mode,
    CHANNELS = (pre ++ ch :: post)%list
    /\ for_fold (scan_channel w (occupants a ports)) pre ∅ a = (Ret ds1, a1)
    /\ scan_channel w (occupants a ports) ds1 ch a1 = (Ret ds2, a2)
    /\ for_fold (scan_channel w (occupants a ports)) post ds2 a2 = (Ret ds3, a3)
    /\ _scan_channels w ports a = (Ret ds3, a3)
    /\ probed a2 = (p, dev_type dev) :: probed a1
    /\ _channel_serials a3 !! ch = Some sn
    /\ _channel_states a3 !! ch = Some mode
    /\ ds3 !! ch = Some (_build_display (dev_hub_name dev) mode)
    /\ (Py.truthy (device p) = true -> dev_type dev = "esp32" ->
          probes a2 = default "" (device p) :: probes a1
          /\ mode = if probe_bootloader
                         (open_session w (length (probes a1))
                            (default "" (device p)))
                    then "bootloader" else "running")
    /\ (Py.truthy (device p) = true -> dev_type dev <> "esp32" ->
          probes a2 = probes a1 /\ mode = "running")
    /\ (Py.truthy (device p) = false ->
          probes a2 = probes a1 /\ mode = "sleeping").
Proof.
  intros E Hdev Hsn.
  assert (ch ∈ CHANNELS) as Hch
    by (apply (occupants_in_CHANNELS a ports); by rewrite E).
  apply list_elem_of_split in Hch as (pre & post & Hsplit).
  destruct (scan_channels_turn w ports a pre ch post Hsplit)
    as (ds1 & a1 & ds2 & a2 & ds3 & a3 &
        E1 & E2 & E3 & E4 & D1 & S1 & T1 & S3 & T3 & F3).
  assert (devices a1 !! sn = Some dev) as Hdev1 by (by rewrite D1).
  assert (_channel_serials a1 !! ch <> Some sn) as Hsn1 by (by rewrite S1).
  destruct (scan_channel_new_facts _ _ _ _ _ _ _ _ _ _ E Hdev1 Hsn1 E2)
    as (P1 & P2 & P3 & P4 & P5).
  exists pre, post, ds1, a1, ds2, a2, ds3, a3,
    (probed_mode w (length (probes a1)) p (dev_type dev)).
  split; [done|]. split; [done|]. split; [done|]. split; [done|].
  split; [done|]. split; [done|]. split; [congruence|].
  split; [congruence|]. split; [congruence|].
  unfold probe_paths in P2. unfold probed_mode.
  split; [|split].
  - intros Hpath Hty. rewrite Hpath in *.
    rewrite (proj2 (String.eqb_eq _ _) Hty) in *. done.
  - intros Hpath Hty. rewrite Hpath in *.
    rewrite (proj2 (String.eqb_neq _ _) Hty) in *. done.
  - intros Hpath. rewrite Hpath in *. done.
Qed.

(** C6, witness: the esp32 board appears on channel 1 of a fresh agent. *)
Lemma new_occupant_probed_once_witness :
  exists pre post ds1 a1 ds2 a2 ds3 a3 mode,
    CHANNELS = (pre ++ "CH1" :: post)%list
    /\ for_fold (scan_channel (sample_world HubOSError)
                   (occupants sample_agent [board_port]))
         pre ∅ sample_agent = (Ret ds1, a1)
    /\ scan_channel (sample_world HubOSError)
         (occupants sample_agent [board_port]) ds1 "CH1" a1 = (Ret ds2, a2)
    /\ for_fold (scan_channel (sample_world HubOSError)
                   (occupants sample_agent [board_port]))
         post ds2 a2 = (Ret ds3, a3)
    /\ _scan_channels (sample_world HubOSError) [board_port] sample_agent
       = (Ret ds3, a3)
    /\ probed a2 = (board_port, dev_type board_b) :: probed a1
    /\ _channel_serials a3 !! "CH1" = Some "b0a4d1"
    /\ _channel_states a3 !! "CH1" = Some mode
    /\ ds3 !! "CH1" = Some (_build_display (dev_hub_name board_b) mode)
    /\ (Py.truthy (device board_port) = true ->
        dev_type board_b = "esp32" ->
          probes a2 = default "" (device board_port) :: probes a1
          /\ mode = if probe_bootloader
                         (open_session (sample_world HubOSError)
                            (length (probes a1))
                            (default "" (device board_port)))
                    then "bootloader" else "running")
    /\ (Py.truthy (device board_port) = true ->
        dev_type board_b <> "esp32" ->
          probes a2 = probes a1 /\ mode = "running")
    /\ (Py.truthy (device board_port) = false ->
          probes a2 = probes a1 /\ mode = "sleeping").
Proof.
  apply (new_occupant_probed_once (sample_world HubOSError) [board_port]
           sample_agent "CH1" "b0a4d1" board_port board_b).
  - vm_compute. reflexivity.
  - vm_compute. reflexivity.
  - vm_compute. discriminate.
Defined.

(** C6, counterexample: a device of type generic appears on channel 2 with
    no device path; no probe is made, and its mode is sleeping, not
    running. *)
Lemma generic_without_path_is_sleeping :
  let ports := [sample_port None "abc123" "20-3.3.2"] in
  let r := _scan_channels (sample_world HubOSError) ports sample_agent in
  dev_type sensor_a <> "esp32"
  /\ devices sample_agent !! "abc123" = Some sensor_a
  /\ occupants sample_agent ports !! "CH2"
     = Some ("abc123", sample_port None "abc123" "20-3.3.2")
  /\ _channel_serials sample_agent !! "CH2" = None
  /\ probes r.2 = []
  /\ _channel_states r.2 !! "CH2" = Some "sleeping"
  /\ _channel_states r.2 !! "CH2" <> Some "running"
  /\ returned_display r "CH2" = Some (_build_display "sensor-a" "sleeping").
Proof.
  cbv zeta. repeat split; vm_compute; (reflexivity || discriminate).
Qed.

(** A device path that cannot be opened does not give the mode sleeping
    either: a new esp32 occupant whose port raises on opening is probed and
    found running, and so is a generic one, which is not probed. *)
Lemma unopenable_path_is_running :
  let r := _scan_channels dead_world
             [board_port;
              sample_port (Some "/dev/cu.usbserial-1") "abc123" "20-3.3.2"]
             sample_agent in
  probes r.2 = ["/dev/cu.usbserial-7"]
  /\ _channel_states r.2 !! "CH1" = Some "running"
  /\ _channel_states r.2 !! "CH2" = Some "running"
  /\ returned_display r "CH1" = Some (_build_display "board-b" "running").
Proof. cbv zeta. repeat split; vm_compute; reflexivity. Qed.

(** C3 (as amended). In a scan, a channel whose occupant is not the one
    recorded for it and whose port has no device path gets the mode
    sleeping: the mode is cached, and the frame has the name in CYAN and
    the status line sleeping in CYAN. A channel whose occupant is the one
    recorded keeps its cached mode (running if none is cached), also when
    its port has no device path. *)
Theorem sleeping_when_new_without_path (w : World)
    (ports : list ListPortInfo) (a : HubAgent) (ch sn : string)
    (p : ListPortInfo) (dev : DeviceRecord) :
  occupants a ports !! ch = Some (sn, p) ->
  devices a !! sn = Some dev ->
  Py.truthy (device p) = false ->
  exists ds a',
    _scan_channels w ports a = (Ret ds, a')
    /\ (_channel_serials a !! ch <> Some sn ->
          _channel_states a' !! ch = Some "sleeping"
          /\ ds !! ch =
               Some {| Dev1_name :=
                         {| T1 := {| txt := truncate (dev_hub_name dev);
                                     color := "CYAN" |};
                            T2 := Some {| txt := "sleeping"; color := "CYAN" |} |};
                       numDev := "10"; usbType := "2" |})
    /\ (_channel_serials a !! ch = Some sn ->
          _channel_states a' !! ch = _channel_states a !! ch
          /\ ds !! ch =
               Some (_build_display (dev_hub_name dev)
                       (default "running" (_channel_states a !! ch)))).
Proof.
  intros E Hdev Hpath.
  assert (ch ∈ CHANNELS) as Hch
    by (apply (occupants_in_CHANNELS a ports); by rewrite E).
  apply list_elem_of_split in Hch as (pre & post & Hsplit).
  destruct (scan_channels_turn w ports a pre ch post Hsplit)
    as (ds1 & a1 & ds2 & a2 & ds3 & a3 &
        E1 & E2 & E3 & E4 & D1 & S1 & T1 & S3 & T3 & F3).
  assert (devices a1 !! sn = Some dev) as Hdev1 by (by rewrite D1).
  exists ds3, a3. split; [done|]. split.
  - intros Hsn.
    assert (_channel_serials a1 !! ch <> Some sn) as Hsn1 by (by rewrite S1).
    destruct (scan_channel_new_facts _ _ _ _ _ _ _ _ _ _ E Hdev1 Hsn1 E2)
      as (_ & _ & _ & P4 & P5).
    unfold probed_mode in P4, P5. rewrite Hpath in P4, P5. cbn [negb] in P4, P5.
    split; [by rewrite T3|]. by rewrite F3, P5.
  - intros Hsn.
    assert (_channel_serials a1 !! ch = Some sn) as Hsn1 by (by rewrite S1).
    destruct (scan_channel_cached_facts _ _ _ _ _ _ _ _ _ _ E Hdev1 Hsn1 E2)
      as (-> & P5).
    split; [by rewrite T3|]. by rewrite F3, P5, T1.
Qed.

(** C3, witness: the generic sensor appears on channel 2 without a device
    path. *)
Lemma sleeping_when_new_without_path_witness :
  exists ds a',
    _scan_channels (sample_world HubOSError)
      [sample_port None "abc123" "20-3.3.2"] sample_agent = (Ret ds, a')
    /\ (_channel_serials sample_agent !! "CH2" <> Some "abc123" ->
          _channel_states a' !! "CH2" = Some "sleeping"
          /\ ds !! "CH2" =
               Some {| Dev1_name :=
                         {| T1 := {| txt := truncate (dev_hub_name sensor_a);
                                     color := "CYAN" |};
                            T2 := Some {| txt := "sleeping"; color := "CYAN" |} |};
                       numDev := "10"; usbType := "2" |})
    /\ (_channel_serials sample_agent !! "CH2" = Some "abc123" ->
          _channel_states a' !! "CH2" = _channel_states sample_agent !! "CH2"
          /\ ds !! "CH2" =
               Some (_build_display (dev_hub_name sensor_a)
                       (default "running"
                          (_channel_states sample_agent !! "CH2")))).
Proof.
  apply (sleeping_when_new_without_path (sample_world HubOSError)
           [sample_port None "abc123" "20-3.3.2"] sample_agent "CH2" "abc123"
           (sample_port None "abc123" "20-3.3.2") sensor_a).
  - vm_compute. reflexivity.
  - vm_compute. reflexivity.
  - reflexivity.
Defined.

(** C3, counterexample: the sensor sits on channel 2 with a device path
    and the mode running; at the next scan it is still there and its port
    has no device path any more. The mode stays running and the frame has
    no status line. *)
Lemma cached_mode_survives_lost_path :
  let w := sample_world HubOSError in
  let a := (_scan_channels w
              [sample_port (Some "/dev/cu.usbserial-1") "abc123" "20-3.3.2"]
              sample_agent).2 in
  let ports := [sample_port None "abc123" "20-3.3.2"] in
  let r := _scan_channels w ports a in
  _channel_serials a !! "CH2" = Some "abc123"
  /\ _channel_states a !! "CH2" = Some "running"
  /\ occupants a ports !! "CH2"
     = Some ("abc123", sample_port None "abc123" "20-3.3.2")
  /\ Py.truthy (device (sample_port None "abc123" "20-3.3.2")) = false
  /\ _channel_states r.2 !! "CH2" = Some "running"
  /\ _channel_states r.2 !! "CH2" <> Some "sleeping"
  /\ returned_display r "CH2" = Some (_build_display "sensor-a" "running")
  /\ T2 (Dev1_name (_build_display "sensor-a" "running")) = None.
Proof.
  cbv zeta. repeat split; vm_compute; (reflexivity || discriminate).
Qed.

Lemma cache_keys_ok_init port loc devs : cache_keys_ok (HubAgent_init port loc devs).
Proof.
  split; intros ch [x Hx]; cbn in Hx; by rewrite lookup_empty in Hx.
Qed.

(** The cache keys after a scan, from a state whose cache keys are
    channels. *)
Lemma scan_channels_keys (w : World) (ports : list ListPortInfo)
    (a : HubAgent) :
  cache_keys_ok a ->
  exists ds a',
    _scan_channels w ports a = (Ret ds, a')
    /\ dom (_channel_serials a') = dom (occupants a ports)
    /\ dom (_channel_states a') ⊆ dom (occupants a ports)
    /\ (forall ch, occupants a ports !! ch = None ->
          _channel_serials a' !! ch = None /\ _channel_states a' !! ch = None)
    /\ (forall ch sn p, occupants a ports !! ch = Some (sn, p) ->
          _channel_serials a' !! ch = Some sn)
    /\ cache_keys_ok a'.
Proof.
  intros [Kser Kst]. rewrite _scan_channels_unfold.
  destruct (scan_fold_post w (occupants a ports) CHANNELS CHANNELS_NoDup ∅ a
              (occupants_registered a ports))
    as (ds & a' & E & S & Hin & _).
  destruct S as (_&_&_&_&_&_&_&_&_&_&Hother).
  assert (forall ch, occupants a ports !! ch = None ->
            _channel_serials a' !! ch = None /\ _channel_states a' !! ch = None)
    as Hnone.
  { intros ch Hocc. destruct (decide (ch ∈ CHANNELS)) as [Hc|Hc].
    - destruct (Hin _ Hc) as [Hset _]. unfold settled_at in Hset.
      by rewrite Hocc in Hset.
    - destruct (Hother _ Hc) as [-> ->]. split.
      + destruct (_channel_serials a !! ch) eqn:Es; [|done].
        destruct Hc. apply Kser. by rewrite Es.
      + destruct (_channel_states a !! ch) eqn:Es; [|done].
        destruct Hc. apply Kst. by rewrite Es. }
  assert (forall ch sn p, occupants a ports !! ch = Some (sn, p) ->
            _channel_serials a' !! ch = Some sn) as Hsome.
  { intros ch sn p Hocc.
    assert (ch ∈ CHANNELS) as Hc
      by (apply (occupants_in_CHANNELS a ports); by rewrite Hocc).
    destruct (Hin _ Hc) as [Hset _]. unfold settled_at in Hset.
    by rewrite Hocc in Hset. }
  exists ds, a'. split; [done|]. split; [|split; [|split; [done|split; [done|]]]].
  - apply set_eq. intros ch. rewrite !elem_of_dom.
    destruct (occupants a ports !! ch) as [[sn p]|] eqn:Hocc.
    + rewrite (Hsome _ _ _ Hocc). split; intros _; by eexists.
    + destruct (Hnone _ Hocc) as [-> _]. done.
  - intros ch. rewrite !elem_of_dom.
    destruct (occupants a ports !! ch) as [[sn p]|] eqn:Hocc; [by eexists|].
    destruct (Hnone _ Hocc) as [_ ->]. done.
  - split; intros ch Hch.
    + destruct (occupants a ports !! ch) as [[sn p]|] eqn:Hocc.
      * apply (occupants_in_CHANNELS a ports). by rewrite Hocc.
      * destruct (Hnone _ Hocc) as [Hn _]. rewrite Hn in Hch. by destruct Hch.
    + destruct (occupants a ports !! ch) as [[sn p]|] eqn:Hocc.
      * apply (occupants_in_CHANNELS a ports). by rewrite Hocc.
      * destruct (Hnone _ Hocc) as [_ Hn]. rewrite Hn in Hch. by destruct Hch.
Qed.

(** C10. From a state whose cache keys are channels (as they are when the
    agent is created, and as the scan leaves them), [_scan_channels]
    returns, and then the channels with a cached serial number are exactly
    the channels occupied in this scan, the channels with a cached mode are
    among them, every channel not occupied in the scan has neither entry,
    and every occupied channel has its occupant's serial number cached. *)
Theorem scan_channels_cache_keys (w : World) (ports : list ListPortInfo)
    (a : HubAgent) :
  cache_keys_ok a ->
  exists ds a',
    _scan_channels w ports a = (Ret ds, a')
    /\ dom (_channel_serials a') = dom (occupants a ports)
    /\ dom (_channel_states a') ⊆ dom (occupants a ports)
    /\ (forall ch, occupants a ports !! ch = None ->
          _channel_serials a' !! ch = None /\ _channel_states a' !! ch = None)
    /\ (forall ch sn p, occupants a ports !! ch = Some (sn, p) ->
          _channel_serials a' !! ch = Some sn)
    /\ cache_keys_ok a'.
Proof. apply scan_channels_keys. Qed.

(** C10, witness: a fresh agent scanning the sensor on channel 2. *)
Lemma scan_channels_cache_keys_witness :
  exists ds a',
    _scan_channels (sample_world HubOSError)
      [sample_port None "abc123" "20-3.3.2"] sample_agent = (Ret ds, a')
    /\ dom (_channel_serials a')
       = dom (occupants sample_agent [sample_port None "abc123" "20-3.3.2"])
    /\ dom (_channel_states a')
       ⊆ dom (occupants sample_agent [sample_port None "abc123" "20-3.3.2"])
    /\ (forall ch,
          occupants sample_agent [sample_port None "abc123" "20-3.3.2"] !! ch
          = None ->
          _channel_serials a' !! ch = None /\ _channel_states a' !! ch = None)
    /\ (forall ch sn p,
          occupants sample_agent [sample_port None "abc123" "20-3.3.2"] !! ch
          = Some (sn, p) ->
          _channel_serials a' !! ch = Some sn)
    /\ cache_keys_ok a'.
Proof.
  apply (scan_channels_cache_keys (sample_world HubOSError)
           [sample_port None "abc123" "20-3.3.2"] sample_agent).
  apply cache_keys_ok_init.
Defined.

(** ** Display protocol client *)

Lemma _send_eq w msg a :
  _send w msg a = (Ret (sent_value w msg a), after_send w msg a).
Proof.
  unfold _send, sent_value, after_send, is_connected, bind, gets, modify, ret.
  destruct (_ser a) as [[[]]|]; cbn [is_open negb]; try done.
  unfold reply_value.
  destruct (hub_transact w (length (writes a)) msg) as [|line]; [done|].
  cbn [writes add_write].
  destruct (String.eqb (Py.strip line) ""); cbn [negb]; [done|].
  by destruct (json_loads w (Py.strip line)).
Qed.

Lemma _push_channel_eq w ch d log a :
  _push_channel w ch d log a =
    let a0 := add_pushed (ch, d) a in
    match push_value (sent_value w (ch, d) a0) with
    | Ret ok =>
        (Ret ok,
         if log then add_logged (log_line ch d ok) (after_send w (ch, d) a0)
         else after_send w (ch, d) a0)
    | Raise e => (Raise e, after_send w (ch, d) a0)
    end.
Proof.
  unfold _push_channel. unfold bind at 1. unfold modify at 1.
  unfold bind at 1. rewrite _send_eq. cbn zeta.
  set (a0 := add_pushed (ch, d) a).
  unfold push_value, bind, get_status, ret, raise, modify.
  destruct (py_truthy (sent_value w (ch, d) a0)) eqn:Et.
  - destruct (sent_value w (ch, d) a0); try done. by destruct log.
  - by destruct log.
Qed.

(** With a polite hub the comparison of the status never raises. *)
Lemma push_value_polite w msg a :
  polite w -> exists ok, push_value (sent_value w msg a) = Ret ok.
Proof.
  intros Hp. unfold push_value, sent_value.
  destruct (is_connected a); [|by eexists].
  unfold reply_value.
  destruct (hub_transact w (length (writes a)) msg) as [|line] eqn:Et;
    [by eexists|].
  destruct (String.eqb (Py.strip line) ""); [by eexists|].
  destruct (json_loads w (Py.strip line)) as [v|] eqn:Ej; [|by eexists].
  cbn [default from_option id].
  destruct (py_truthy v) eqn:Ev; [|by eexists].
  destruct (Hp _ _ _ _ Et Ej Ev) as [dct ->]. by eexists.
Qed.

(** X16. A push returns [True] exactly when the connection is open and
    the hub's line, stripped, is not empty and decodes to a dict whose
    status is the string ok. *)
Lemma push_channel_true_iff w ch d log a :
  (exists a', _push_channel w ch d log a = (Ret (PBool true), a')) <->
  is_connected a = true
  /\ exists line dct,
       hub_transact w (length (writes a)) (ch, d) = HubLine line
       /\ Py.strip line <> ""
       /\ json_loads w (Py.strip line) = Some (PDict dct)
       /\ dict_get "status" dct = Some (PStr "ok").
Proof.
  rewrite _push_channel_eq. cbn zeta.
  unfold push_value, sent_value, reply_value.
  change (is_connected (add_pushed (ch, d) a)) with (is_connected a).
  change (writes (add_pushed (ch, d) a)) with (writes a).
  split.
  - intros [a' H]. destruct (is_connected a); [|done]. split; [done|].
    destruct (hub_transact w (length (writes a)) (ch, d)) as [|line]; [done|].
    destruct (String.eqb (Py.strip line) "") eqn:Ee; [done|].
    apply String.eqb_neq in Ee.
    destruct (json_loads w (Py.strip line)) as [v|] eqn:Ej; [|done].
    cbn [default from_option id] in H.
    destruct (py_truthy v) eqn:Ev; [|destruct v; try done; by injection H as ->].
    destruct v as [| | | | | |dct]; try done.
    exists line, dct. repeat split; try done.
    injection H as H _. unfold eq_ok in H.
    destruct (dict_get "status" dct) as [[]|] eqn:Eg; try done.
    by apply String.eqb_eq in H as ->.
  - intros [-> (line & dct & -> & Hne & -> & Hst)].
    apply String.eqb_neq in Hne. rewrite Hne. cbn [default from_option id].
    destruct dct as [|kv dct]; [done|]. cbn [py_truthy].
    rewrite Hst. cbn [eq_ok String.eqb]. by eexists.
Qed.

(** A push marks the connection lost exactly when the connection is open
    and the write, the flush or the read raises [OSError]. *)
Lemma push_channel_hub_lost w ch d log a :
  _hub_lost (_push_channel w ch d log a).2 =
    _hub_lost a
    || is_connected a
       && match hub_transact w (length (writes a)) (ch, d) with
          | HubOSError => true
          | HubLine _ => false
          end.
Proof.
  rewrite _push_channel_eq. cbn zeta.
  assert (_hub_lost (after_send w (ch, d) (add_pushed (ch, d) a)) =
          _hub_lost a
          || is_connected a
             && match hub_transact w (length (writes a)) (ch, d) with
                | HubOSError => true
                | HubLine _ => false
                end) as H.
  { unfold after_send.
    change (is_connected (add_pushed (ch, d) a)) with (is_connected a).
    change (writes (add_pushed (ch, d) a)) with (writes a).
    destruct (is_connected a); cbn [andb]; [|by rewrite orb_false_r].
    destruct (hub_transact w (length (writes a)) (ch, d)); cbn.
    - by rewrite orb_true_r.
    - by rewrite orb_false_r. }
  destruct (push_value _); [destruct log|]; exact H.
Qed.

(** C4, at the failing input. When the connection is open and the hub's
    line decodes to a true value that is not a dict (an array, a number, a
    string, [true]), the push neither succeeds nor fails: it raises
    [AttributeError], without a log line and without marking the
    connection lost. *)
Theorem push_channel_raises_on_non_dict (w : World) (ch : string)
    (d : Display) (log : bool) (a : HubAgent) (line : string) (v : pyval) :
  is_connected a = true ->
  hub_transact w (length (writes a)) (ch, d) = HubLine line ->
  Py.strip line <> "" ->
  json_loads w (Py.strip line) = Some v ->
  py_truthy v = true ->
  (forall dct, v <> PDict dct) ->
  (_push_channel w ch d log a).1 = Raise AttributeError
  /\ logged (_push_channel w ch d log a).2 = logged a
  /\ _hub_lost (_push_channel w ch d log a).2 = _hub_lost a.
Proof.
  intros Hc Ht Hne Hj Hv Hnd.
  rewrite push_channel_hub_lost, Hc, Ht, orb_false_r.
  rewrite _push_channel_eq. cbn zeta.
  unfold push_value, sent_value, reply_value, after_send.
  change (is_connected (add_pushed (ch, d) a)) with (is_connected a).
  change (writes (add_pushed (ch, d) a)) with (writes a).
  rewrite Hc, Ht. apply String.eqb_neq in Hne. rewrite Hne, Hj.
  cbn [default from_option id]. rewrite Hv.
  destruct v; try done. by destruct (Hnd d0).
Qed.

(** C4, witness: the hub answers the push of channel 1 with the line
    [[1]]. *)
Lemma push_channel_raises_on_non_dict_witness :
  (_push_channel (sample_world (HubLine "[1]")) "CH1" _empty_display true
     connected_agent).1 = Raise AttributeError
  /\ logged (_push_channel (sample_world (HubLine "[1]")) "CH1"
               _empty_display true connected_agent).2
     = logged connected_agent
  /\ _hub_lost (_push_channel (sample_world (HubLine "[1]")) "CH1"
                  _empty_display true connected_agent).2
     = _hub_lost connected_agent.
Proof.
  apply (push_channel_raises_on_non_dict (sample_world (HubLine "[1]")) "CH1"
           _empty_display true connected_agent "[1]" (PList [PInt 1])).
  - reflexivity.
  - reflexivity.
  - vm_compute. discriminate.
  - vm_compute. reflexivity.
  - reflexivity.
  - discriminate.
Defined.

(** Every value a push returns is [True] or false. *)
Lemma push_channel_returns w ch d log a v a' :
  _push_channel w ch d log a = (Ret v, a') ->
  v = PBool true \/ py_truthy v = false.
Proof.
  rewrite _push_channel_eq. cbn zeta. unfold push_value.
  destruct (py_truthy (sent_value _ _ _)) eqn:Et.
  - destruct (sent_value _ _ _); try done.
    intros [= <- _]. destruct (eq_ok _); [by left|by right].
  - intros [= <- _]. by right.
Qed.

(** ** Reconciliation loop *)

(** What a push leaves, whether it returns or raises. *)
Lemma push_channel_fields w ch d log a :
  let r := _push_channel w ch d log a in
  same_but_push a r.2
  /\ _channel_display r.2 = _channel_display a
  /\ pushed r.2 = (ch, d) :: pushed a
  /\ writes r.2 = (if is_connected a then (ch, d) :: writes a else writes a)
  /\ map log_channel (logged r.2)
     = ((if log then match r.1 with Ret _ => [ch] | Raise _ => [] end else [])
        ++ map log_channel (logged a))%list.
Proof.
  cbn zeta. rewrite _push_channel_eq. cbn zeta.
  unfold after_send.
  change (is_connected (add_pushed (ch, d) a)) with (is_connected a).
  change (writes (add_pushed (ch, d) a)) with (writes a).
  destruct (push_value _) as [ok|e]; destruct log;
    (destruct (is_connected a); [destruct (hub_transact _ _ _)|]);
    by repeat split.
Qed.

Lemma refresh_channel_eq w ds lco ch a d :
  ds !! ch = Some d ->
  refresh_channel w ds lco tt ch a =
    match _push_channel w ch d (push_is_logged ds lco (_channel_display a) ch) a with
    | (Ret _, a1) =>
        (Ret tt, set_channel_display (<[ch := d]> (_channel_display a1)) a1)
    | (Raise e, a1) => (Raise e, a1)
    end.
Proof.
  intros Hd. unfold refresh_channel, displays_getitem. rewrite Hd.
  unfold bind at 1. unfold ret at 1. unfold bind at 1. unfold gets at 1.
  unfold bind, modify, push_is_logged. rewrite Hd.
  by destruct (_push_channel _ _ _ _ _) as [[v|e] a1].
Qed.

Lemma filter_ext_elem {A} (P Q : A -> Prop)
    `{!forall x, Decision (P x), !forall x, Decision (Q x)} (l : list A) :
  (forall x, x ∈ l -> (P x <-> Q x)) ->
  filter P l = filter Q l.
Proof.
  induction l as [|x l IH]; intros Hpq; [done|].
  assert (filter P l = filter Q l) as E
    by (apply IH; intros y Hy; apply Hpq; by right).
  destruct (decide (P x)) as [Hx|Hx].
  - rewrite !filter_cons_True; [by rewrite E| |done]. apply Hpq; [by left|done].
  - rewrite !filter_cons_False; [done| |done].
    intros Hq. apply Hx. apply Hpq; [by left|done].
Qed.

(** With a polite hub the loop of [refresh] returns after one push per
    channel, in order; the push cache decides only which pushes are
    logged. *)
Lemma refresh_fold w ds lco chs :
  polite w ->
  NoDup chs ->
  (forall ch, ch ∈ chs -> is_Some (ds !! ch)) ->
  forall a,
    exists a',
      for_fold (refresh_channel w ds lco) chs tt a = (Ret tt, a')
      /\ same_but_push a a'
      /\ pushed a' = (rev (pushes_of ds chs) ++ pushed a)%list
      /\ writes a'
         = (if is_connected a then rev (pushes_of ds chs) ++ writes a
            else writes a)%list
      /\ _channel_display a' = pushed_cache ds chs (_channel_display a)
      /\ map log_channel (logged a')
         = (rev (filter (fun ch => push_is_logged ds lco (_channel_display a) ch
                                   = true) chs)
            ++ map log_channel (logged a))%list.
Proof.
  intros Hp. induction 1 as [|ch chs Hni Hnd IH]; intros Hds a.
  - exists a. repeat split; try done. by destruct (is_connected a).
  - destruct (Hds ch) as [d Hd]; [by left|].
    pose proof (push_channel_fields w ch d
                  (push_is_logged ds lco (_channel_display a) ch) a) as F.
    cbn zeta in F. destruct F as (S & Fd & Fp & Fw & Fl).
    pose proof (refresh_channel_eq w ds lco ch a d Hd) as E.
    destruct (_push_channel w ch d _ a) as [[v|e] a1] eqn:Ep.
    2:{ exfalso. rewrite _push_channel_eq in Ep. cbn zeta in Ep.
        destruct (push_value_polite w (ch, d) (add_pushed (ch, d) a) Hp)
          as [ok Hok].
        rewrite Hok in Ep. done. }
    cbn [fst snd] in *.
    destruct S as (S1&S2&S3&S4&S5&S6&S7&S8&S9).
    set (a2 := set_channel_display (<[ch := d]> (_channel_display a1)) a1) in *.
    destruct (IH (fun c Hc => Hds c (list_elem_of_further _ _ _ Hc)) a2)
      as (a' & E' & S' & Gp & Gw & Gd & Gl).
    unfold same_but_push, a2 in S'.
    cbn [hub_serial_port hub_location devices _ser _channel_serials
         _channel_states running probed probes set_channel_display] in S'.
    destruct S' as (T1&T2&T3&T4&T5&T6&T7&T8&T9).
    exists a'. split; [|split; [|split; [|split; [|split]]]].
    + simpl. unfold bind. by rewrite E.
    + repeat split; congruence.
    + rewrite Gp. cbn [pushes_of map rev pushed a2 set_channel_display].
      rewrite Fp, Hd. cbn [default from_option id].
      by rewrite <- app_assoc.
    + rewrite Gw. unfold is_connected.
      cbn [_ser writes a2 set_channel_display]. rewrite S4, Fw.
      unfold is_connected. destruct (_ser a) as [[[]]|]; try done.
      cbn [pushes_of map rev]. rewrite Hd. cbn [default from_option id].
      by rewrite <- app_assoc.
    + rewrite Gd. cbn [_channel_display a2 set_channel_display pushed_cache
                       fold_left]. by rewrite Fd, Hd.
    + rewrite Gl. cbn [logged a2 set_channel_display _channel_display].
      rewrite Fl, Fd.
      rewrite (filter_ext_elem
                 (fun c => push_is_logged ds lco (<[ch := d]> (_channel_display a)) c = true)
                 (fun c => push_is_logged ds lco (_channel_display a) c = true)).
      2:{ intros c Hc. unfold push_is_logged.
          rewrite lookup_insert_ne by (intros ->; done). done. }
      destruct (decide (push_is_logged ds lco (_channel_display a) ch = true))
        as [Hy|Hn].
      * rewrite filter_cons_True by done. rewrite Hy. cbn [rev].
        by rewrite <- app_assoc.
      * rewrite filter_cons_False by done.
        apply not_true_is_false in Hn. by rewrite Hn.
Qed.

(** What [refresh] does with a polite hub. *)
Lemma refresh_polite (w : World) (ports : list ListPortInfo)
    (log_changes_only : bool) (a : HubAgent) :
  polite w ->
  exists ds a_s d1 d2 d3 a',
    _scan_channels w ports a = (Ret ds, a_s)
    /\ ds !! "CH1" = Some d1 /\ ds !! "CH2" = Some d2 /\ ds !! "CH3" = Some d3
    /\ refresh w ports log_changes_only a = (Ret tt, a')
    /\ same_but_push a_s a'
    /\ pushed a' = ([("CH3", d3); ("CH2", d2); ("CH1", d1)] ++ pushed a)%list
    /\ writes a'
       = (if is_connected a
          then [("CH3", d3); ("CH2", d2); ("CH1", d1)] ++ writes a
          else writes a)%list
    /\ _channel_display a'
       = <["CH3" := d3]> (<["CH2" := d2]> (<["CH1" := d1]> (_channel_display a)))
    /\ map log_channel (logged a')
       = (rev (filter (fun ch => push_is_logged ds log_changes_only
                                   (_channel_display a) ch = true) CHANNELS)
          ++ map log_channel (logged a))%list.
Proof.
  intros Hp.
  destruct (scan_fold_post w (occupants a ports) CHANNELS CHANNELS_NoDup ∅ a
              (occupants_registered a ports))
    as (ds & a_s & E & S & Hin & _).
  destruct S as (_&_&_&Hser&Hdisp&_&_&Hpushed&Hwrites&Hlogged&_).
  assert (forall ch, ch ∈ CHANNELS -> is_Some (ds !! ch)) as Hds
    by (intros ch Hc; destruct (Hin _ Hc) as [_ ->]; done).
  destruct (Hds "CH1") as [d1 H1]; [by apply (bool_decide_unpack _)|].
  destruct (Hds "CH2") as [d2 H2]; [by apply (bool_decide_unpack _)|].
  destruct (Hds "CH3") as [d3 H3]; [by apply (bool_decide_unpack _)|].
  destruct (refresh_fold w ds log_changes_only CHANNELS Hp CHANNELS_NoDup Hds a_s)
    as (a' & E' & Sp & Gp & Gw & Gd & Gl).
  exists ds, a_s, d1, d2, d3, a'.
  rewrite <- _scan_channels_unfold in E.
  split; [done|]. split; [done|]. split; [done|]. split; [done|].
  split; [unfold refresh, bind; by rewrite E|]. split; [done|]. clear Sp.
  unfold is_connected in *. rewrite Hser, Hpushed, Hwrites, Hdisp, Hlogged in *.
  unfold pushes_of, pushed_cache, CHANNELS in *. cbn [map rev fold_left app] in *.
  rewrite H1, H2, H3 in *. cbn [default from_option id] in *.
  by repeat split.
Qed.

(** X17. The keepalive push. With a hub whose replies are dicts or false
    values (the replies of the wire protocol), [refresh] scans and then
    calls [_push_channel] once for each of CH1, CH2, CH3, in this order, with the display the scan gave the channel, whatever the
    push cache holds; on an open connection each of them is written to the
    hub. The push cache decides only which of the pushes are logged: those
    whose display is not the cached one, or all of them when
    [log_changes_only] is false. Afterwards the cache holds the three
    displays. *)
Lemma refresh_pushes_every_channel (w : World) (ports : list ListPortInfo)
    (log_changes_only : bool) (a : HubAgent) :
  polite w ->
  exists ds a_s d1 d2 d3 a',
    _scan_channels w ports a = (Ret ds, a_s)
    /\ ds !! "CH1" = Some d1 /\ ds !! "CH2" = Some d2 /\ ds !! "CH3" = Some d3
    /\ refresh w ports log_changes_only a = (Ret tt, a')
    /\ pushed a' = ([("CH3", d3); ("CH2", d2); ("CH1", d1)] ++ pushed a)%list
    /\ writes a'
       = (if is_connected a
          then [("CH3", d3); ("CH2", d2); ("CH1", d1)] ++ writes a
          else writes a)%list
    /\ _channel_display a'
       = <["CH3" := d3]> (<["CH2" := d2]> (<["CH1" := d1]> (_channel_display a)))
    /\ map log_channel (logged a')
       = (rev (filter (fun ch => push_is_logged ds log_changes_only
                                   (_channel_display a) ch = true) CHANNELS)
          ++ map log_channel (logged a))%list.
Proof.
  intros Hp.
  destruct (refresh_polite w ports log_changes_only a Hp)
    as (ds & a_s & d1 & d2 & d3 & a' & H).
  exists ds, a_s, d1, d2, d3, a'. tauto.
Qed.

Lemma sample_world_polite : polite (sample_world (HubLine ok_line)).
Proof.
  intros n msg line v [= <-]. vm_compute. intros [= <-] _. by eexists.
Qed.

(** X17, witness: a fresh agent, connected, scans the sensor on channel
    2; the hub answers every push with a status ok. *)
Lemma refresh_pushes_every_channel_instance :
  exists ds a_s d1 d2 d3 a',
    _scan_channels (sample_world (HubLine ok_line))
      [sample_port (Some "/dev/cu.usbserial-1") "abc123" "20-3.3.2"]
      connected_agent = (Ret ds, a_s)
    /\ ds !! "CH1" = Some d1 /\ ds !! "CH2" = Some d2 /\ ds !! "CH3" = Some d3
    /\ refresh (sample_world (HubLine ok_line))
         [sample_port (Some "/dev/cu.usbserial-1") "abc123" "20-3.3.2"]
         true connected_agent = (Ret tt, a')
    /\ pushed a'
       = ([("CH3", d3); ("CH2", d2); ("CH1", d1)] ++ pushed connected_agent)%list
    /\ writes a'
       = (if is_connected connected_agent
          then [("CH3", d3); ("CH2", d2); ("CH1", d1)] ++ writes connected_agent
          else writes connected_agent)%list
    /\ _channel_display a'
       = <["CH3" := d3]> (<["CH2" := d2]> (<["CH1" := d1]>
           (_channel_display connected_agent)))
    /\ map log_channel (logged a')
       = (rev (filter (fun ch => push_is_logged ds true
                                   (_channel_display connected_agent) ch = true)
                 CHANNELS)
          ++ map log_channel (logged connected_agent))%list.
Proof.
  apply (refresh_pushes_every_channel (sample_world (HubLine ok_line))
           [sample_port (Some "/dev/cu.usbserial-1") "abc123" "20-3.3.2"]
           true connected_agent).
  intros n msg line v [= <-]. vm_compute. intros [= <-] _. by eexists.
Defined.

Lemma set_ser_None_id a : _ser a = None -> set_ser None a = a.
Proof. destruct a. cbn. by intros ->. Qed.

(** [_reconnect] when the hub is found with a port and a location and its
    port opens. *)
Lemma _reconnect_success ports a port loc :
  find_insight_hub ports = (Some port, Some loc) ->
  port <> "" -> loc <> "" ->
  _reconnect ports true a = (Ret true, reconnected port loc a).
Proof.
  intros Hfind Hport Hloc. unfold _reconnect, reconnected.
  unfold bind at 1. unfold _close_hub, bind at 1, gets at 1.
  assert ((match _ser a with
           | Some _ => modify (set_ser None)
           | None => ret tt
           end) a = (Ret tt, set_ser None a)) as ->.
  { destruct (_ser a) eqn:E; [done|]. unfold ret. by rewrite set_ser_None_id. }
  unfold bind, modify. rewrite Hfind.
  destruct port as [|c port]; [done|]. destruct loc as [|c' loc]; [done|].
  reflexivity.
Qed.

(** [_reconnect] when the hub is not found, or has no location, or its port
    does not open: the caches are cleared all the same, the connection
    stays closed and the lost flag is reset. *)
Lemma _reconnect_failure ports opens a :
  (Py.truthy (find_insight_hub ports).1 = false
   \/ Py.truthy (find_insight_hub ports).2 = false
   \/ opens = false) ->
  exists a',
    _reconnect ports opens a = (Ret false, a')
    /\ _ser a' = None /\ _hub_lost a' = false
    /\ _channel_display a' = ∅ /\ _channel_serials a' = ∅
    /\ _channel_states a' = ∅
    /\ pushed a' = pushed a /\ writes a' = writes a.
Proof.
  intros H. unfold _reconnect.
  unfold bind at 1. unfold _close_hub, bind at 1, gets at 1.
  assert ((match _ser a with
           | Some _ => modify (set_ser None)
           | None => ret tt
           end) a = (Ret tt, set_ser None a)) as ->.
  { destruct (_ser a) eqn:E; [done|]. unfold ret. by rewrite set_ser_None_id. }
  unfold bind, modify. destruct (find_insight_hub ports) as [port loc].
  cbn [fst snd] in H.
  destruct (Py.truthy port) eqn:Ep; [|eexists; by repeat split].
  destruct (Py.truthy loc) eqn:El; [|eexists; by repeat split].
  destruct H as [H|[H| ->]]; try done.
  cbn [negb orb]. unfold _open_hub, ret. eexists; by repeat split.
Qed.

(** The record of the calls of [_probe_state] only grows in a scan. *)
Lemma scan_fold_probed w cd chs :
  forall ds a ds' a',
    registered cd (devices a) ->
    for_fold (scan_channel w cd) chs ds a = (Ret ds', a') ->
    exists new, probed a' = (new ++ probed a)%list.
Proof.
  induction chs as [|ch chs IH]; intros ds a ds' a' Hreg.
  - intros [= <- <-]. by exists [].
  - simpl. unfold bind.
    destruct (scan_channel_post w cd ds ch a Hreg) as (a1 & E1 & S1 & _).
    rewrite E1. intros E2.
    assert (exists new, probed a1 = (new ++ probed a)%list) as [n1 Hn1].
    { destruct (cd !! ch) as [[sn p]|] eqn:Ecd.
      - destruct (Hreg _ _ _ Ecd) as [dev Hdev].
        destruct (decide (_channel_serials a !! ch = Some sn)) as [Hsn|Hsn].
        + rewrite (scan_channel_cached _ _ _ _ _ _ _ _ Ecd Hdev Hsn) in E1.
          injection E1 as _ <-. by exists [].
        + destruct (scan_channel_new_facts _ _ _ _ _ _ _ _ _ _ Ecd Hdev Hsn E1)
            as (-> & _). by exists [(p, dev_type dev)].
      - rewrite (scan_channel_empty _ _ _ _ _ Ecd) in E1.
        injection E1 as _ <-. by exists []. }
    destruct S1 as (_&_&Hd&_).
    destruct (IH _ _ _ _ ltac:(by rewrite Hd) E2) as [n2 Hn2].
    exists (n2 ++ n1)%list. by rewrite Hn2, Hn1, app_assoc.
Qed.

(** A transport error in a push marks the connection lost, and a turn of
    the loop that finds it lost only tries to reconnect: when that fails,
    nothing is pushed in the turn. *)
Lemma run_turn_recovery_failed w t a :
  running a = true -> tick_stop t = false -> _hub_lost a = true ->
  (Py.truthy (find_insight_hub (tick_find_ports t)).1 = false
   \/ Py.truthy (find_insight_hub (tick_find_ports t)).2 = false
   \/ tick_opens t = false) ->
  exists a',
    run_turn w t a = (Ret true, a')
    /\ pushed a' = pushed a /\ writes a' = writes a /\ _ser a' = None.
Proof.
  intros Hrun Hstop Hlost Hfail.
  destruct (_reconnect_failure (tick_find_ports t) (tick_opens t) a Hfail)
    as (a' & E & Hser & _ & _ & _ & _ & Hp & Hw).
  exists a'. unfold run_turn, bind, gets, ret, modify.
  rewrite Hrun, Hstop. cbn -[_reconnect refresh].
  rewrite Hrun. cbn -[_reconnect refresh].
  rewrite Hlost. cbn -[_reconnect refresh].
  by rewrite E.
Qed.

(** X19. Recovery. With a hub whose replies are dicts or false values (the
    replies of the wire protocol), in a turn of the loop that finds the
    connection marked lost, and in which the hub is found again and its port
    opens: [_reconnect] clears the push cache,
    the occupant cache and the mode cache, and the turn then makes one
    [refresh] that logs every push; it pushes CH1, CH2, CH3 and writes the
    three messages to the hub. For every channel occupied in that refresh,
    [_probe_state] is called in it, and the mode cached and shown for the
    channel is the one it finds. *)
Lemma reconnect_refreshes_and_reprobes (w : World) (t : Tick)
    (a : HubAgent) (port loc : string) :
  polite w ->
  running a = true ->
  tick_stop t = false ->
  _hub_lost a = true ->
  find_insight_hub (tick_find_ports t) = (Some port, Some loc) ->
  port <> "" -> loc <> "" ->
  tick_opens t = true ->
  exists ds a_s d1 d2 d3 a' new,
    _reconnect (tick_find_ports t) (tick_opens t) a
      = (Ret true, reconnected port loc a)
    /\ _channel_display (reconnected port loc a) = ∅
    /\ _channel_serials (reconnected port loc a) = ∅
    /\ _channel_states (reconnected port loc a) = ∅
    /\ _scan_channels w (tick_ports t) (reconnected port loc a) = (Ret ds, a_s)
    /\ ds !! "CH1" = Some d1 /\ ds !! "CH2" = Some d2 /\ ds !! "CH3" = Some d3
    /\ refresh w (tick_ports t) false (reconnected port loc a) = (Ret tt, a')
    /\ run_turn w t a = (Ret true, a')
    /\ pushed a' = ([("CH3", d3); ("CH2", d2); ("CH1", d1)] ++ pushed a)%list
    /\ writes a' = ([("CH3", d3); ("CH2", d2); ("CH1", d1)] ++ writes a)%list
    /\ map log_channel (logged a')
       = (["CH3"; "CH2"; "CH1"] ++ map log_channel (logged a))%list
    /\ probed a' = (new ++ probed a)%list
    /\ (forall ch sn p dev,
          occupants (reconnected port loc a) (tick_ports t) !! ch = Some (sn, p) ->
          devices a !! sn = Some dev ->
          (p, dev_type dev) ∈ new
          /\ exists n,
               _channel_states a' !! ch
               = Some (probed_mode w n p (dev_type dev))
               /\ ds !! ch
                  = Some (_build_display (dev_hub_name dev)
                            (probed_mode w n p (dev_type dev)))).
Proof.
  intros Hp Hrun Hstop Hlost Hfind Hport Hloc Hopens.
  set (a0 := reconnected port loc a).
  set (ports := tick_ports t).
  pose proof (_reconnect_success (tick_find_ports t) a port loc Hfind Hport Hloc)
    as Erec.
  destruct (refresh_polite w ports false a0 Hp)
    as (ds & a_s & d1 & d2 & d3 & a' & Escan & H1 & H2 & H3 & Eref & Sp
        & Gp & Gw & _ & Gl).
  destruct Sp as (_&_&_&_&_&Sst&_&Spr&_).
  rewrite _scan_channels_unfold in Escan.
  destruct (scan_fold_probed w (occupants a0 ports) CHANNELS ∅ a0 ds a_s
              (occupants_registered a0 ports) Escan) as [new Hnew].
  rewrite <- _scan_channels_unfold in Escan.
  exists ds, a_s, d1, d2, d3, a', new.
  split; [by rewrite Hopens|]. split; [done|]. split; [done|]. split; [done|].
  split; [done|]. split; [done|]. split; [done|]. split; [done|].
  split; [done|]. split.
  { unfold run_turn, bind, gets, ret, modify.
    rewrite Hrun, Hstop. cbn -[_reconnect refresh].
    rewrite Hrun. cbn -[_reconnect refresh].
    rewrite Hlost. cbn -[_reconnect refresh].
    rewrite Hopens, Erec. fold ports. fold a0. by rewrite Eref. }
  split; [done|]. split; [done|]. split.
  { rewrite Gl. f_equal. unfold CHANNELS, push_is_logged.
    rewrite !filter_cons_True by apply orb_true_r. done. }
  split; [by rewrite Spr, Hnew|].
  intros ch sn p dev Hocc Hdev.
  assert (ch ∈ CHANNELS) as Hch
    by (apply (occupants_in_CHANNELS a0 ports); by rewrite Hocc).
  apply list_elem_of_split in Hch as (pre & post & Hsplit).
  destruct (scan_channels_turn w ports a0 pre ch post Hsplit)
    as (ds1 & a1 & ds2 & a2 & ds3 & a3 &
        E1 & E2 & E3 & E4 & D1 & S1 & T1 & S3 & T3 & F3).
  rewrite Escan in E4. injection E4 as <- <-.
  assert (devices a1 !! sn = Some dev) as Hdev1 by (by rewrite D1).
  assert (_channel_serials a1 !! ch <> Some sn) as Hsn1
    by (rewrite S1; cbn; by rewrite lookup_empty).
  destruct (scan_channel_new_facts _ _ _ _ _ _ _ _ _ _ Hocc Hdev1 Hsn1 E2)
    as (P1 & _ & _ & P4 & P5).
  split.
  - destruct (scan_fold_probed w (occupants a0 ports) pre ∅ a0 ds1 a1
                (occupants_registered a0 ports) E1) as [n1 Hn1].
    assert (registered (occupants a0 ports) (devices a2)) as Hreg2.
    { destruct (scan_channel_post w (occupants a0 ports) ds1 ch a1) as
        (a2' & E2' & S2' & _).
      - rewrite D1. apply occupants_registered.
      - rewrite E2 in E2'. injection E2' as _ <-.
        destruct S2' as (_&_&->&_). rewrite D1. apply occupants_registered. }
    destruct (scan_fold_probed w (occupants a0 ports) post ds2 a2 ds a_s
                Hreg2 E3) as [n3 Hn3].
    rewrite Hn3, P1, Hn1 in Hnew.
    replace (n3 ++ (p, dev_type dev) :: n1 ++ probed a0)%list
      with ((n3 ++ (p, dev_type dev) :: n1) ++ probed a0)%list in Hnew
      by (by rewrite <- app_assoc).
    apply app_inv_tail in Hnew as <-.
    apply elem_of_app. right. by left.
  - exists (length (probes a1)). split.
    + by rewrite Sst, T3.
    + by rewrite F3.
Qed.

(** X19, witness: the lost agent finds the hub again. *)
Lemma reconnect_refreshes_and_reprobes_instance :
  exists a',
    run_turn (sample_world (HubLine ok_line)) found_tick lost_agent
      = (Ret true, a')
    /\ map log_channel (logged a')
       = (["CH3"; "CH2"; "CH1"] ++ map log_channel (logged lost_agent))%list.
Proof.
  destruct (reconnect_refreshes_and_reprobes (sample_world (HubLine ok_line))
              found_tick lost_agent "/dev/cu.usbmodem1" "20-3.3")
    as (ds & a_s & d1 & d2 & d3 & a' & new & H); try done.
  - apply sample_world_polite.
  - exists a'. split; tauto.
Defined.

(** C7, at the failing input. The connected agent refreshes with the
    sensor on channel 2 and the hub answers the first push with the line
    [[1]], which decodes to an array: [refresh] raises [AttributeError] in
    the push of CH1, and CH2 and CH3 are not pushed in this cycle. *)
Theorem refresh_aborts_on_non_dict_reply :
  let r := refresh (sample_world (HubLine "[1]"))
             [sample_port (Some "/dev/cu.usbserial-1") "abc123" "20-3.3.2"]
             true connected_agent in
  r.1 = Raise AttributeError
  /\ map fst (pushed r.2) = ["CH1"]
  /\ map fst (writes r.2) = ["CH1"]
  /\ _hub_lost r.2 = false.
Proof. cbv zeta. repeat split; vm_compute; reflexivity. Qed.

(** [_reconnect] resets the lost flag before it knows whether it
    succeeds. After a turn in which the hub is
    not found, the connection is closed and the flag is down, so the next
    turn, even with the hub back, does not reconnect: it calls
    [_push_channel] for the three channels and writes nothing. *)
Lemma no_second_reconnect_attempt :
  let w := sample_world (HubLine ok_line) in
  let a1 := (run_turn w missing_tick lost_agent).2 in
  let r2 := run_turn w found_tick a1 in
  (run_turn w missing_tick lost_agent).1 = Ret true
  /\ _hub_lost a1 = false /\ _ser a1 = None
  /\ r2.1 = Ret true
  /\ map fst (pushed r2.2) = ["CH3"; "CH2"; "CH1"]
  /\ writes r2.2 = []
  /\ _ser r2.2 = None /\ _hub_lost r2.2 = false.
Proof. cbv zeta. repeat split; vm_compute; reflexivity. Qed.

(** C8, at the failing input. The lost agent finds the hub again and its
    port opens; the caches are cleared and the board on channel 1 is probed
    anew. The hub answers the first push of the refresh that follows with
    the line [[1]]: the turn raises [AttributeError] after the push of CH1,
    and CH2 and CH3 are not pushed. *)
Theorem reconnect_refresh_aborts_on_non_dict_reply :
  let r := run_turn (sample_world (HubLine "[1]")) found_tick lost_agent in
  (_reconnect (tick_find_ports found_tick) (tick_opens found_tick) lost_agent).1
    = Ret true
  /\ r.1 = Raise AttributeError
  /\ probes r.2 = ["/dev/cu.usbserial-7"]
  /\ _channel_states r.2 !! "CH1" = Some "bootloader"
  /\ map fst (pushed r.2) = ["CH1"]
  /\ map fst (writes r.2) = ["CH1"].
Proof. cbv zeta. repeat split; vm_compute; reflexivity. Qed.

(** ** The cache keys stay channels along the loop *)

Lemma refresh_channel_caches w ds lco ch a :
  _channel_serials (refresh_channel w ds lco tt ch a).2 = _channel_serials a
  /\ _channel_states (refresh_channel w ds lco tt ch a).2 = _channel_states a.
Proof.
  destruct (ds !! ch) as [d|] eqn:Hd.
  - rewrite (refresh_channel_eq w ds lco ch a d Hd).
    pose proof (push_channel_fields w ch d
                  (push_is_logged ds lco (_channel_display a) ch) a) as F.
    cbn zeta in F. destruct F as ((_&_&_&_&Hs&Ht&_) & _).
    by destruct (_push_channel w ch d _ a) as [[v|e] a1].
  - unfold refresh_channel, displays_getitem. by rewrite Hd.
Qed.

Lemma refresh_fold_caches w ds lco chs :
  forall a,
    _channel_serials (for_fold (refresh_channel w ds lco) chs tt a).2
      = _channel_serials a
    /\ _channel_states (for_fold (refresh_channel w ds lco) chs tt a).2
       = _channel_states a.
Proof.
  induction chs as [|ch chs IH]; intros a; [done|].
  simpl. unfold bind.
  destruct (refresh_channel_caches w ds lco ch a) as [Hs Ht].
  destruct (refresh_channel w ds lco tt ch a) as [[[]|e] a1]; [|done].
  destruct (IH a1) as [Hs' Ht']. cbn [snd] in Hs, Ht. by rewrite Hs', Ht', Hs, Ht.
Qed.

Lemma refresh_cache_keys_ok w ports lco a :
  cache_keys_ok a -> cache_keys_ok (refresh w ports lco a).2.
Proof.
  intros Hok.
  destruct (scan_channels_keys w ports a Hok)
    as (ds & a_s & E & _ & _ & _ & _ & [Ks Kt]).
  unfold refresh, bind. rewrite E.
  destruct (refresh_fold_caches w ds lco CHANNELS a_s) as [Hs Ht].
  unfold cache_keys_ok. by rewrite Hs, Ht.
Qed.

Lemma _reconnect_cache_keys_ok ports opens a :
  cache_keys_ok (_reconnect ports opens a).2.
Proof.
  assert (_channel_serials (_reconnect ports opens a).2 = ∅
          /\ _channel_states (_reconnect ports opens a).2 = ∅) as [Hs Ht].
  { unfold _reconnect, _close_hub, _open_hub, bind, gets, modify, ret.
    destruct (_ser a); destruct (find_insight_hub ports) as [port loc];
      destruct (negb (Py.truthy port) || negb (Py.truthy loc));
      destruct opens; done. }
  split; intros ch [x Hx]; [rewrite Hs in Hx|rewrite Ht in Hx];
    by rewrite lookup_empty in Hx.
Qed.

Lemma run_turn_cache_keys_ok w t a :
  cache_keys_ok a -> cache_keys_ok (run_turn w t a).2.
Proof.
  intros Hok. unfold run_turn, bind, gets, ret, modify.
  destruct (running a) eqn:Hrun; [|done]. cbn -[_reconnect refresh].
  destruct (tick_stop t); cbn -[_reconnect refresh]; [done|].
  rewrite Hrun. cbn -[_reconnect refresh].
  destruct (_hub_lost a); cbn -[_reconnect refresh].
  - pose proof (_reconnect_cache_keys_ok (tick_find_ports t) (tick_opens t) a)
      as Hrec.
    destruct (_reconnect _ _ a) as [[[]|e] a1]; cbn [snd] in Hrec; try done.
    + pose proof (refresh_cache_keys_ok w (tick_ports t) false a1 Hrec) as Href.
      by destruct (refresh w (tick_ports t) false a1) as [[[]|e] a2].
  - pose proof (refresh_cache_keys_ok w (tick_ports t)
                  (negb (tick_triggered t)) a Hok) as Href.
    by destruct (refresh w (tick_ports t) _ a) as [[[]|e] a2].
Qed.

(** From its creation on, whatever the world does, the agent's cache keys
    are channels at every turn of the loop. *)
Lemma run_loop_cache_keys_ok w ts :
  forall a, cache_keys_ok a -> cache_keys_ok (run_loop w ts a).2.
Proof.
  induction ts as [|t ts IH]; intros a Hok; [done|].
  simpl. unfold bind.
  pose proof (run_turn_cache_keys_ok w t a Hok) as H1.
  destruct (run_turn w t a) as [[[]|e] a1]; cbn [snd] in H1; try done.
  by apply IH.
Qed.

(** * The rest of the agent *)

(** ** Names on the display *)

Lemma slice_to_length n s :
  String.length (Py.slice_to n s) = (n `min` String.length s)%nat.
Proof.
  revert s. induction n as [|n IH]; intros [|c s]; simpl; try done.
  by rewrite IH.
Qed.

Lemma slice_to_prefix n s : exists r, s = Py.slice_to n s +:+ r.
Proof.
  revert s. induction n as [|n IH]; intros s.
  - exists s. by destruct s.
  - destruct s as [|c s]; [by exists ""|].
    destruct (IH s) as [r Hr]. exists r. simpl. rewrite append_cons. by rewrite <- Hr.
Qed.

Lemma slice_to_all n s : (String.length s <= n)%nat -> Py.slice_to n s = s.
Proof.
  revert s. induction n as [|n IH]; intros [|c s]; simpl; try done; try lia.
  intros H. rewrite IH; [done|lia].
Qed.

Lemma truncate_length s :
  String.length (truncate s) = (String.length s `min` MAX_NAME_LEN)%nat.
Proof.
  unfold truncate. destruct (MAX_NAME_LEN <? String.length s)%nat eqn:E.
  - apply Nat.ltb_lt in E. rewrite slice_to_length. lia.
  - apply Nat.ltb_ge in E. lia.
Qed.

(** X1. [truncate] returns the first characters of its argument: the
    result has the length of the argument or [MAX_NAME_LEN] = 14, whichever
    is less, the argument is the result followed by some rest, the result is
    the argument itself exactly when that has at most 14 characters, and
    truncating twice is truncating once. *)
Theorem truncate_is_bounded_prefix (s : string) :
  String.length (truncate s) = (String.length s `min` MAX_NAME_LEN)%nat
  /\ (exists r, s = truncate s +:+ r)
  /\ (truncate s = s <-> (String.length s <= MAX_NAME_LEN)%nat)
  /\ truncate (truncate s) = truncate s.
Proof.
  split; [apply truncate_length|]. split; [|split].
  - unfold truncate. destruct (_ <? _)%nat; [apply slice_to_prefix|].
    exists "". induction s as [|c s IH]; [done|]. rewrite append_cons. by rewrite <- IH.
  - split.
    + intros E. rewrite <- E at 1. rewrite truncate_length. lia.
    + intros H. unfold truncate. apply Nat.ltb_ge in H. by rewrite H.
  - pose proof (truncate_length s) as H.
    unfold truncate at 1.
    destruct (_ <? _)%nat eqn:E; [|done].
    apply Nat.ltb_lt in E. lia.
Qed.

(** ** Hub discovery *)

Lemma contains_dot_app a b :
  Py.contains_dot (a +:+ b) = Py.contains_dot a || Py.contains_dot b.
Proof.
  induction a as [|c a IH]; [done|]. rewrite append_cons. simpl.
  by rewrite IH, orb_assoc.
Qed.

Lemma rsplit_dot_head_join h seg :
  Py.contains_dot seg = false ->
  Py.rsplit_dot_head (h +:+ "." +:+ seg) = h.
Proof.
  intros Hseg. induction h as [|c h IH].
  - rewrite append_nil, append_cons, append_nil. simpl. by rewrite Hseg.
  - rewrite append_cons. simpl. rewrite IH.
    rewrite contains_dot_app, append_cons. simpl.
    by rewrite orb_true_r, andb_false_r.
Qed.

Lemma rsplit_dot_head_inv l :
  Py.contains_dot l = true ->
  exists seg, l = Py.rsplit_dot_head l +:+ "." +:+ seg
              /\ Py.contains_dot seg = false.
Proof.
  induction l as [|c l IH]; [done|]. simpl.
  destruct (Py.contains_dot l) eqn:El.
  - intros _. destruct (IH eq_refl) as (seg & E & Hseg).
    rewrite andb_false_r. exists seg. split; [|done].
    rewrite append_cons. by rewrite <- E.
  - rewrite orb_false_r. intros Hc. rewrite Hc. simpl.
    exists l. split; [|done]. apply Ascii.eqb_eq in Hc as ->. done.
Qed.

(** [find_insight_hub] answers from the first port that is the hub's
    controller. *)
Lemma find_insight_hub_split ports :
  (Forall (fun q => is_insight_hub q = false) ports
   /\ find_insight_hub ports = (None, None))
  \/ exists pre p post,
       ports = (pre ++ p :: post)%list
       /\ Forall (fun q => is_insight_hub q = false) pre
       /\ is_insight_hub p = true
       /\ find_insight_hub ports = (device p, parent_location (location p)).
Proof.
  induction ports as [|q ports IH]; [left; by split|].
  destruct (is_insight_hub q) eqn:Eq.
  - right. exists [], q, ports. repeat split; [done|done|].
    simpl. unfold is_insight_hub in Eq. by rewrite Eq.
  - destruct IH as [[Hall E]|(pre & p & post & -> & Hpre & Hp & E)].
    + left. split; [by constructor|]. simpl.
      unfold is_insight_hub in Eq. by rewrite Eq.
    + right. exists (q :: pre), p, post. repeat split; [by constructor|done|].
      simpl. unfold is_insight_hub in Eq. by rewrite Eq.
Qed.

Lemma find_insight_hub_first pre p post :
  Forall (fun q => is_insight_hub q = false) pre ->
  is_insight_hub p = true ->
  find_insight_hub (pre ++ p :: post) = (device p, parent_location (location p)).
Proof.
  intros Hpre Hp. induction Hpre as [|q pre Hq Hpre IH]; simpl.
  - unfold is_insight_hub in Hp. by rewrite Hp.
  - unfold is_insight_hub in Hq. by rewrite Hq.
Qed.

Lemma parent_location_join h seg :
  Py.contains_dot seg = false ->
  parent_location (Some (h +:+ "." +:+ seg)) = Some h.
Proof.
  intros Hseg. unfold parent_location.
  assert (Py.truthy (Some (h +:+ "." +:+ seg)) = true) as ->.
  { destruct h; [by rewrite append_nil|by rewrite append_cons]. }
  cbn [default from_option id]. unfold id.
  rewrite (rsplit_dot_head_join h seg Hseg).
  rewrite contains_dot_app, append_cons. simpl. by rewrite orb_true_r.
Qed.

(** X2. [find_insight_hub] answers from the first port that is the hub's
    controller (by product name, or by vendor and product id), whatever
    comes after it. When the location of that port is a hub location [h], a
    dot and a last segment without a dot, the answer is the device path of
    the port and [h]; and with this answer [port_to_channel] maps the ports
    1, 2, 3 of the hub to CH1, CH2, CH3, and port 4 and the hub itself to no
    channel. *)
Theorem find_insight_hub_location (pre post : list ListPortInfo)
    (p : ListPortInfo) (h seg : string) :
  Forall (fun q => is_insight_hub q = false) pre ->
  is_insight_hub p = true ->
  location p = Some (h +:+ "." +:+ seg) ->
  Py.contains_dot seg = false ->
  h <> "" ->
  let found := find_insight_hub (pre ++ p :: post) in
  found = (device p, Some h)
  /\ port_to_channel (Some (h +:+ "." +:+ "1")) found.2 = Some "CH1"
  /\ port_to_channel (Some (h +:+ "." +:+ "2")) found.2 = Some "CH2"
  /\ port_to_channel (Some (h +:+ "." +:+ "3")) found.2 = Some "CH3"
  /\ port_to_channel (Some (h +:+ "." +:+ "4")) found.2 = None
  /\ port_to_channel (Some h) found.2 = None.
Proof.
  intros Hpre Hp Hloc Hseg Hh. cbn zeta.
  rewrite (find_insight_hub_first pre p post Hpre Hp), Hloc.
  rewrite (parent_location_join h seg Hseg). cbn [snd].
  split; [done|].
  rewrite !port_to_channel_extension by done.
  repeat split.
  unfold port_to_channel.
  assert (Py.truthy (Some h) = true) as -> by (by destruct h).
  cbn [negb orb default from_option id]. unfold id.
  assert (Py.startswith h (h +:+ ".") = false) as ->; [|done].
  clear. induction h as [|c h IH]; [done|].
  rewrite append_cons. simpl. by rewrite Ascii.eqb_refl.
Qed.

(** X2, witness: the board and then the controller on port 4 of the hub
    20-3.3. *)
Lemma find_insight_hub_location_witness :
  let found := find_insight_hub ([board_port] ++ hub_port :: []) in
  found = (device hub_port, Some "20-3.3")
  /\ port_to_channel (Some ("20-3.3" +:+ "." +:+ "1")) found.2 = Some "CH1"
  /\ port_to_channel (Some ("20-3.3" +:+ "." +:+ "2")) found.2 = Some "CH2"
  /\ port_to_channel (Some ("20-3.3" +:+ "." +:+ "3")) found.2 = Some "CH3"
  /\ port_to_channel (Some ("20-3.3" +:+ "." +:+ "4")) found.2 = None
  /\ port_to_channel (Some "20-3.3") found.2 = None.
Proof.
  apply (find_insight_hub_location [board_port] [] hub_port "20-3.3" "4").
  - repeat constructor.
  - reflexivity.
  - reflexivity.
  - reflexivity.
  - discriminate.
Defined.

Lemma truthy_Some s : Py.truthy (Some s) = true <-> s <> "".
Proof. destruct s; simpl; split; done. Qed.

Lemma truthy_inv x : Py.truthy x = true -> exists s, x = Some s /\ s <> "".
Proof. destruct x as [[|c s]|]; try done. intros _. by eexists. Qed.

Lemma close_hub_eq a : _close_hub a = (Ret tt, set_ser None a).
Proof.
  unfold _close_hub, bind, gets.
  destruct (_ser a) eqn:E; [done|]. unfold ret. by rewrite set_ser_None_id.
Qed.

(** X3. [_reconnect] returns [True] exactly when the hub's port opens and
    the first port that is the hub's controller has a device path that is
    not empty and a location made of a hub location that is not empty, a
    dot and a last segment; the agent is then left with the caches empty,
    the lost flag down, that device path and hub location stored and the
    connection open. So a controller that is found without such a location
    is never reconnected to. *)
Theorem reconnect_succeeds_iff (ports : list ListPortInfo) (opens : bool)
    (a : HubAgent) :
  (_reconnect ports opens a).1 = Ret true <->
  opens = true
  /\ exists pre p post port h seg,
       ports = (pre ++ p :: post)%list
       /\ Forall (fun q => is_insight_hub q = false) pre
       /\ is_insight_hub p = true
       /\ device p = Some port /\ port <> ""
       /\ location p = Some (h +:+ "." +:+ seg)
       /\ Py.contains_dot seg = false
       /\ h <> ""
       /\ (_reconnect ports opens a).2 = reconnected port h a.
Proof.
  split.
  - intros H.
    destruct opens.
    2:{ exfalso. destruct (_reconnect_failure ports false a) as (a' & E & _);
          [by right; right|]. rewrite E in H. done. }
    split; [done|].
    destruct (Py.truthy (find_insight_hub ports).1) eqn:E1.
    2:{ exfalso. destruct (_reconnect_failure ports true a) as (a' & E & _);
          [by left|]. rewrite E in H. done. }
    destruct (Py.truthy (find_insight_hub ports).2) eqn:E2.
    2:{ exfalso. destruct (_reconnect_failure ports true a) as (a' & E & _);
          [by right; left|]. rewrite E in H. done. }
    destruct (find_insight_hub_split ports)
      as [[_ E]|(pre & p & post & -> & Hpre & Hp & E)];
      [by rewrite E in E1|].
    rewrite E in E1, E2. cbn [fst snd] in E1, E2.
    apply truthy_inv in E1 as (port & Hdev & Hport).
    unfold parent_location in E2, E.
    destruct (Py.truthy (location p)) eqn:El; [|done].
    apply truthy_inv in El as (l & Hl & Hlne). rewrite Hl in E2, E.
    cbn [default from_option id] in E2, E. unfold id in E2, E.
    destruct (Py.contains_dot l) eqn:Ed; [|done].
    destruct (rsplit_dot_head_inv l Ed) as (seg & El & Hseg).
    apply truthy_Some in E2.
    exists pre, p, post, port, (Py.rsplit_dot_head l), seg.
    rewrite Hl, <- El. repeat split; try done.
    rewrite Hdev in E.
    by rewrite (_reconnect_success _ a port _ E Hport E2).
  - intros [-> (pre & p & post & port & h & seg & -> & Hpre & Hp & Hdev & Hport
                & Hloc & Hseg & Hh & _)].
    pose proof (find_insight_hub_first pre p post Hpre Hp) as E.
    rewrite Hloc, (parent_location_join h seg Hseg), Hdev in E.
    by rewrite (_reconnect_success _ a port h E Hport Hh).
Qed.

(** ** The registry file *)

Lemma rstrip_ws_idem s : Py.rstrip_ws (Py.rstrip_ws s) = Py.rstrip_ws s.
Proof.
  induction s as [|c s IH]; [done|]. simpl.
  destruct (Py.rstrip_ws s) as [|d r] eqn:E.
  - destruct (Py.isspace c) eqn:Ec; [done|]. simpl. by rewrite Ec.
  - simpl in *. rewrite IH. done.
Qed.

Lemma lstrip_ws_head s :
  Py.lstrip_ws s = "" \/ exists c r, Py.lstrip_ws s = String c r /\ Py.isspace c = false.
Proof.
  induction s as [|c s IH]; [by left|]. simpl.
  destruct (Py.isspace c) eqn:E; [done|]. right. by exists c, s.
Qed.

Lemma rstrip_ws_cons c s :
  Py.isspace c = false -> Py.rstrip_ws (String c s) = String c (Py.rstrip_ws s).
Proof. intros E. simpl. destruct (Py.rstrip_ws s); by rewrite ?E. Qed.

Lemma strip_idem s : Py.strip (Py.strip s) = Py.strip s.
Proof.
  unfold Py.strip.
  destruct (lstrip_ws_head s) as [->|(c & r & -> & Hc)]; [done|].
  rewrite rstrip_ws_cons by done. simpl. rewrite Hc.
  rewrite rstrip_ws_cons by done. by rewrite rstrip_ws_idem.
Qed.

Lemma conf_line_strip st raw : conf_line st (Py.strip raw) = conf_line st raw.
Proof. unfold conf_line. by rewrite strip_idem. Qed.

Lemma conf_line_ignored st raw : ignored raw = true -> conf_line st raw = st.
Proof.
  unfold ignored, conf_line. cbn zeta.
  destruct (String.eqb (Py.strip raw) "" || Py.startswith (Py.strip raw) "#");
    [done|]. cbn [orb].
  destruct (section_header (Py.strip raw)); [done|].
  by intros ->%negb_true_iff.
Qed.

Lemma truncate_bound s : (String.length (truncate s) <= MAX_NAME_LEN)%nat.
Proof.
  unfold truncate. destruct (MAX_NAME_LEN <? String.length s)%nat eqn:E.
  - clear E. generalize MAX_NAME_LEN. intros n. revert s.
    induction n as [|n IH]; intros [|c s]; simpl; try lia.
    specialize (IH s). lia.
  - by apply Nat.ltb_ge in E.
Qed.

Lemma flush_with_earlier ds st :
  flush (with_earlier ds st) = (ds ++ flush st)%list.
Proof.
  unfold flush, with_earlier. cbn [conf_devices conf_section conf_sec].
  destruct (negb (Py.truthy (conf_section st))); [done|].
  destruct (Py.startswith _ _); [done|].
  destruct (negb (Py.truthy _)); [done|]. by rewrite app_assoc.
Qed.

Lemma conf_line_with_earlier ds st raw :
  conf_line (with_earlier ds st) raw = with_earlier ds (conf_line st raw).
Proof.
  unfold conf_line. cbn zeta.
  destruct (String.eqb (Py.strip raw) "" || Py.startswith (Py.strip raw) "#");
    [done|].
  destruct (section_header (Py.strip raw)) as [name|].
  - rewrite flush_with_earlier. done.
  - destruct (Py.contains_char "=" (Py.strip raw)); [|done].
    cbn [with_earlier conf_section].
    destruct (Py.truthy (conf_section st)).
    + by destruct (Py.split1 "=" (Py.strip raw)).
    + destruct (Py.split1 "=" (Py.strip raw)). unfold with_earlier.
      cbn [conf_devices conf_section conf_sec]. by rewrite app_assoc.
Qed.

Lemma fold_conf_line_with_earlier ds lines st :
  fold_left conf_line lines (with_earlier ds st)
  = with_earlier ds (fold_left conf_line lines st).
Proof.
  revert st. induction lines as [|l lines IH]; intros st; [done|].
  simpl. by rewrite conf_line_with_earlier, IH.
Qed.

Lemma unsnoc_inv s init last :
  Py.unsnoc s = Some (init, last) -> s = init +:+ String last "".
Proof.
  revert init. induction s as [|c s IH]; intros init; [done|]. simpl.
  destruct (Py.unsnoc s) as [[i l]|] eqn:E.
  - intros [= <- <-]. rewrite append_cons. by rewrite <- (IH i).
  - intros [= <- <-]. by destruct s as [|d s]; [|simpl in E; destruct (Py.unsnoc s) as [[]|]].
Qed.

(** The lines that are section headers. *)
Lemma section_header_inv line name :
  section_header line = Some name ->
  (line = "[" +:+ name +:+ "]" \/ line = "[" +:+ name +:+ "]" +:+ String Py.LF "")
  /\ name <> "" /\ Py.contains_char Py.LF name = false.
Proof.
  unfold section_header.
  set (body := match Py.unsnoc line with
               | Some (init, last) => if Ascii.eqb last Py.LF then init else line
               | None => line
               end).
  assert (line = body \/ line = body +:+ String Py.LF "") as Hbody.
  { unfold body. destruct (Py.unsnoc line) as [[init last]|] eqn:E; [|by left].
    destruct (Ascii.eqb last Py.LF) eqn:El; [|by left].
    apply Ascii.eqb_eq in El as ->. right. by apply unsnoc_inv. }
  clearbody body. destruct body as [|c rest]; [done|].
  destruct c as [[] [] [] [] [] [] [] []]; try done.
  destruct (Py.unsnoc rest) as [[nm l]|] eqn:E; [|done].
  destruct l as [[] [] [] [] [] [] [] []]; try done.
  apply unsnoc_inv in E as ->.
  destruct (String.eqb nm "") eqn:En; [done|]. apply String.eqb_neq in En.
  destruct (Py.contains_char Py.LF nm) eqn:Ec; [done|].
  intros [= <-]. split; [|done].
  destruct Hbody as [->| ->]; [left|right];
    by rewrite ?append_cons, ?append_nil, ?append_assoc,
         ?append_cons, ?append_nil.
Qed.

Lemma section_header_bracket line name :
  section_header line = Some name -> exists r, line = String "[" r.
Proof.
  intros [[->| ->] _]%section_header_inv; rewrite append_cons, append_nil;
    by eexists.
Qed.

(** A section header is a line of its own kind: not blank, not a
    comment. *)
Lemma conf_line_header st raw name :
  section_header (Py.strip raw) = Some name ->
  conf_line st raw
  = {| conf_devices := flush st; conf_section := Some name; conf_sec := ∅ |}.
Proof.
  intros H. unfold conf_line. cbn zeta. rewrite H.
  apply section_header_bracket in H as [r ->]. done.
Qed.

(** X7. A section of the registry file is read independently of what
    comes before it: the records of a file are the records of the lines
    before a section header followed by the records of the lines from that
    header on. *)
Theorem parse_sections_independently (before after : list string)
    (header name : string) :
  section_header (Py.strip header) = Some name ->
  parse_lines (before ++ header :: after)
  = (parse_lines before ++ parse_lines (header :: after))%list.
Proof.
  intros H. unfold parse_lines.
  rewrite fold_left_app. simpl.
  rewrite !(conf_line_header _ _ _ H).
  change (flush conf_start) with (@nil DeviceRecord).
  set (st := {| conf_devices := []; conf_section := Some name; conf_sec := ∅ |}).
  replace {| conf_devices := flush (fold_left conf_line before conf_start);
             conf_section := Some name; conf_sec := ∅ |}
    with (with_earlier (flush (fold_left conf_line before conf_start)) st)
    by (unfold with_earlier, st; cbn; by rewrite app_nil_r).
  by rewrite fold_conf_line_with_earlier, flush_with_earlier.
Qed.

(** X7, witness: a legacy line and then a section. *)
Lemma parse_sections_independently_witness :
  parse_lines (["legacy=01"] ++ " [board] " :: ["mac = b0a4d1"; "type=esp32"])
  = (parse_lines ["legacy=01"]
     ++ parse_lines (" [board] " :: ["mac = b0a4d1"; "type=esp32"]))%list.
Proof.
  apply (parse_sections_independently ["legacy=01"]
           ["mac = b0a4d1"; "type=esp32"] " [board] " "board").
  reflexivity.
Defined.

(** X6. Blank lines, comment lines, and lines that are neither a section
    header nor hold an equals sign have no effect on what
    [parse_devices_conf] returns, and neither has white space around a
    line. *)
Theorem parse_passes_over_ignored_lines (lines : list string) :
  parse_lines (filter (fun raw => ignored raw = false) lines) = parse_lines lines
  /\ parse_lines (map Py.strip lines) = parse_lines lines.
Proof.
  unfold parse_lines. split; f_equal.
  - generalize conf_start.
    induction lines as [|l lines IH]; intros st; [done|].
    destruct (ignored l) eqn:E.
    + rewrite filter_cons_False by (by rewrite E). simpl.
      by rewrite (conf_line_ignored _ _ E).
    + rewrite filter_cons_True by done. simpl. apply IH.
  - generalize conf_start.
    induction lines as [|l lines IH]; intros st; [done|].
    simpl. by rewrite conf_line_strip.
Qed.

Lemma flush_fits st :
  Forall hub_name_fits (conf_devices st) -> Forall hub_name_fits (flush st).
Proof.
  intros H. unfold flush.
  destruct (negb (Py.truthy (conf_section st))); [done|].
  destruct (Py.startswith _ _); [done|].
  destruct (negb (Py.truthy _)); [done|].
  apply Forall_app. split; [done|]. constructor; [|constructor]. apply truncate_bound.
Qed.

Lemma conf_line_fits st raw :
  Forall hub_name_fits (conf_devices st) ->
  Forall hub_name_fits (conf_devices (conf_line st raw)).
Proof.
  intros H. unfold conf_line. cbn zeta.
  destruct (String.eqb (Py.strip raw) "" || Py.startswith (Py.strip raw) "#");
    [done|].
  destruct (section_header (Py.strip raw)); [by apply flush_fits|].
  destruct (Py.contains_char "=" (Py.strip raw)); [|done].
  destruct (Py.truthy (conf_section st));
    destruct (Py.split1 "=" (Py.strip raw)); [done|].
  apply Forall_app. split; [done|]. constructor; [|constructor]. apply truncate_bound.
Qed.

(** X5. [parse_devices_conf] raises only when the file cannot be read;
    otherwise it returns, whatever the file holds, and the display name of
    every record it returns has at most [MAX_NAME_LEN] = 14 characters. *)
Theorem parsed_hub_names_fit (f : ConfFile) :
  match parse_devices_conf f with
  | Returns devs =>
      Forall (fun d => (String.length (dev_hub_name d) <= MAX_NAME_LEN)%nat) devs
  | Raises => f = Unreadable
  end.
Proof.
  destruct f as [| |lines]; simpl; [done|done|].
  unfold parse_lines. apply flush_fits.
  assert (Forall hub_name_fits (conf_devices conf_start)) as H by done.
  revert H. generalize conf_start.
  induction lines as [|l lines IH]; intros st H; [done|].
  simpl. apply IH. by apply conf_line_fits.
Qed.

Lemma section_header_nonempty line name :
  section_header line = Some name -> name <> "".
Proof. by intros (_ & H & _)%section_header_inv. Qed.

Lemma truncate_nonempty s : s <> "" -> truncate s <> "".
Proof.
  intros Hs E. pose proof (truncate_length s) as H. rewrite E in H.
  destruct s; [done|]. simpl in H. unfold MAX_NAME_LEN in H. lia.
Qed.

Lemma or_truthy x y :
  Py.truthy y = true -> Py.truthy (Py.or_ x y) = true.
Proof. unfold Py.or_. by destruct (Py.truthy x) eqn:E. Qed.

Section SectionedFile.
Variable all : list string.

Lemma flush_in_section st :
  in_section all st -> Forall (section_record all) (flush st).
Proof.
  intros [(s & line & Hs & Hin & Hh) Hds]. unfold flush. rewrite Hs.
  pose proof (section_header_nonempty _ _ Hh) as Hne.
  assert (Py.truthy (Some s) = true) as -> by (by destruct s).
  cbn [negb default from_option id]. unfold id.
  destruct (Py.startswith s "hub:") eqn:Ehub; [done|].
  destruct (Py.truthy (Py.or_ _ (Some ""))) eqn:Esn; [|done]. cbn [negb].
  apply Forall_app. split; [done|]. repeat constructor; cbn.
  - apply truthy_inv in Esn as (sn & -> & Hsn). done.
  - done.
  - done.
  - apply truncate_nonempty.
    assert (Py.truthy (Py.or_ (conf_sec st !! "hub_name") (Some (truncate s))) = true)
      as (hn & -> & Hhn)%truthy_inv; [|done].
    apply or_truthy. apply truthy_Some. by apply truncate_nonempty.
  - by exists line.
Qed.

Lemma conf_line_in_section st raw :
  raw ∈ all -> in_section all st -> in_section all (conf_line st raw).
Proof.
  intros Hraw Hst. pose proof Hst as [(s & line & Hs & Hin & Hh) Hds].
  unfold conf_line. cbn zeta.
  destruct (String.eqb (Py.strip raw) "" || Py.startswith (Py.strip raw) "#");
    [done|].
  destruct (section_header (Py.strip raw)) as [name|] eqn:E.
  - split; [by exists name, raw|]. by apply flush_in_section.
  - destruct (Py.contains_char "=" (Py.strip raw)); [|done].
    rewrite Hs.
    assert (Py.truthy (Some s) = true) as ->
      by (apply truthy_Some; by eapply section_header_nonempty).
    destruct (Py.split1 "=" (Py.strip raw)). split; [|done].
    by exists s, line.
Qed.

Lemma fold_conf_line_in_section lines st :
  (forall l, l ∈ lines -> l ∈ all) ->
  in_section all st -> in_section all (fold_left conf_line lines st).
Proof.
  revert st. induction lines as [|l lines IH]; intros st Hall Hst; [done|].
  simpl. apply IH.
  - intros x Hx. apply Hall. by right.
  - apply conf_line_in_section; [|done]. apply Hall. by left.
Qed.

End SectionedFile.

(** X8. In a file whose first line is a section header no line is read
    in the legacy NAME=MAC form: every record returned has a serial number
    that is not empty, a display name that is not empty, and a name that is
    not empty, does not start with hub: and is the name in a section header
    of the file. *)
Theorem sectioned_file_records (header name : string) (rest : list string)
    (d : DeviceRecord) :
  section_header (Py.strip header) = Some name ->
  d ∈ parse_lines (header :: rest) ->
  dev_serial_number d <> ""
  /\ dev_name d <> ""
  /\ Py.startswith (dev_name d) "hub:" = false
  /\ dev_hub_name d <> ""
  /\ exists line,
       line ∈ header :: rest
       /\ section_header (Py.strip line) = Some (dev_name d).
Proof.
  intros H Hd. unfold parse_lines in Hd. simpl in Hd.
  rewrite (conf_line_header _ _ _ H) in Hd.
  assert (in_section (header :: rest)
            {| conf_devices := flush conf_start; conf_section := Some name;
               conf_sec := ∅ |}) as Hst.
  { split; [|by constructor]. exists name, header. repeat split; [by left|done]. }
  apply (fold_conf_line_in_section (header :: rest) rest) in Hst;
    [|by intros l Hl; right].
  apply flush_in_section in Hst.
  rewrite Forall_forall in Hst. exact (Hst d Hd).
Qed.

(** X8, witness: the section of the board. *)
Lemma sectioned_file_records_witness :
  dev_serial_number board_b <> ""
  /\ dev_name board_b <> ""
  /\ Py.startswith (dev_name board_b) "hub:" = false
  /\ dev_hub_name board_b <> ""
  /\ exists line,
       line ∈ "[board-b]" :: ["mac=b0a4d1"; "type=esp32"]
       /\ section_header (Py.strip line) = Some (dev_name board_b).
Proof.
  apply (sectioned_file_records "[board-b]" "board-b"
           ["mac=b0a4d1"; "type=esp32"] board_b).
  - reflexivity.
  - vm_compute. by left.
Defined.

(** ** The registry *)

Lemma devices_by_serial_snoc devs d :
  devices_by_serial (devs ++ [d]) = <[dev_serial_number d := d]> (devices_by_serial devs).
Proof. unfold devices_by_serial. by rewrite fold_left_app. Qed.

(** X9. The registry that [HubAgent.__init__] builds maps a serial number
    to the last record of the list that has it, and to nothing if no record
    has it. *)
Theorem registry_keeps_last_record (devs : list DeviceRecord) (sn : string) :
  devices_by_serial devs !! sn
  = last (filter (fun d => dev_serial_number d = sn) devs).
Proof.
  induction devs as [|d devs IH] using rev_ind; [done|].
  rewrite devices_by_serial_snoc, filter_app.
  destruct (decide (dev_serial_number d = sn)) as [<-|Hne].
  - rewrite lookup_insert_eq. rewrite filter_cons_True by done.
    rewrite filter_nil. by rewrite last_snoc.
  - rewrite lookup_insert_ne by done. rewrite filter_cons_False by done.
    rewrite filter_nil, app_nil_r. done.
Qed.

(** ** Displays *)

Lemma color_map_values state c :
  color_map !! state = Some c -> c ∈ ["GREEN"; "ORANGE"; "CYAN"; "RED"].
Proof.
  unfold color_map.
  rewrite !lookup_insert_Some, lookup_empty.
  intros [[_ <-]|[_ [[_ <-]|[_ [[_ <-]|[_ [[_ <-]|[_ [[_ <-]|[_ ?]]]]]]]]]];
    try done; apply (bool_decide_unpack _); by vm_compute.
Qed.

(** X10. The display built for a device is never the display of an empty
    channel, and it tells the state: two displays of the same name are equal
    only for equal states. Its first line is the name cut to 14 characters,
    in GREEN, ORANGE, CYAN or RED; it has a second line, with the state as
    its text, exactly when the state is not running. *)
Theorem build_display_shows_state (hub_name state : string) :
  let d := _build_display hub_name state in
  d <> _empty_display
  /\ (forall state', _build_display hub_name state' = d -> state' = state)
  /\ txt (T1 (Dev1_name d)) = truncate hub_name
  /\ (T2 (Dev1_name d) = None <-> state = "running")
  /\ (forall t2, T2 (Dev1_name d) = Some t2 -> txt t2 = state)
  /\ color (T1 (Dev1_name d)) ∈ ["GREEN"; "ORANGE"; "CYAN"; "RED"].
Proof.
  cbn zeta. unfold _build_display, _empty_display. cbn.
  split; [|split; [|split; [|split; [|split]]]].
  - destruct (String.eqb_spec state "running") as [->|Hne]; cbn; [|done].
    intros H. by vm_compute in H.
  - intros state'.
    destruct (String.eqb_spec state "running") as [->|Hne];
      destruct (String.eqb_spec state' "running") as [->|Hne']; cbn;
      try done.
    by intros [= _ -> _].
  - done.
  - destruct (String.eqb_spec state "running") as [->|Hne]; cbn; by split.
  - destruct (String.eqb_spec state "running") as [->|Hne]; cbn; [done|].
    by intros t2 [= <-].
  - destruct (color_map !! state) as [c|] eqn:E; cbn.
    + by eapply color_map_values.
    + apply (bool_decide_unpack _). by vm_compute.
Qed.

Lemma _build_display_not_empty hub_name state :
  _build_display hub_name state <> _empty_display.
Proof.
  unfold _build_display, _empty_display.
  destruct (String.eqb_spec state "running") as [->|Hne]; cbn; [|done].
  intros H. by vm_compute in H.
Qed.

(** ** Which port takes a channel *)

Lemma port_to_channel_truthy d h ch :
  port_to_channel d h = Some ch -> Py.truthy (Some ch) = true.
Proof.
  intros H%port_to_channel_in_CHANNELS. apply truthy_Some. intros ->.
  revert H. apply (bool_decide_unpack _). by vm_compute.
Qed.

Lemma channel_devices_of_snoc devs hub ports q ch :
  channel_devices_of devs hub (ports ++ [q]) !! ch =
    if decide (claimed_channel devs hub q = Some ch)
    then Some (default "" (serial_number q), q)
    else channel_devices_of devs hub ports !! ch.
Proof.
  unfold channel_devices_of at 1. rewrite fold_left_app. cbn [fold_left].
  fold (channel_devices_of devs hub ports). unfold claimed_channel.
  destruct (Py.truthy (serial_number q)); cbn [negb orb andb];
    [|by rewrite decide_False].
  destruct (bool_decide _); cbn [negb]; [|by rewrite decide_False].
  destruct (port_to_channel (location q) hub) as [c|] eqn:E;
    [|by rewrite decide_False].
  rewrite (port_to_channel_truthy _ _ _ E). cbn [default from_option id].
  unfold id. destruct (decide (Some c = Some ch)) as [[= ->]|Hne].
  - by rewrite lookup_insert_eq.
  - rewrite lookup_insert_ne; [done|]. by intros ->.
Qed.

Lemma claimed_channel_serial devs hub q ch :
  claimed_channel devs hub q = Some ch ->
  exists sn, serial_number q = Some sn /\ sn <> "" /\ is_Some (devs !! sn).
Proof.
  unfold claimed_channel.
  destruct (Py.truthy (serial_number q)) eqn:E; [|done].
  apply truthy_inv in E as (sn & -> & Hsn). cbn.
  destruct (bool_decide _) eqn:Eb; [|done].
  apply bool_decide_eq_true in Eb. intros _. by exists sn.
Qed.

Lemma channel_devices_of_claimants (devs : gmap string DeviceRecord)
    (hub_loc : option string) (ports : list ListPortInfo) (ch : string) :
  (forall sn p,
     channel_devices_of devs hub_loc ports !! ch = Some (sn, p) <->
     exists pre post,
       ports = (pre ++ p :: post)%list
       /\ claimed_channel devs hub_loc p = Some ch
       /\ serial_number p = Some sn
       /\ Forall (fun q => claimed_channel devs hub_loc q <> Some ch) post)
  /\ (channel_devices_of devs hub_loc ports !! ch = None <->
      Forall (fun q => claimed_channel devs hub_loc q <> Some ch) ports).
Proof.
  induction ports as [|q ports [IH1 IH2]] using rev_ind.
  - split.
    + intros sn p. split; [done|].
      intros (pre & post & E & _). by destruct pre.
    + split; [by constructor|done].
  - split.
    + intros sn p. rewrite channel_devices_of_snoc.
      destruct (decide (claimed_channel devs hub_loc q = Some ch)) as [Hq|Hq].
      * split.
        -- intros [= <- <-]. exists ports, []. repeat split; try done.
           apply claimed_channel_serial in Hq as (sn & -> & _). done.
        -- intros (pre & post & E & Hp & Hsn & Hpost).
           destruct post as [|x post _] using rev_ind.
           ++ apply app_inj_tail in E as [_ ->]. by rewrite Hsn.
           ++ rewrite app_comm_cons, app_assoc in E.
              apply app_inj_tail in E as [_ ->].
              apply Forall_app in Hpost as [_ Hx].
              rewrite Forall_singleton in Hx. by destruct Hx.
      * rewrite IH1. split.
        -- intros (pre & post & -> & Hp & Hsn & Hpost).
           exists pre, (post ++ [q])%list.
           split; [by rewrite <- app_assoc|]. split; [done|]. split; [done|].
           apply Forall_app. split; [done|]. by apply Forall_singleton.
        -- intros (pre & post & E & Hp & Hsn & Hpost).
           destruct post as [|x post _] using rev_ind.
           ++ apply app_inj_tail in E as [_ ->]. done.
           ++ rewrite app_comm_cons, app_assoc in E.
              apply app_inj_tail in E as [-> ->].
              apply Forall_app in Hpost as [Hpost _].
              by exists pre, post.
    + rewrite channel_devices_of_snoc, Forall_app, Forall_singleton.
      destruct (decide (claimed_channel devs hub_loc q = Some ch)) as [Hq|Hq].
      * split; [done|]. by intros [_ ?].
      * rewrite IH2. tauto.
Qed.

(** X11. The first loop of [_scan_channels] gives a channel to the last
    port of [comports()] that claims it, that is, whose serial number is not
    empty and registered and whose location maps to the channel; the channel
    stays empty exactly when no port claims it. *)
Theorem channel_goes_to_last_claimant (devs : gmap string DeviceRecord)
    (hub_loc : option string) (ports : list ListPortInfo) (ch : string) :
  (forall sn p,
     channel_devices_of devs hub_loc ports !! ch = Some (sn, p) <->
     exists pre post,
       ports = (pre ++ p :: post)%list
       /\ claimed_channel devs hub_loc p = Some ch
       /\ serial_number p = Some sn
       /\ Forall (fun q => claimed_channel devs hub_loc q <> Some ch) post)
  /\ (channel_devices_of devs hub_loc ports !! ch = None <->
      Forall (fun q => claimed_channel devs hub_loc q <> Some ch) ports).
Proof. apply channel_devices_of_claimants. Qed.

(** ** Scanning without a hub location *)

Lemma channel_devices_of_no_hub devs hub ports :
  Py.truthy hub = false -> channel_devices_of devs hub ports = ∅.
Proof.
  intros Hh. apply map_eq. intros ch. rewrite lookup_empty.
  apply (channel_devices_of_claimants devs hub ports ch).
  apply Forall_forall. intros q _. unfold claimed_channel.
  destruct (_ && _); [|done].
  unfold port_to_channel. rewrite Hh. cbn [negb]. by rewrite orb_true_r.
Qed.

(** X12. An agent whose hub location is [None] or empty sees every
    channel as empty: [_scan_channels] returns the placeholder display for
    CH1, CH2 and CH3, drops what the caches hold for them, and calls neither
    [_probe_state] nor the bootloader probe, whatever [comports()]
    reports. *)
Theorem scan_without_hub_location (w : World) (ports : list ListPortInfo)
    (a : HubAgent) :
  Py.truthy (hub_location a) = false ->
  _scan_channels w ports a =
    (Ret (<["CH3" := _empty_display]>
           (<["CH2" := _empty_display]> (<["CH1" := _empty_display]> ∅))),
     set_channel_states
       (delete "CH3" (delete "CH2" (delete "CH1" (_channel_states a))))
       (set_channel_serials
          (delete "CH3" (delete "CH2" (delete "CH1" (_channel_serials a))))
          a)).
Proof.
  intros Hh. rewrite _scan_channels_unfold. unfold occupants.
  rewrite (channel_devices_of_no_hub _ _ _ Hh).
  unfold CHANNELS. cbn [for_fold]. unfold bind.
  rewrite !scan_channel_empty by apply lookup_empty. unfold ret.
  f_equal.
Qed.

(** X12, witness: an agent without hub location and the board on port 1. *)
Lemma scan_without_hub_location_witness :
  _scan_channels (sample_world HubOSError) [board_port]
    (HubAgent_init "/dev/cu.usbmodem1" None [board_b]) =
    (Ret (<["CH3" := _empty_display]>
           (<["CH2" := _empty_display]> (<["CH1" := _empty_display]> ∅))),
     set_channel_states
       (delete "CH3" (delete "CH2" (delete "CH1"
          (_channel_states (HubAgent_init "/dev/cu.usbmodem1" None [board_b])))))
       (set_channel_serials
          (delete "CH3" (delete "CH2" (delete "CH1"
             (_channel_serials (HubAgent_init "/dev/cu.usbmodem1" None [board_b])))))
          (HubAgent_init "/dev/cu.usbmodem1" None [board_b]))).
Proof.
  apply (scan_without_hub_location (sample_world HubOSError) [board_port]
           (HubAgent_init "/dev/cu.usbmodem1" None [board_b])).
  reflexivity.
Defined.

(** ** What a scan returns *)

(** X13. [_scan_channels] always returns, with a display for CH1, CH2 and
    CH3 and for nothing else. The display of a channel is the placeholder
    of an empty channel exactly when no port claims the channel, and
    otherwise it is built from the display name of the occupant's record
    and the mode cached for the channel. *)
Theorem scan_returns_a_display_per_channel (w : World)
    (ports : list ListPortInfo) (a : HubAgent) :
  exists ds a',
    _scan_channels w ports a = (Ret ds, a')
    /\ (forall ch, is_Some (ds !! ch) <-> ch ∈ CHANNELS)
    /\ (forall ch, ds !! ch = Some _empty_display <->
                   ch ∈ CHANNELS /\ occupants a ports !! ch = None)
    /\ (forall ch sn p, occupants a ports !! ch = Some (sn, p) ->
          exists dev,
            devices a !! sn = Some dev
            /\ ds !! ch
               = Some (_build_display (dev_hub_name dev)
                         (default "running" (_channel_states a' !! ch)))).
Proof.
  rewrite _scan_channels_unfold.
  destruct (scan_fold_post w (occupants a ports) CHANNELS CHANNELS_NoDup ∅ a
              (occupants_registered a ports))
    as (ds & a' & E & S & Hin & Hout).
  destruct S as (_&_&Hdev&_).
  exists ds, a'. split; [done|].
  assert (forall ch sn p, occupants a ports !! ch = Some (sn, p) ->
            exists dev, devices a !! sn = Some dev
              /\ ds !! ch = Some (_build_display (dev_hub_name dev)
                         (default "running" (_channel_states a' !! ch)))) as Hocc.
  { intros ch sn p Ho.
    destruct (occupants_registered a ports ch sn p Ho) as [dev Hd].
    exists dev. split; [done|].
    assert (ch ∈ CHANNELS) as Hc
      by (apply (occupants_in_CHANNELS a ports); by rewrite Ho).
    destruct (Hin _ Hc) as [_ ->]. unfold frame_of. by rewrite Ho, Hdev, Hd. }
  split; [|split; [|done]].
  - intros ch. destruct (decide (ch ∈ CHANNELS)) as [Hc|Hc].
    + destruct (Hin _ Hc) as [_ ->]. by split.
    + rewrite (Hout _ Hc), lookup_empty. split; [by intros [? ?]|done].
  - intros ch. destruct (decide (ch ∈ CHANNELS)) as [Hc|Hc].
    + destruct (occupants a ports !! ch) as [[sn p]|] eqn:Ho.
      * destruct (Hocc _ _ _ Ho) as (dev & _ & ->).
        split; [|by intros [_ ?]].
        intros H. apply (inj Some) in H.
        by apply _build_display_not_empty in H.
      * destruct (Hin _ Hc) as [_ ->]. unfold frame_of. rewrite Ho. by split.
    + rewrite (Hout _ Hc), lookup_empty. split; [done|by intros [? _]].
Qed.

(** ** The caches along the loop *)

Lemma probed_mode_in_MODES w n p ty : probed_mode w n p ty ∈ MODES.
Proof.
  unfold probed_mode, MODES.
  destruct (negb _); [by left|].
  destruct (String.eqb ty "esp32"); [|by right; right; left].
  destruct (probe_bootloader _); [by right; left|by right; right; left].
Qed.

Lemma caches_agree_init port loc devs :
  caches_agree (HubAgent_init port loc devs).
Proof.
  split.
  - intros ch. cbn. rewrite !lookup_empty. done.
  - intros ch m. cbn. by rewrite lookup_empty.
Qed.

Lemma scan_channel_caches_agree w cd ds ch a :
  registered cd (devices a) ->
  caches_agree a -> caches_agree (scan_channel w cd ds ch a).2.
Proof.
  intros Hreg [Hdom Hmodes].
  destruct (cd !! ch) as [[sn p]|] eqn:E.
  - destruct (Hreg _ _ _ E) as [dev Hdev].
    destruct (decide (_channel_serials a !! ch = Some sn)) as [Hsn|Hsn].
    + by rewrite (scan_channel_cached _ _ _ _ _ _ _ _ E Hdev Hsn).
    + pose proof (scan_channel_new w cd ds ch a sn p dev E Hdev Hsn) as Heq.
      cbn zeta in Heq. rewrite Heq. clear Heq. cbn [snd].
      destruct (fold_add_probe_fields (add_probed (p, dev_type dev) a)
                  (probe_paths p (dev_type dev))) as (_ & _ & F3 & F4).
      unfold caches_agree.
      cbn [_channel_serials _channel_states set_channel_serials
           set_channel_states].
      rewrite F3, F4. cbn [_channel_serials _channel_states add_probed].
      split.
      * intros c. destruct (decide (c = ch)) as [->|Hne].
        -- rewrite !lookup_insert_eq. by split.
        -- rewrite !lookup_insert_ne by done. apply Hdom.
      * intros c m. destruct (decide (c = ch)) as [->|Hne].
        -- rewrite lookup_insert_eq. intros [= <-]. apply probed_mode_in_MODES.
        -- rewrite lookup_insert_ne by done. apply Hmodes.
  - rewrite (scan_channel_empty _ _ _ _ _ E). cbn [snd]. unfold caches_agree.
    cbn [_channel_serials _channel_states set_channel_serials
         set_channel_states].
    split.
    + intros c. destruct (decide (c = ch)) as [->|Hne].
      * rewrite !lookup_delete_eq. by split; intros [? ?].
      * rewrite !lookup_delete_ne by done. apply Hdom.
    + intros c m. destruct (decide (c = ch)) as [->|Hne].
      * by rewrite lookup_delete_eq.
      * rewrite lookup_delete_ne by done. apply Hmodes.
Qed.

Lemma scan_fold_caches_agree w cd chs :
  forall ds a,
    registered cd (devices a) ->
    caches_agree a ->
    caches_agree (for_fold (scan_channel w cd) chs ds a).2.
Proof.
  induction chs as [|ch chs IH]; intros ds a Hreg Hok; [done|].
  simpl. unfold bind.
  pose proof (scan_channel_caches_agree w cd ds ch a Hreg Hok) as H1.
  destruct (scan_channel_post w cd ds ch a Hreg) as (a1 & E1 & S1 & _).
  rewrite E1 in *. cbn [snd] in H1.
  destruct S1 as (_&_&Hd&_). apply IH; [by rewrite Hd|done].
Qed.

(** A scan keeps the caches together, and what it returns are known
    displays. *)
Lemma scan_channels_caches_agree w ports a :
  caches_agree a ->
  exists ds a',
    _scan_channels w ports a = (Ret ds, a')
    /\ caches_agree a'
    /\ writes a' = writes a
    /\ _ser a' = _ser a /\ _hub_lost a' = _hub_lost a
    /\ running a' = running a
    /\ (forall ch d, ds !! ch = Some d -> known_display d).
Proof.
  intros Hok. rewrite _scan_channels_unfold.
  pose proof (scan_fold_caches_agree w (occupants a ports) CHANNELS ∅ a
                (occupants_registered a ports) Hok) as Hagree.
  destruct (scan_fold_post w (occupants a ports) CHANNELS CHANNELS_NoDup ∅ a
              (occupants_registered a ports))
    as (ds & a' & E & S & Hin & Hout).
  rewrite E in Hagree. cbn [snd] in Hagree.
  destruct S as (_&_&Hdev&Hser&_&Hlost&Hrun&_&Hw&_).
  exists ds, a'. repeat split; try done; try apply Hagree.
  intros ch d Hd.
  destruct (decide (ch ∈ CHANNELS)) as [Hc|Hc];
    [|by rewrite (Hout _ Hc), lookup_empty in Hd].
  destruct (Hin _ Hc) as [_ Hf]. rewrite Hf in Hd. injection Hd as <-.
  unfold frame_of. destruct (occupants a ports !! ch) as [[sn p]|]; [|by left].
  destruct (devices a' !! sn) as [dev|]; [|by left].
  right. exists (dev_hub_name dev), (default "running" (_channel_states a' !! ch)).
  split; [|done].
  destruct (_channel_states a' !! ch) as [m|] eqn:Em; cbn.
  - by apply (proj2 Hagree ch).
  - by right; right; left.
Qed.

Lemma refresh_channel_writes w ds lco ch a :
  (forall c d, ds !! c = Some d -> known_display d) ->
  Forall (fun msg => known_display msg.2) (writes a) ->
  Forall (fun msg => known_display msg.2)
    (writes (refresh_channel w ds lco tt ch a).2).
Proof.
  intros Hds Hw.
  destruct (ds !! ch) as [d|] eqn:Hd.
  - rewrite (refresh_channel_eq w ds lco ch a d Hd).
    pose proof (push_channel_fields w ch d
                  (push_is_logged ds lco (_channel_display a) ch) a) as F.
    cbn zeta in F. destruct F as (_ & _ & _ & Fw & _).
    destruct (_push_channel w ch d _ a) as [[v|e] a1]; cbn [snd] in *;
      cbn [writes set_channel_display];
      rewrite Fw; destruct (is_connected a); try done;
      constructor; try done; by apply (Hds ch).
  - unfold refresh_channel, displays_getitem. by rewrite Hd.
Qed.

Lemma refresh_fold_writes w ds lco chs :
  (forall c d, ds !! c = Some d -> known_display d) ->
  forall a,
    Forall (fun msg => known_display msg.2) (writes a) ->
    Forall (fun msg => known_display msg.2)
      (writes (for_fold (refresh_channel w ds lco) chs tt a).2).
Proof.
  intros Hds. induction chs as [|ch chs IH]; intros a Hw; [done|].
  simpl. unfold bind.
  pose proof (refresh_channel_writes w ds lco ch a Hds Hw) as H1.
  destruct (refresh_channel w ds lco tt ch a) as [[[]|e] a1]; [|done].
  by apply IH.
Qed.

Lemma refresh_sound w ports lco a : sound a -> sound (refresh w ports lco a).2.
Proof.
  intros (Hagree & Hkeys & Hw).
  pose proof (refresh_cache_keys_ok w ports lco a Hkeys) as Hkeys'.
  destruct (scan_channels_caches_agree w ports a Hagree)
    as (ds & a_s & E & Hagree_s & Hws & _ & _ & _ & Hds).
  unfold refresh, bind in *. rewrite E in *.
  destruct (refresh_fold_caches w ds lco CHANNELS a_s) as [Hs Ht].
  split; [|split; [done|]].
  - unfold caches_agree. rewrite Hs, Ht. exact Hagree_s.
  - apply refresh_fold_writes; [done|]. by rewrite Hws.
Qed.

Lemma _reconnect_fields ports opens a :
  _channel_serials (_reconnect ports opens a).2 = ∅
  /\ _channel_states (_reconnect ports opens a).2 = ∅
  /\ writes (_reconnect ports opens a).2 = writes a
  /\ running (_reconnect ports opens a).2 = running a
  /\ exists b, (_reconnect ports opens a).1 = Ret b.
Proof.
  unfold _reconnect, _close_hub, _open_hub, bind, gets, modify, ret.
  destruct (_ser a); destruct (find_insight_hub ports) as [port loc];
    destruct (negb (Py.truthy port) || negb (Py.truthy loc));
    destruct opens; cbn; repeat split; by eexists.
Qed.

Lemma _reconnect_sound ports opens a : sound a -> sound (_reconnect ports opens a).2.
Proof.
  intros (_ & _ & Hw).
  destruct (_reconnect_fields ports opens a) as (Hs & Ht & Hwr & _).
  split; [|split].
  - unfold caches_agree. rewrite Hs, Ht. split.
    + intros ch. by rewrite !lookup_empty.
    + intros ch m. by rewrite lookup_empty.
  - apply _reconnect_cache_keys_ok.
  - by rewrite Hwr.
Qed.

Lemma run_turn_sound w t a : sound a -> sound (run_turn w t a).2.
Proof.
  intros Hok. unfold run_turn, bind, gets, ret, modify.
  destruct (running a) eqn:Hrun; [|done]. cbn -[_reconnect refresh].
  destruct (tick_stop t); cbn -[_reconnect refresh]; [done|].
  rewrite Hrun. cbn -[_reconnect refresh].
  destruct (_hub_lost a); cbn -[_reconnect refresh].
  - pose proof (_reconnect_sound (tick_find_ports t) (tick_opens t) a Hok)
      as Hrec.
    destruct (_reconnect _ _ a) as [[[]|e] a1]; cbn [snd] in Hrec; try done.
    pose proof (refresh_sound w (tick_ports t) false a1 Hrec) as Href.
    by destruct (refresh w (tick_ports t) false a1) as [[[]|e] a2].
  - pose proof (refresh_sound w (tick_ports t) (negb (tick_triggered t)) a Hok)
      as Href.
    by destruct (refresh w (tick_ports t) _ a) as [[[]|e] a2].
Qed.

Lemma run_loop_sound w ts : forall a, sound a -> sound (run_loop w ts a).2.
Proof.
  induction ts as [|t ts IH]; intros a Hok; [done|].
  simpl. unfold bind.
  pose proof (run_turn_sound w t a Hok) as H1.
  destruct (run_turn w t a) as [[[]|e] a1]; cbn [snd] in H1; try done.
  by apply IH.
Qed.

Lemma sound_fields a a' :
  _channel_serials a' = _channel_serials a ->
  _channel_states a' = _channel_states a ->
  writes a' = writes a ->
  sound a -> sound a'.
Proof.
  unfold sound, caches_agree, cache_keys_ok. by intros -> -> ->.
Qed.

Lemma run_body_sound w once ports ts a :
  sound a -> sound (run_body w once ports ts a).2.
Proof.
  intros Hok. unfold run_body. destruct once.
  - unfold bind.
    pose proof (refresh_sound w ports false a Hok) as H2.
    by destruct (refresh w ports false a) as [[[]|e] a2].
  - unfold bind at 1. unfold modify at 1.
    set (a2 := set_running true a).
    assert (sound a2) as H2 by (by apply (sound_fields a)).
    unfold bind at 1. unfold gets at 1. unfold bind at 1.
    assert (sound ((if negb (_hub_lost a2) then refresh w ports false
                    else ret tt) a2).2) as H3.
    { destruct (negb (_hub_lost a2)); [by apply refresh_sound|done]. }
    destruct ((if negb (_hub_lost a2) then refresh w ports false else ret tt) a2)
      as [[[]|e] a3]; cbn [snd] in H3; [|done].
    unfold bind, gets, ret.
    pose proof (run_loop_sound w ts a3 H3) as H4.
    by destruct (run_loop w ts a3) as [[[]|e] a4].
Qed.

Lemma run_sound w once opens ports ts a :
  sound a -> sound (run w once opens ports ts a).2.
Proof.
  intros Hok. unfold run. unfold bind at 1. unfold _open_hub.
  assert (forall a1, sound a1 ->
            sound (match run_body w once ports ts a1 with
                   | (Ret RunGoesOn, a') => (Ret RunGoesOn, a')
                   | (r, a') => (r, (_close_hub a').2)
                   end).2) as Hfin.
  { intros a1 H1. pose proof (run_body_sound w once ports ts a1 H1) as H2.
    destruct (run_body w once ports ts a1) as [[[]|e] a2]; cbn [snd] in *;
      rewrite ?close_hub_eq; cbn [snd]; try done; by apply (sound_fields a2). }
  destruct opens.
  - unfold bind at 1. unfold modify at 1. cbn [negb andb]. unfold bind at 1.
    unfold ret at 1. apply Hfin. by apply (sound_fields a).
  - unfold ret at 1. cbn [negb andb]. destruct once; [done|].
    unfold bind at 1. unfold modify at 1. apply Hfin.
    by apply (sound_fields a).
Qed.

Lemma known_display_not_red d :
  known_display d ->
  color (T1 (Dev1_name d)) ∈ ["GREEN"; "ORANGE"; "CYAN"; "DARKGREY"].
Proof.
  intros [->|(name & mode & Hm & ->)].
  - by right; right; right; left.
  - unfold MODES in Hm.
    apply elem_of_cons in Hm as [->|Hm]; [by right; right; left|].
    apply elem_of_cons in Hm as [->|Hm]; [by right; left|].
    apply elem_of_cons in Hm as [->|Hm]; [by left|].
    by apply elem_of_nil in Hm.
Qed.

(** X14. From the creation of the agent to the end of [run], whatever the
    world does: every display written to the hub is the placeholder of an
    empty channel or is built for one of the modes sleeping, bootloader and
    running, so that its name is GREEN, ORANGE, CYAN or DARKGREY and never
    RED (the states off and disconnected of [_build_display] are never
    shown); a channel has a cached mode exactly when it has a recorded
    occupant, so that the default of [_channel_states.get(ch, "running")] is
    never taken; every cached mode is one of the three; and the cache keys
    are channels. *)
Theorem agent_shows_only_known_modes (w : World) (port : string)
    (loc : option string) (devs : list DeviceRecord) (lost once opens : bool)
    (ports : list ListPortInfo) (ts : list Tick) :
  let a := set_hub_lost lost (HubAgent_init port loc devs) in
  let a' := (run w once opens ports ts a).2 in
  Forall (fun msg =>
            (msg.2 = _empty_display
             \/ exists name mode,
                  mode ∈ MODES /\ msg.2 = _build_display name mode)
            /\ color (T1 (Dev1_name msg.2))
               ∈ ["GREEN"; "ORANGE"; "CYAN"; "DARKGREY"])
    (writes a')
  /\ (forall ch, is_Some (_channel_states a' !! ch)
                 <-> is_Some (_channel_serials a' !! ch))
  /\ (forall ch m, _channel_states a' !! ch = Some m -> m ∈ MODES)
  /\ (forall ch, is_Some (_channel_serials a' !! ch) -> ch ∈ CHANNELS).
Proof.
  cbn zeta.
  assert (sound (set_hub_lost lost (HubAgent_init port loc devs))) as H0.
  { apply (sound_fields (HubAgent_init port loc devs)); try done.
    split; [apply caches_agree_init|]. split; [apply cache_keys_ok_init|].
    constructor. }
  destruct (run_sound w once opens ports ts _ H0) as ([H1 H2] & [H3 _] & H4).
  repeat split; try done; try apply H1.
  eapply Forall_impl; [exact H4|]. intros msg Hk. split; [done|].
  by apply known_display_not_red.
Qed.

(** ** Devices behind a hub of their own *)

Lemma split_dot_head_join seg rest :
  Py.contains_dot seg = false ->
  Py.split_dot_head (seg +:+ "." +:+ rest) = seg
  /\ Py.split_dot_head seg = seg.
Proof.
  induction seg as [|c seg IH]; [done|]. simpl.
  intros [Hc Hseg]%orb_false_elim. rewrite Hc. destruct (IH Hseg) as [-> ->]. done.
Qed.

(** X4. Only the first segment after the hub location counts: a device
    behind a hub of its own on port [seg] maps to the same channel as port
    [seg] itself. *)
Theorem port_to_channel_first_segment (h seg rest : string) :
  h <> "" ->
  Py.contains_dot seg = false ->
  port_to_channel (Some (h +:+ "." +:+ seg +:+ "." +:+ rest)) (Some h)
  = port_to_channel (Some (h +:+ "." +:+ seg)) (Some h).
Proof.
  intros Hh Hseg. rewrite !port_to_channel_extension by done.
  by destruct (split_dot_head_join seg rest Hseg) as [-> ->].
Qed.

(** X4, witness: 20-3.3.2.1.4 and 20-3.3.2. *)
Lemma port_to_channel_first_segment_witness :
  port_to_channel (Some ("20-3.3" +:+ "." +:+ "2" +:+ "." +:+ "1.4")) (Some "20-3.3")
  = port_to_channel (Some ("20-3.3" +:+ "." +:+ "2")) (Some "20-3.3").
Proof.
  apply (port_to_channel_first_segment "20-3.3" "2" "1.4").
  - discriminate.
  - reflexivity.
Defined.

(** ** The message on the wire *)

Lemma all_printable_app a b :
  all_printable (a +:+ b) = all_printable a && all_printable b.
Proof.
  induction a as [|c a IH]; [done|]. rewrite append_cons. simpl.
  by rewrite IH, andb_assoc.
Qed.

Lemma json_escape_char_printable c : all_printable (json_escape_char c) = true.
Proof. destruct c as [[] [] [] [] [] [] [] []]; vm_compute; reflexivity. Qed.

Lemma json_escape_printable s : all_printable (json_escape s) = true.
Proof.
  induction s as [|c s IH]; [done|]. simpl.
  by rewrite all_printable_app, json_escape_char_printable, IH.
Qed.

Lemma json_str_printable s : all_printable (json_str s) = true.
Proof.
  unfold json_str. cbn [all_printable].
  rewrite all_printable_app, json_escape_printable. done.
Qed.

Lemma json_text_line_printable t : all_printable (json_text_line t) = true.
Proof.
  unfold json_text_line.
  rewrite !all_printable_app, !json_str_printable. done.
Qed.

Lemma json_lines_printable l : all_printable (json_lines l) = true.
Proof.
  unfold json_lines.
  rewrite !all_printable_app, !json_str_printable, json_text_line_printable.
  destruct (T2 l); [|done].
  rewrite !all_printable_app, !json_str_printable, json_text_line_printable.
  done.
Qed.

Lemma json_display_printable d : all_printable (json_display d) = true.
Proof.
  unfold json_display.
  rewrite !all_printable_app, !json_str_printable, json_lines_printable. done.
Qed.

(** X15. The text that [_send] writes for a message is one line: it
    consists of characters from the space to the tilde followed by one line
    feed, whatever characters the channel and the display hold. *)
Theorem payload_is_one_line (msg : string * Display) :
  exists body,
    payload msg = body +:+ String Py.LF ""
    /\ all_printable body = true
    /\ Py.contains_char Py.LF body = false.
Proof.
  assert (forall s, all_printable s = true -> Py.contains_char Py.LF s = false)
    as Hno.
  { induction s as [|c s IH]; [done|]. simpl.
    intros [Hc Hs]%andb_prop. rewrite (IH Hs), orb_false_r.
    destruct c as [[] [] [] [] [] [] [] []]; done. }
  exists ("{" +:+ json_str "action" +:+ ":" +:+ json_str "set" +:+ ","
          +:+ json_str "params" +:+ ":" +:+ "{" +:+ json_str msg.1 +:+ ":"
          +:+ json_display msg.2 +:+ "}" +:+ "}").
  assert (all_printable
            ("{" +:+ json_str "action" +:+ ":" +:+ json_str "set" +:+ ","
             +:+ json_str "params" +:+ ":" +:+ "{" +:+ json_str msg.1 +:+ ":"
             +:+ json_display msg.2 +:+ "}" +:+ "}") = true) as Hp.
  { rewrite !all_printable_app, !json_str_printable, json_display_printable.
    done. }
  split; [|split; [done|by apply Hno]].
  unfold payload. by rewrite !append_assoc.
Qed.

(** ** With the connection closed *)

(** A push on a closed connection returns [None] and writes nothing. *)
Lemma push_channel_offline w ch d log a :
  is_connected a = false ->
  _push_channel w ch d log a =
    (Ret PNone,
     if log then add_logged (log_line ch d PNone) (add_pushed (ch, d) a)
     else add_pushed (ch, d) a).
Proof.
  intros Hc. rewrite _push_channel_eq. cbn zeta.
  unfold sent_value, after_send.
  change (is_connected (add_pushed (ch, d) a)) with (is_connected a).
  by rewrite Hc.
Qed.

Lemma refresh_fold_offline w ds lco chs :
  (forall ch, ch ∈ chs -> is_Some (ds !! ch)) ->
  forall a,
    is_connected a = false ->
    exists a',
      for_fold (refresh_channel w ds lco) chs tt a = (Ret tt, a')
      /\ same_but_push a a'
      /\ _hub_lost a' = _hub_lost a
      /\ writes a' = writes a
      /\ pushed a' = (rev (pushes_of ds chs) ++ pushed a)%list
      /\ (forall l, l ∈ logged a' -> l ∈ logged a \/ log_ok l = false).
Proof.
  induction chs as [|ch chs IH]; intros Hds a Hc.
  - exists a. repeat split; try done. intros l Hl. by left.
  - destruct (Hds ch) as [d Hd]; [by left|].
    pose proof (refresh_channel_eq w ds lco ch a d Hd) as E.
    rewrite push_channel_offline in E by done.
    set (log := push_is_logged ds lco (_channel_display a) ch) in *.
    set (a1 := if log then add_logged (log_line ch d PNone) (add_pushed (ch, d) a)
               else add_pushed (ch, d) a) in *.
    set (a2 := set_channel_display (<[ch := d]> (_channel_display a1)) a1) in *.
    assert (same_but_push a a2 /\ _hub_lost a2 = _hub_lost a
            /\ writes a2 = writes a /\ pushed a2 = (ch, d) :: pushed a
            /\ (forall l, l ∈ logged a2 -> l ∈ logged a \/ log_ok l = false))
      as (S & Hl & Hw & Hp & Hlog).
    { unfold a2, a1. destruct log; cbn; repeat split; try done.
      - intros l [->|Hin]%elem_of_cons; [by right|by left].
      - intros l Hin. by left. }
    destruct (IH (fun c Hcin => Hds c (list_elem_of_further _ _ _ Hcin)) a2)
      as (a' & E' & S' & Hl' & Hw' & Hp' & Hlog').
    { unfold is_connected. destruct S as (_&_&_&->&_). exact Hc. }
    exists a'. split; [|split; [|split; [|split; [|split]]]].
    + simpl. unfold bind. by rewrite E.
    + destruct S as (?&?&?&?&?&?&?&?&?). destruct S' as (?&?&?&?&?&?&?&?&?).
      repeat split; congruence.
    + congruence.
    + congruence.
    + rewrite Hp', Hp. cbn [pushes_of map rev]. rewrite Hd.
      cbn [default from_option id]. by rewrite <- app_assoc.
    + intros l Hin. destruct (Hlog' l Hin) as [H|H]; [|by right].
      by apply Hlog.
Qed.

(** [refresh] with the connection closed: it returns after calling
    [_push_channel] for the three channels, and nothing is written. *)
Lemma refresh_offline w ports lco a :
  is_connected a = false ->
  exists ds a_s d1 d2 d3 a',
    _scan_channels w ports a = (Ret ds, a_s)
    /\ ds !! "CH1" = Some d1 /\ ds !! "CH2" = Some d2 /\ ds !! "CH3" = Some d3
    /\ refresh w ports lco a = (Ret tt, a')
    /\ _ser a' = _ser a /\ _hub_lost a' = _hub_lost a
    /\ running a' = running a
    /\ writes a' = writes a
    /\ pushed a' = ([("CH3", d3); ("CH2", d2); ("CH1", d1)] ++ pushed a)%list
    /\ (forall l, l ∈ logged a' -> l ∈ logged a \/ log_ok l = false).
Proof.
  intros Hc.
  destruct (scan_fold_post w (occupants a ports) CHANNELS CHANNELS_NoDup ∅ a
              (occupants_registered a ports))
    as (ds & a_s & E & S & Hin & _).
  destruct S as (_&_&_&Hser&_&Hlost&Hrun&Hpushed&Hwrites&Hlogged&_).
  assert (forall ch, ch ∈ CHANNELS -> is_Some (ds !! ch)) as Hds
    by (intros ch Hch; destruct (Hin _ Hch) as [_ ->]; done).
  destruct (Hds "CH1") as [d1 H1]; [by apply (bool_decide_unpack _)|].
  destruct (Hds "CH2") as [d2 H2]; [by apply (bool_decide_unpack _)|].
  destruct (Hds "CH3") as [d3 H3]; [by apply (bool_decide_unpack _)|].
  destruct (refresh_fold_offline w ds lco CHANNELS Hds a_s)
    as (a' & E' & Sp & Gl & Gw & Gp & Glog).
  { unfold is_connected. by rewrite Hser. }
  destruct Sp as (_&_&_&Sser&_&_&Srun&_).
  exists ds, a_s, d1, d2, d3, a'.
  rewrite <- _scan_channels_unfold in E.
  split; [done|]. split; [done|]. split; [done|]. split; [done|].
  split; [unfold refresh, bind; by rewrite E|].
  split; [congruence|]. split; [congruence|]. split; [congruence|].
  split; [congruence|]. split.
  - rewrite Gp, Hpushed. unfold pushes_of, CHANNELS. cbn [map rev app].
    rewrite H1, H2, H3. done.
  - intros l Hl. rewrite <- Hlogged. by apply Glog.
Qed.

(** X18. With the connection closed (never opened, or closed by a failed
    reconnect) [refresh] still scans and calls [_push_channel] for CH1, CH2
    and CH3, in this order; it returns, whatever the world does, nothing is
    written to the hub, every line it logs reports a failure, and neither
    the connection nor the lost flag changes. *)
Theorem refresh_with_closed_connection (w : World)
    (ports : list ListPortInfo) (log_changes_only : bool) (a : HubAgent) :
  is_connected a = false ->
  exists ds a_s d1 d2 d3 a',
    _scan_channels w ports a = (Ret ds, a_s)
    /\ ds !! "CH1" = Some d1 /\ ds !! "CH2" = Some d2 /\ ds !! "CH3" = Some d3
    /\ refresh w ports log_changes_only a = (Ret tt, a')
    /\ _ser a' = _ser a /\ _hub_lost a' = _hub_lost a
    /\ running a' = running a
    /\ writes a' = writes a
    /\ pushed a' = ([("CH3", d3); ("CH2", d2); ("CH1", d1)] ++ pushed a)%list
    /\ (forall l, l ∈ logged a' -> l ∈ logged a \/ log_ok l = false).
Proof. apply refresh_offline. Qed.

(** X18, witness: the sample agent, which has no connection yet. *)
Lemma refresh_with_closed_connection_witness :
  exists ds a_s d1 d2 d3 a',
    _scan_channels (sample_world (HubLine "[1]")) [board_port] sample_agent
      = (Ret ds, a_s)
    /\ ds !! "CH1" = Some d1 /\ ds !! "CH2" = Some d2 /\ ds !! "CH3" = Some d3
    /\ refresh (sample_world (HubLine "[1]")) [board_port] true sample_agent
       = (Ret tt, a')
    /\ _ser a' = _ser sample_agent /\ _hub_lost a' = _hub_lost sample_agent
    /\ running a' = running sample_agent
    /\ writes a' = writes sample_agent
    /\ pushed a'
       = ([("CH3", d3); ("CH2", d2); ("CH1", d1)] ++ pushed sample_agent)%list
    /\ (forall l, l ∈ logged a' ->
          l ∈ logged sample_agent \/ log_ok l = false).
Proof.
  apply (refresh_with_closed_connection (sample_world (HubLine "[1]"))
           [board_port] true sample_agent).
  reflexivity.
Defined.

(** A turn of the loop with the connection closed and not marked lost
    leaves it so, and writes nothing. *)
Lemma run_turn_offline w t a :
  offline a ->
  exists go a',
    run_turn w t a = (Ret go, a')
    /\ offline a' /\ writes a' = writes a.
Proof.
  intros [Hser Hlost]. unfold run_turn, bind, gets, ret, modify.
  destruct (running a) eqn:Hrun; cbn -[refresh _reconnect];
    [|by exists false, a].
  destruct (tick_stop t); cbn -[refresh _reconnect].
  - exists false, (set_running false a). by repeat split.
  - rewrite Hrun. cbn -[refresh _reconnect].
    rewrite Hlost. cbn -[refresh _reconnect].
    destruct (refresh_offline w (tick_ports t) (negb (tick_triggered t)) a)
      as (ds & a_s & d1 & d2 & d3 & a' & _ & _ & _ & _ & E & Hs & Hl & _ & Hw & _).
    { unfold is_connected. by rewrite Hser. }
    rewrite E. exists true, a'. repeat split; congruence.
Qed.

Lemma run_loop_offline w ts :
  forall a,
    offline a ->
    exists a',
      run_loop w ts a = (Ret tt, a') /\ offline a' /\ writes a' = writes a.
Proof.
  induction ts as [|t ts IH]; intros a Hoff; [by exists a|].
  destruct (run_turn_offline w t a Hoff) as (go & a1 & E1 & Hoff1 & Hw1).
  simpl. unfold bind. rewrite E1. destruct go.
  - destruct (IH a1 Hoff1) as (a' & E' & Hoff' & Hw').
    exists a'. repeat split; try done; try apply Hoff'. congruence.
  - by exists a1.
Qed.

(** X20. [_reconnect] resets the lost flag before it knows whether it
    succeeds. So when the loop finds the connection marked lost and the
    reconnect fails (no controller found, or found without device path or
    hub location, or its port does not open), the turn ends with the
    connection closed and the flag down; and from then on, whatever the
    world does and however many turns follow, the loop neither raises nor
    reconnects nor writes anything to the hub. *)
Theorem no_recovery_after_failed_reconnect (w : World) (t : Tick)
    (ts : list Tick) (a : HubAgent) :
  running a = true ->
  tick_stop t = false ->
  _hub_lost a = true ->
  (Py.truthy (find_insight_hub (tick_find_ports t)).1 = false
   \/ Py.truthy (find_insight_hub (tick_find_ports t)).2 = false
   \/ tick_opens t = false) ->
  exists a1 a',
    run_turn w t a = (Ret true, a1)
    /\ _ser a1 = None /\ _hub_lost a1 = false /\ running a1 = true
    /\ run_loop w (t :: ts) a = (Ret tt, a')
    /\ _ser a' = None /\ _hub_lost a' = false
    /\ writes a' = writes a.
Proof.
  intros Hrun Hstop Hlost Hfail.
  destruct (_reconnect_failure (tick_find_ports t) (tick_opens t) a Hfail)
    as (a1 & E & Hser & Hl & _ & _ & _ & _ & Hw).
  destruct (_reconnect_fields (tick_find_ports t) (tick_opens t) a)
    as (_ & _ & _ & Hr & _).
  rewrite E in Hr. cbn [snd] in Hr.
  assert (run_turn w t a = (Ret true, a1)) as E1.
  { unfold run_turn, bind, gets, ret, modify.
    rewrite Hrun, Hstop. cbn -[_reconnect refresh].
    rewrite Hrun. cbn -[_reconnect refresh].
    rewrite Hlost. cbn -[_reconnect refresh].
    by rewrite E. }
  destruct (run_loop_offline w ts a1) as (a' & E' & [Hs' Hl'] & Hw');
    [by split|].
  exists a1, a'. repeat split; try done; try congruence.
  simpl. unfold bind. by rewrite E1.
Qed.

(** X20, witness: the hub is missing in one turn and back in the next
    two. *)
Lemma no_recovery_after_failed_reconnect_witness :
  exists a1 a',
    run_turn (sample_world (HubLine ok_line)) missing_tick lost_agent
      = (Ret true, a1)
    /\ _ser a1 = None /\ _hub_lost a1 = false /\ running a1 = true
    /\ run_loop (sample_world (HubLine ok_line))
         (missing_tick :: [found_tick; found_tick]) lost_agent = (Ret tt, a')
    /\ _ser a' = None /\ _hub_lost a' = false
    /\ writes a' = writes lost_agent.
Proof.
  apply (no_recovery_after_failed_reconnect (sample_world (HubLine ok_line))
           missing_tick [found_tick; found_tick] lost_agent).
  - reflexivity.
  - reflexivity.
  - reflexivity.
  - left. reflexivity.
Defined.

(** ** The main loop as a whole *)

Lemma run_eq w once opens ports ts a :
  run w once opens ports ts a =
    if negb opens && once then (Ret (RunExit 1), a)
    else
      let a1 := if opens then set_ser (Some {| is_open := true |}) a
                else set_hub_lost true a in
      match run_body w once ports ts a1 with
      | (Ret RunGoesOn, a') => (Ret RunGoesOn, a')
      | (r, a') => (r, set_ser None a')
      end.
Proof.
  unfold run, _open_hub, bind, modify, ret.
  destruct opens; cbn [negb andb].
  - destruct (run_body _ _ _ _ _) as [[[]|e] a']; by rewrite ?close_hub_eq.
  - destruct once; [done|].
    destruct (run_body _ _ _ _ _) as [[[]|e] a']; by rewrite ?close_hub_eq.
Qed.

Lemma run_body_once_ends w ports ts a :
  (run_body w true ports ts a).1 <> Ret RunGoesOn.
Proof.
  unfold run_body, bind, ret.
  by destruct (refresh w ports false a) as [[[]|e] a'].
Qed.

(** X21. When [run] ends, by returning, by [sys.exit] or by an exception
    of the loop, the hub connection of an agent that started without one is
    closed. *)
Theorem run_closes_the_connection (w : World) (once opens : bool)
    (ports : list ListPortInfo) (ts : list Tick) (a : HubAgent) :
  _ser a = None ->
  (run w once opens ports ts a).1 <> Ret RunGoesOn ->
  _ser (run w once opens ports ts a).2 = None.
Proof.
  intros Hser. rewrite run_eq.
  destruct (negb opens && once); [done|]. cbn zeta.
  by destruct (run_body _ _ _ _ _) as [[[]|e] a'].
Qed.

(** X21, witness: the loop is ended by an exception in its first turn. *)
Lemma run_closes_the_connection_witness :
  _ser (run (sample_world (HubLine "[1]")) false true [board_port]
          [found_tick] sample_agent).2 = None.
Proof.
  apply (run_closes_the_connection (sample_world (HubLine "[1]")) false true
           [board_port] [found_tick] sample_agent).
  - reflexivity.
  - vm_compute. discriminate.
Defined.

(** X22. [run(once=True)] with a hub whose replies are dicts or false
    values: if the hub's port does not open it ends the process with status
    1 and leaves the agent as it was; if the port opens it scans, pushes,
    writes and logs CH1, CH2 and CH3 once, in this order, closes the
    connection and returns. *)
Theorem run_once_pushes_once (w : World) (ports : list ListPortInfo)
    (ts : list Tick) (a : HubAgent) :
  polite w ->
  run w true false ports ts a = (Ret (RunExit 1), a)
  /\ exists ds a_s d1 d2 d3 a',
       _scan_channels w ports (set_ser (Some {| is_open := true |}) a)
         = (Ret ds, a_s)
       /\ ds !! "CH1" = Some d1 /\ ds !! "CH2" = Some d2 /\ ds !! "CH3" = Some d3
       /\ run w true true ports ts a = (Ret RunReturn, a')
       /\ pushed a' = ([("CH3", d3); ("CH2", d2); ("CH1", d1)] ++ pushed a)%list
       /\ writes a' = ([("CH3", d3); ("CH2", d2); ("CH1", d1)] ++ writes a)%list
       /\ map log_channel (logged a')
          = (["CH3"; "CH2"; "CH1"] ++ map log_channel (logged a))%list
       /\ _ser a' = None.
Proof.
  intros Hp. split; [by rewrite run_eq|].
  set (a1 := set_ser (Some {| is_open := true |}) a).
  destruct (refresh_polite w ports false a1 Hp)
    as (ds & a_s & d1 & d2 & d3 & a' & Escan & H1 & H2 & H3 & Eref & _
        & Gp & Gw & _ & Gl).
  exists ds, a_s, d1, d2, d3, (set_ser None a').
  split; [done|]. split; [done|]. split; [done|]. split; [done|].
  split; [|split; [done|split; [done|split; [|done]]]].
  - rewrite run_eq. cbn [negb andb]. cbn zeta. fold a1.
    unfold run_body, bind, ret. by rewrite Eref.
  - cbn [logged set_ser]. rewrite Gl. f_equal. unfold CHANNELS, push_is_logged.
    rewrite !filter_cons_True by apply orb_true_r. done.
Qed.

(** X22, witness: the sample agent and the board on port 1. *)
Lemma run_once_pushes_once_witness :
  run (sample_world (HubLine ok_line)) true false [board_port] [] sample_agent
    = (Ret (RunExit 1), sample_agent)
  /\ exists ds a_s d1 d2 d3 a',
       _scan_channels (sample_world (HubLine ok_line)) [board_port]
         (set_ser (Some {| is_open := true |}) sample_agent) = (Ret ds, a_s)
       /\ ds !! "CH1" = Some d1 /\ ds !! "CH2" = Some d2 /\ ds !! "CH3" = Some d3
       /\ run (sample_world (HubLine ok_line)) true true [board_port] []
            sample_agent = (Ret RunReturn, a')
       /\ pushed a'
          = ([("CH3", d3); ("CH2", d2); ("CH1", d1)] ++ pushed sample_agent)%list
       /\ writes a'
          = ([("CH3", d3); ("CH2", d2); ("CH1", d1)] ++ writes sample_agent)%list
       /\ map log_channel (logged a')
          = (["CH3"; "CH2"; "CH1"] ++ map log_channel (logged sample_agent))%list
       /\ _ser a' = None.
Proof.
  apply (run_once_pushes_once (sample_world (HubLine ok_line)) [board_port] []
           sample_agent).
  apply sample_world_polite.
Defined.

(** ** Command line *)



(** The loop of [run] starts without a refresh when the connection is
    marked lost or the port does not open. *)
Lemma run_starts_lost w opens ports a :
  _ser a = None ->
  _hub_lost a = true \/ opens = false ->
  exists a',
    run w false opens ports [] a = (Ret RunGoesOn, a')
    /\ _hub_lost a' = true /\ running a' = true
    /\ pushed a' = pushed a /\ writes a' = writes a.
Proof.
  intros Hser Hlost. rewrite run_eq. rewrite andb_false_r. cbn zeta.
  unfold run_body, bind, modify, gets, ret. cbn [run_loop].
  destruct opens.
  - destruct Hlost as [Hlost|?]; [|done].
    cbn [_hub_lost set_running set_ser]. rewrite Hlost. cbn.
    eexists. by repeat split.
  - cbn. eexists. by repeat split.
Qed.

(** X24. With devices in the registry, no port given and no hub found:
    a one-shot call of [main] exits with status 1; a daemon call starts an
    agent with the word pending as port and as hub location and with the
    lost flag up, and [run] on that agent enters its loop, whether the port
    opens or not, without a refresh, with nothing pushed or written and the
    flag still up, so that the first turn of the loop is a reconnect. *)
Theorem main_waits_for_the_hub (w : World) (args : Args)
    (lines : list string) (ports : list ListPortInfo) (d : DeviceRecord)
    (devs : list DeviceRecord) (opens : bool) (first_ports : list ListPortInfo) :
  arg_install args = false ->
  arg_uninstall args = false ->
  parse_lines lines = d :: devs ->
  Py.truthy (arg_hub_port args) = false ->
  Py.truthy (find_insight_hub ports).1 = false ->
  if arg_once args || arg_status args
  then main args (ConfLines lines) ports = Returns (MainExit 1)
  else
    exists a a',
      main args (ConfLines lines) ports = Returns (MainRun false a)
      /\ hub_serial_port a = "pending"
      /\ hub_location a = Some "pending"
      /\ _hub_lost a = true
      /\ run w false opens first_ports [] a = (Ret RunGoesOn, a')
      /\ _hub_lost a' = true /\ running a' = true
      /\ pushed a' = [] /\ writes a' = [].
Proof.
  intros Hi Hu Hparse Hport Hfound.
  unfold main. rewrite Hi, Hu. cbn [parse_devices_conf io_bind].
  rewrite Hparse, Hport. cbn [negb orb].
  destruct (find_insight_hub ports) as [auto_port auto_location].
  cbn [fst] in Hfound. rewrite Hfound. cbn [negb].
  destruct (arg_once args) eqn:Eo; cbn [negb andb orb]; [done|].
  destruct (arg_status args) eqn:Es; cbn [negb andb orb]; [done|].
  cbn zeta. cbn [default from_option id String.eqb Ascii.eqb]. unfold id.
  change ("pending" =? "pending")%string with true. cbn iota.
  set (a := set_hub_lost true _).
  destruct (run_starts_lost w opens first_ports a) as (a' & E & H1 & H2 & H3 & H4);
    [done|by left|].
  exists a, a'. by repeat split.
Qed.

(** X24, witness: a registry with the board, and a bus without the hub. *)
Lemma main_waits_for_the_hub_witness :
  exists a a',
    main {| arg_hub_port := None; arg_hub_location := None;
            arg_once := false; arg_status := false;
            arg_install := false; arg_uninstall := false |}
      (ConfLines ["[board-b]"; "mac=b0a4d1"; "type=esp32"]) [board_port]
      = Returns (MainRun false a)
    /\ hub_serial_port a = "pending"
    /\ hub_location a = Some "pending"
    /\ _hub_lost a = true
    /\ run (sample_world (HubLine ok_line)) false false [board_port] [] a
       = (Ret RunGoesOn, a')
    /\ _hub_lost a' = true /\ running a' = true
    /\ pushed a' = [] /\ writes a' = [].
Proof.
  apply (main_waits_for_the_hub (sample_world (HubLine ok_line))
           {| arg_hub_port := None; arg_hub_location := None;
              arg_once := false; arg_status := false;
              arg_install := false; arg_uninstall := false |}
           ["[board-b]"; "mac=b0a4d1"; "type=esp32"] [board_port]
           board_b [] false [board_port]).
  - reflexivity.
  - reflexivity.
  - vm_compute. reflexivity.
  - reflexivity.
  - reflexivity.
Defined.

(** ** Status report *)

Lemma status_channel_devices_snoc devs hub ports q description ch :
  status_channel_devices devs hub (ports ++ [(q, description)]) !! ch =
    if decide (Py.truthy (serial_number q) = true
               /\ port_to_channel (location q) hub = Some ch)
    then
      Some {| st_serial_number := default "" (serial_number q);
              st_device := device q;
              st_name :=
                match devs !! default "" (serial_number q) with
                | Some d => Some (dev_name d)
                | None => description
                end;
              st_hub_name :=
                match devs !! default "" (serial_number q) with
                | Some d => dev_hub_name d
                | None => truncate (default "" (Py.or_ description (Some "?")))
                end;
              st_registered :=
                bool_decide (is_Some (devs !! default "" (serial_number q))) |}
    else status_channel_devices devs hub ports !! ch.
Proof.
  unfold status_channel_devices at 1. rewrite fold_left_app. cbn [fold_left].
  fold (status_channel_devices devs hub ports).
  destruct (Py.truthy (serial_number q)); cbn [negb];
    [|rewrite decide_False; [done|by intros [? _]]].
  destruct (port_to_channel (location q) hub) as [c|] eqn:E;
    [|rewrite decide_False; [done|by intros [_ ?]]].
  rewrite (port_to_channel_truthy _ _ _ E). cbn [default from_option id].
  unfold id. destruct (decide (c = ch)) as [->|Hne].
  - rewrite decide_True by done. by rewrite lookup_insert_eq.
  - rewrite decide_False by (intros [_ [= ?]]; done).
    by rewrite lookup_insert_ne.
Qed.

(** X25. The channel table of [status] against the channel assignment of
    the scan, for the same ports: a channel that the scan gives to a device
    has an entry in the table; an entry is on one of CH1, CH2, CH3, has a
    serial number that is not empty, and is marked registered exactly when
    its serial number is in the registry; for an entry marked registered
    the scan gives the channel to the same device, and the entry shows the
    name and display name of its record; for one not registered the display
    name shown has at most 14 characters. *)
Theorem status_agrees_with_scan (a : HubAgent)
    (ports : list (ListPortInfo * option string)) (ch : string) :
  let st := status_channel_devices (devices a) (hub_location a) ports !! ch in
  let oc := occupants a (map fst ports) !! ch in
  (is_Some oc -> is_Some st)
  /\ (forall e, st = Some e ->
        ch ∈ CHANNELS
        /\ st_serial_number e <> ""
        /\ (st_registered e = true <-> is_Some (devices a !! st_serial_number e))
        /\ (st_registered e = true ->
              exists p dev,
                oc = Some (st_serial_number e, p)
                /\ st_device e = device p
                /\ devices a !! st_serial_number e = Some dev
                /\ st_name e = Some (dev_name dev)
                /\ st_hub_name e = dev_hub_name dev)
        /\ (st_registered e = false ->
              (String.length (st_hub_name e) <= MAX_NAME_LEN)%nat)).
Proof.
  cbn zeta. unfold occupants.
  induction ports as [|[q description] ports [IH1 IH2]] using rev_ind.
  - split; [by intros [? ?]|]. intros e. unfold status_channel_devices.
    cbn [fold_left]. by rewrite lookup_empty.
  - rewrite map_app. cbn [map fst].
    rewrite status_channel_devices_snoc, channel_devices_of_snoc.
    unfold claimed_channel.
    destruct (Py.truthy (serial_number q)) eqn:Esn; cbn [andb].
    2:{ rewrite !decide_False by (try intros [? _]; done). by split. }
    apply truthy_inv in Esn as (sn & Esn & Hsn). rewrite Esn.
    cbn [default from_option id]. unfold id.
    destruct (decide (port_to_channel (location q) (hub_location a) = Some ch))
      as [Hch|Hch].
    2:{ rewrite (decide_False (P := _ /\ _)) by (by intros [_ ?]).
        rewrite decide_False by (by destruct (bool_decide _)). by split. }
    rewrite (decide_True (P := _ /\ _)) by done.
    split; [done|]. intros e [= <-]. cbn.
    split; [by eapply port_to_channel_in_CHANNELS|]. split; [done|].
    split; [apply bool_decide_eq_true|].
    destruct (devices a !! sn) as [dev|] eqn:Edev.
    + rewrite bool_decide_eq_true_2 by done. rewrite decide_True by done.
      split; [|done]. intros _. by exists q, dev.
    + split; [by rewrite bool_decide_eq_false_2 by (by intros [? ?])|].
      intros _. apply truncate_bound.
Qed.

(** ** Examples *)

Example port_to_channel_examples :
  port_to_channel (Some "20-3.3.2") (Some "20-3.3") = Some "CH2"
  /\ port_to_channel (Some "20-3.3.3.1.4") (Some "20-3.3") = Some "CH3"
  /\ port_to_channel (Some "20-3.3.+2.7") (Some "20-3.3") = Some "CH2"
  /\ port_to_channel (Some "20-3.3.10") (Some "20-3.3") = None
  /\ port_to_channel (Some "20-3.3.x") (Some "20-3.3") = None
  /\ port_to_channel (Some "20-3.3") (Some "20-3.3") = None
  /\ port_to_channel (Some "20-3.31") (Some "20-3.3") = None.
Proof. repeat split; vm_compute; reflexivity. Qed.

Example int_examples :
  Py.int " 1_0 " = Some 10 /\ Py.int "1__0" = None /\ Py.int "-07" = Some (-7)
  /\ Py.int "" = None /\ Py.int "1_" = None /\ Py.int "_1" = None
  /\ Py.int "+ 1" = None /\ Py.int "3" = Some 3.
Proof. repeat split; vm_compute; reflexivity. Qed.

Example str_examples :
  Py.str 1204 = "1204" /\ Py.str (-30) = "-30" /\ Py.str 0 = "0".
Proof. repeat split; vm_compute; reflexivity. Qed.

Example find_insight_hub_example :
  find_insight_hub [board_port; hub_port]
  = (Some "/dev/cu.usbmodem1", Some "20-3.3").
Proof. vm_compute. reflexivity. Qed.

Example probe_bootloader_examples :
  probe_bootloader boot_session = true
  /\ probe_bootloader dead_session = false.
Proof. split; vm_compute; reflexivity. Qed.

(** The registry holds the generic sensor, which is seen on port 2 of the
    hub: channel 2 shows its name in GREEN with no status line, channels 1
    and 3 show the placeholder. *)
Example scan_sensor_on_channel_2 :
  let r := _scan_channels (sample_world HubOSError)
             [sample_port (Some "/dev/cu.usbserial-1") "abc123" "20-3.3.2"]
             sample_agent in
  returned_display r "CH2"
  = Some {| Dev1_name := {| T1 := {| txt := "sensor-a"; color := "GREEN" |};
                            T2 := None |};
            numDev := "10"; usbType := "2" |}
  /\ returned_display r "CH1" = Some _empty_display
  /\ returned_display r "CH3" = Some _empty_display
  /\ probes r.2 = [].
Proof. cbv zeta. repeat split; vm_compute; reflexivity. Qed.

(** A push that the hub answers with a status ok returns [True]; one that
    it answers with a status error, with nothing, or with an [OSError]
    returns a false value, and only the last marks the connection lost. *)
Example push_channel_examples :
  let push reply :=
    _push_channel (sample_world reply) "CH1" _empty_display true
      connected_agent in
  (push (HubLine ok_line)).1 = Ret (PBool true)
  /\ (push (HubLine error_line)).1 = Ret (PBool false)
  /\ (push (HubLine "")).1 = Ret PNone
  /\ (push (HubLine "not json")).1 = Ret PNone
  /\ (push HubOSError).1 = Ret PNone
  /\ _hub_lost (push (HubLine error_line)).2 = false
  /\ _hub_lost (push (HubLine "not json")).2 = false
  /\ _hub_lost (push HubOSError).2 = true.
Proof. cbv zeta. repeat split; vm_compute; reflexivity. Qed.

(** The records of the sample registry file: the legacy line, and the two
    sections that have a serial number and are not hub sections. *)
Example parse_devices_conf_example :
  parse_devices_conf (ConfLines sample_conf)
  = Returns
      [{| dev_name := "old-sensor"; dev_serial_number := "00:11";
          dev_type := "generic"; dev_hub_name := "old-sensor" |};
       {| dev_name := "board one"; dev_serial_number := "AA:BB";
          dev_type := "esp32"; dev_hub_name := "board one" |};
       {| dev_name := "d2"; dev_serial_number := "s2";
          dev_type := "generic"; dev_hub_name := "a-very-long-na" |}]
  /\ parse_devices_conf NoFile = Returns []
  /\ parse_lines ["=x"; "[a]"; "b=c=d"; "mac="; "serial=q"]
     = [{| dev_name := ""; dev_serial_number := "x";
           dev_type := "generic"; dev_hub_name := "" |};
        {| dev_name := "a"; dev_serial_number := "q";
           dev_type := "generic"; dev_hub_name := "a" |}].
Proof. repeat split; vm_compute; reflexivity. Qed.

Example section_header_examples :
  section_header "[a]" = Some "a" /\ section_header "[]" = None
  /\ section_header "[a]]" = Some "a]" /\ section_header "[[a]" = Some "[a"
  /\ section_header "a]" = None
  /\ section_header ("[a]" +:+ String Py.LF "") = Some "a"
  /\ section_header ("[a" +:+ String Py.LF "]") = None.
Proof. repeat split; vm_compute; reflexivity. Qed.

(** The line written for the placeholder on channel 1, and the escapes of
    a name with a line feed, a double quote and a character above the
    tilde. *)
Example payload_examples :
  payload ("CH1", _empty_display)
  = "{" +:+ quoted "action" +:+ ":" +:+ quoted "set" +:+ ","
    +:+ quoted "params" +:+ ":{" +:+ quoted "CH1" +:+ ":{"
    +:+ quoted "Dev1_name" +:+ ":{" +:+ quoted "T1" +:+ ":{"
    +:+ quoted "txt" +:+ ":" +:+ quoted "---" +:+ ","
    +:+ quoted "color" +:+ ":" +:+ quoted "DARKGREY" +:+ "}},"
    +:+ quoted "numDev" +:+ ":" +:+ quoted "10" +:+ ","
    +:+ quoted "usbType" +:+ ":" +:+ quoted "2" +:+ "}}}"
    +:+ String Py.LF ""
  /\ json_str ("a" +:+ String Py.LF dq +:+ String (ascii_of_N 233) "")
     = quoted ("a\n\" +:+ dq +:+ "\u00e9").
Proof. split; vm_compute; reflexivity. Qed.

(** The report for the board on port 1 and a device that is not
    registered, and has no description, on port 3. *)
Example status_example :
  status [(board_port, Some "USB JTAG");
          (sample_port (Some "/dev/cu.usbserial-9") "zzz" "20-3.3.3", None)]
    sample_agent
  = ["Insight Hub: /dev/cu.usbmodem1"; "Hub location: 20-3.3";
     "Registered devices: 2"; "";
     "  CH1: board-b"; "       dev=/dev/cu.usbserial-7  hub_name=board-b";
     "  CH2: (empty)";
     "  CH3: None (unregistered)";
     "       dev=/dev/cu.usbserial-9  hub_name=?"].
Proof. vm_compute. reflexivity. Qed.

(** [main] with the hub on the bus: the agent of a one-shot call has the
    port and hub location found; with an empty registry file [main] exits
    before it looks for the hub. *)
Example main_examples :
  let args once :=
    {| arg_hub_port := None; arg_hub_location := None; arg_once := once;
       arg_status := false; arg_install := false; arg_uninstall := false |} in
  main (args true) (ConfLines ["[board-b]"; "mac=b0a4d1"; "type=esp32"])
    [board_port; hub_port]
  = Returns (MainRun true
               (HubAgent_init "/dev/cu.usbmodem1" (Some "20-3.3") [board_b]))
  /\ main (args true) (ConfLines ["# nothing"]) [board_port; hub_port]
     = Returns (MainExit 1)
  /\ main (args false) NoFile [] = Returns (MainExit 1)
  /\ main (args false) Unreadable [] = Raises.
Proof. cbv zeta. repeat split; vm_compute; reflexivity. Qed.
